(** * Tiered conversational memory engine of my_clawbot

    A shallow embedding of [src/memory/ShortTermMemory.js],
    [src/memory/LongTermMemory.js], [src/memory/RAGMemory.js] and
    [src/memory/MemoryManager.js], followed by the properties of the
    specification, each proved (or refuted) on the embedding.

    Conventions of the embedding
    - JavaScript numbers are IEEE 754 doubles: scores and thresholds are
      primitive floats ([PrimFloat]), so that [0.5 + 0.2 + 0.2] rounds as it
      does in the engine.  Numbers that are array lengths, limits, ids or
      epoch milliseconds are integers ([Z]).
    - Strings are [string]; a character is read as a Latin-1 code unit.
    - [new Date()], [generateId()] and the SHA-256 digest are inputs of the
      operations that use them: the model is deterministic in them.
    - A [REAL] column of the database holds a double or [NULL]; what
      SQLite keeps of a double bound to a statement is [bind_double].
      Calendar arithmetic in the local time zone is the platform's.
    - An [async] method that can end in an exception returns a
      [completion]; the object's fields after the call are returned beside
      it, so that what a failed call has already written stays visible. *)

From Stdlib Require Import ZArith List String Ascii Bool Lia Floats.
From Stdlib Require Import Sorted Permutation.
From stdpp Require Import gmap strings list.
Set Warnings "-inexact-float".
Import ListNotations.
Local Open Scope Z_scope.

(* ===================================================================== *)
(** * JavaScript primitives used by the engine *)
(* ===================================================================== *)

Module JS.

(** ** Completions: a normal value or a thrown error *)

Inductive Error : Type :=
| Err (message : string)          (* [new Error(message)] *)
| TypeError (message : string)    (* raised by the runtime, e.g. on [null.run] *)
| SyntaxError (message : string). (* raised by [JSON.parse] *)

Inductive completion (A : Type) : Type :=
| Normal (a : A)
| Throw (e : Error).
Arguments Normal {A} a.
Arguments Throw {A} e.

Definition bind {A B} (c : completion A) (k : A -> completion B) : completion B :=
  match c with
  | Normal a => k a
  | Throw e => Throw e
  end.

(** [try { body } catch (error) { handler }] *)
Definition try_catch {A} (body : completion A) (handler : Error -> completion A)
  : completion A :=
  match body with
  | Normal a => Normal a
  | Throw e => handler e
  end.

Definition is_throw {A} (c : completion A) : bool :=
  match c with Normal _ => false | Throw _ => true end.

(** ** Numbers *)

(** The double nearest to an integer (exact below [2^53]). *)
Definition Z_to_float (z : Z) : float :=
  SF2Prim (binary_normalize prec emax z 0 false).

(** Truthiness of a number: everything but [0], [-0] and [NaN]. *)
Definition truthy (f : float) : bool :=
  negb (PrimFloat.eqb f 0%float) && negb (PrimFloat.is_nan f).

Inductive IntegerOrInfinity : Type :=
| MinusInfinity
| Finite (z : Z)
| PlusInfinity.

(** ECMAScript [ToIntegerOrInfinity]: [NaN] and zeros go to [0], finite
    numbers are truncated toward zero. *)
Definition ToIntegerOrInfinity (f : float) : IntegerOrInfinity :=
  match Prim2SF f with
  | S754_nan => Finite 0
  | S754_zero _ => Finite 0
  | S754_infinity s => if s then MinusInfinity else PlusInfinity
  | S754_finite s m e =>
      let mag := if 0 <=? e then Z.pos m * 2 ^ e else Z.pos m / 2 ^ (- e) in
      Finite (if s then - mag else mag)
  end.

(** [n > f] for an integer [n] (an array length) and a double [f]: the
    comparison of the two real values, false against [NaN]. *)
Definition Z_gt_float (n : Z) (f : float) : bool :=
  match Prim2SF f with
  | S754_nan => false
  | S754_zero _ => 0 <? n
  | S754_infinity s => s
  | S754_finite s m e =>
      (* floor of the value of [f] *)
      let fl := if 0 <=? e then (if s then - (Z.pos m * 2 ^ e) else Z.pos m * 2 ^ e)
                else (if s then - (Z.pos m) else Z.pos m) / 2 ^ (- e) in
      fl <? n
  end.

(** [parseInt(process.env.X) || d]: the variable is unset or not a number
    ([None], i.e. [NaN]) or parses to an integer; [0] is falsy as well. *)
Definition parseInt_or (env : option Z) (d : Z) : Z :=
  match env with
  | Some n => if n =? 0 then d else n
  | None => d
  end.

(** ** Arrays *)

(** The index an argument of [slice] denotes in an array of length [len]. *)
Definition relative_index (len : Z) (r : IntegerOrInfinity) : Z :=
  match r with
  | MinusInfinity => 0
  | Finite z => if z <? 0 then Z.max (len + z) 0 else Z.min z len
  | PlusInfinity => len
  end.

(** [l.slice(start, end)] *)
Definition slice {A} (l : list A) (start end_ : IntegerOrInfinity) : list A :=
  let len := Z.of_nat (length l) in
  let k := relative_index len start in
  let final := relative_index len end_ in
  firstn (Z.to_nat (final - k)) (skipn (Z.to_nat k) l).

(** [l.slice(start)]: the end defaults to the length. *)
Definition slice_from {A} (l : list A) (start : IntegerOrInfinity) : list A :=
  slice l start PlusInfinity.

(** What is left of [l] after [l.splice(0, deleteCount)]: the count is
    clamped between [0] and the length. *)
Definition splice0 {A} (l : list A) (deleteCount : Z) : list A :=
  let len := Z.of_nat (length l) in
  skipn (Z.to_nat (Z.min (Z.max deleteCount 0) len)) l.

(** ** Strings *)

Definition code (c : ascii) : N := N_of_ascii c.

(** [toLowerCase] on a Latin-1 code unit: [A-Z] and the accented capitals
    [U+00C0..U+00DE] (the multiplication sign [U+00D7] apart) move by 32. *)
Definition lower_char (c : ascii) : ascii :=
  let n := code c in
  if ((65 <=? n) && (n <=? 90))%N
     || ((192 <=? n) && (n <=? 222) && negb (n =? 215))%N
  then ascii_of_N (n + 32) else c.

Fixpoint toLowerCase (s : string) : string :=
  match s with
  | EmptyString => EmptyString
  | String c s' => String (lower_char c) (toLowerCase s')
  end.

(** White space and line terminators stripped by [trim]: TAB, LF, VT, FF,
    CR, SP and NBSP. *)
Definition is_whitespace (c : ascii) : bool :=
  let n := code c in
  ((9 <=? n) && (n <=? 13) || (n =? 32) || (n =? 160))%N.

Fixpoint trimStart (s : string) : string :=
  match s with
  | EmptyString => EmptyString
  | String c s' => if is_whitespace c then trimStart s' else s
  end.

Fixpoint trimEnd (s : string) : string :=
  match s with
  | EmptyString => EmptyString
  | String c s' =>
      match trimEnd s' with
      | EmptyString => if is_whitespace c then EmptyString else String c EmptyString
      | t => String c t
      end
  end.

Definition trim (s : string) : string := trimEnd (trimStart s).

(** [s.length] *)
Definition strlen (s : string) : Z := Z.of_nat (String.length s).

(** [s.includes(sub)] *)
Fixpoint includes (s sub : string) : bool :=
  if String.prefix sub s then true
  else match s with
       | EmptyString => false
       | String _ s' => includes s' sub
       end.

(** [s.substring(0, n)] for [0 <= n] *)
Definition substring0 (n : nat) (s : string) : string := String.substring 0 n s.

(** A string is falsy exactly when it is empty; [undefined] is falsy. *)
Definition falsy_string (s : option string) : bool :=
  match s with
  | None => true
  | Some EmptyString => true
  | Some _ => false
  end.

(** [l.findIndex(p)]: [None] stands for [-1]. *)
Fixpoint findIndex {A} (p : A -> bool) (l : list A) : option nat :=
  match l with
  | [] => None
  | x :: l' => if p x then Some 0%nat
               else match findIndex p l' with
                    | Some i => Some (S i)
                    | None => None
                    end
  end.

(** What is left of [l] after [l.splice(i, 1)] for an index [i] of [l]. *)
Definition splice1 {A} (l : list A) (i : nat) : list A :=
  firstn i l ++ skipn (S i) l.

End JS.

(* ===================================================================== *)
(** * Data model *)
(* ===================================================================== *)

(** Values found in metadata objects. *)
Inductive JsValue : Type :=
| VString (s : string)
| VInt (z : Z)
| VDate (ms : Z).

(** A plain object used as a record of tags: its own keys in insertion
    order. *)
Definition Metadata : Type := list (string * JsValue).

(** [{...o, k: v}]: an existing key keeps its place and takes the new
    value, a new key goes last. *)
Fixpoint obj_set (o : Metadata) (k : string) (v : JsValue) : Metadata :=
  match o with
  | [] => [(k, v)]
  | (k', v') :: o' =>
      if String.eqb k' k then (k, v) :: o' else (k', v') :: obj_set o' k v
  end.

(** The objects handed to the memory tiers: a short-tier event as
    [MiniBotCore] builds it ([type], [content], [timestamp], [platform]),
    or a turn as [updateLongTermMemory] builds it ([userMessage],
    [botResponse], [timestamp], [importance]).  A field that the object
    does not have is [None] ([undefined]). *)
Record MemoryItem : Type := mkItem {
  item_id : option string;
  item_timestamp : option Z;
  item_type : option string;
  item_content : option string;
  item_platform : option string;
  item_importance : option float;
  item_userMessage : option string;
  item_botResponse : option string;
  item_metadata : option Metadata
}.

(* ===================================================================== *)
(** * Recent Buffer: [ShortTermMemory.js] *)
(* ===================================================================== *)

Module ShortTermMemory.

(** [this.memory] (user id to array of items) and [this.maxItems]. *)
Record t : Type := mk {
  memory : gmap string (list MemoryItem);
  maxItems : Z
}.

(** [constructor()], given [parseInt(process.env.SHORT_MEMORY_LIMIT)]. *)
Definition new (SHORT_MEMORY_LIMIT : option Z) : t :=
  {| memory := ∅; maxItems := JS.parseInt_or SHORT_MEMORY_LIMIT 50 |}.

(** [{ id: this.generateId(), timestamp: new Date(), ...memoryItem }] *)
Definition stamp (freshId : string) (now : Z) (memoryItem : MemoryItem) : MemoryItem :=
  {| item_id := Some (default freshId (item_id memoryItem));
     item_timestamp := Some (default now (item_timestamp memoryItem));
     item_type := item_type memoryItem;
     item_content := item_content memoryItem;
     item_platform := item_platform memoryItem;
     item_importance := item_importance memoryItem;
     item_userMessage := item_userMessage memoryItem;
     item_botResponse := item_botResponse memoryItem;
     item_metadata := item_metadata memoryItem |}.

(** [add(userId, memoryItem)]: returns the item's id and the buffer
    afterwards.  The array is pushed to and spliced in place, so the map
    ends up holding the spliced array. *)
Definition add (self : t) (userId : string) (freshId : string) (now : Z)
    (memoryItem : MemoryItem) : string * t :=
  let memory1 :=
    match memory self !! userId with
    | None => <[userId := []]> (memory self)
    | Some _ => memory self
    end in
  let userMemory := default [] (memory1 !! userId) in
  let item := stamp freshId now memoryItem in
  let pushed := userMemory ++ [item] in
  let len := Z.of_nat (length pushed) in
  let kept :=
    if maxItems self <? len then JS.splice0 pushed (len - maxItems self)
    else pushed in
  (default freshId (item_id memoryItem),
   {| memory := <[userId := kept]> memory1; maxItems := maxItems self |}).

(** [getRecent(userId, limit = 10)] *)
Definition getRecent (self : t) (userId : string) (limit : Z) : list MemoryItem :=
  match memory self !! userId with
  | None => []
  | Some userMemory => rev (JS.slice_from userMemory (JS.Finite (- limit)))
  end.

(** [getAll(userId)] *)
Definition getAll (self : t) (userId : string) : list MemoryItem :=
  match memory self !! userId with
  | None => []
  | Some userMemory => userMemory
  end.

(** [getCount(userId)] *)
Definition getCount (self : t) (userId : string) : Z :=
  match memory self !! userId with
  | None => 0
  | Some userMemory => Z.of_nat (length userMemory)
  end.

(** [getOldest(userId, limit = 10)] *)
Definition getOldest (self : t) (userId : string) (limit : Z) : list MemoryItem :=
  match memory self !! userId with
  | None => []
  | Some userMemory => JS.slice userMemory (JS.Finite 0) (JS.Finite limit)
  end.

(** [cleanup(userId, keepCount)]; [keepCount] is the double the
    orchestrator computes. *)
Definition cleanup (self : t) (userId : string) (keepCount : float) : t :=
  match memory self !! userId with
  | None => self
  | Some userMemory =>
      if JS.Z_gt_float (Z.of_nat (length userMemory)) keepCount then
        let toKeep :=
          JS.slice_from userMemory (JS.ToIntegerOrInfinity (PrimFloat.opp keepCount)) in
        {| memory := <[userId := toKeep]> (memory self); maxItems := maxItems self |}
      else self
  end.

(** [clear(userId)] *)
Definition clear (self : t) (userId : string) : t :=
  match memory self !! userId with
  | Some _ => {| memory := delete userId (memory self); maxItems := maxItems self |}
  | None => self
  end.

(** The fields of [getStatus()] that are counts. *)
Definition totalUsers (self : t) : Z := Z.of_nat (size (memory self)).

Definition totalItems (self : t) : Z :=
  map_fold (fun _ userMemory acc => acc + Z.of_nat (length userMemory)) 0 (memory self).

(** [search(userId, query)], given [JSON.stringify] on items. *)
Definition search (stringify : MemoryItem -> string) (self : t) (userId query : string)
  : list MemoryItem :=
  match memory self !! userId with
  | None => []
  | Some userMemory =>
      let queryLower := JS.toLowerCase query in
      List.filter
        (fun item => JS.includes (JS.toLowerCase (stringify item)) queryLower)
        userMemory
  end.

(** [item.id === itemId] *)
Definition has_id (itemId : string) (item : MemoryItem) : bool :=
  match item_id item with
  | Some i => String.eqb i itemId
  | None => false
  end.

(** [remove(userId, itemId)]: the array is spliced in place. *)
Definition remove (self : t) (userId itemId : string) : bool * t :=
  match memory self !! userId with
  | None => (false, self)
  | Some userMemory =>
      match JS.findIndex (has_id itemId) userMemory with
      | None => (false, self)
      | Some itemIndex =>
          (true,
           {| memory := <[userId := JS.splice1 userMemory itemIndex]> (memory self);
              maxItems := maxItems self |})
      end
  end.

End ShortTermMemory.

(* ===================================================================== *)
(** * Library functions the engine calls *)
(* ===================================================================== *)

(** The structured part of a stored record:
    [{ userMessage, botResponse, timestamp }]. *)
Record Content : Type := mkContent {
  c_userMessage : option string;
  c_botResponse : option string;
  c_timestamp : option Z
}.

(** Functions of the platform ([crypto], [JSON], SQLite's [LIKE], the
    calendar of the local time zone) that the engine calls and this
    development does not define.  Every statement below holds for all of
    them. *)
Class Platform : Type := {
  (** hex digest of SHA-256 over the bytes fed to [hash.update] *)
  sha256_hex : string -> string;
  (** [JSON.stringify] of a metadata object *)
  JSON_stringify : Metadata -> string;
  (** [JSON.stringify] of a content object *)
  JSON_stringify_content : Content -> string;
  (** [JSON.parse] of a content column: [None] when it throws *)
  JSON_parse_content : string -> option Content;
  (** [text LIKE pattern] *)
  sql_like : string -> string -> bool;
  (** [d.setDate(d.getDate() - days)] on a [Date] that reads [now]: the
      time value afterwards, [days] calendar days of the local time zone
      earlier *)
  Date_days_before : Z -> Z -> Z
}.

(* ===================================================================== *)
(** * Durable Store: [LongTermMemory.js] *)
(* ===================================================================== *)

Module LongTermMemory.

(** The [content] column: what [store] serialized, or the text an
    [update] wrote as it was given. *)
Inductive StoredContent : Type :=
| Serialized (c : Content)
| Raw (s : string).

(** The [importance] column, of type [REAL]: a double, or [NULL]
    ([None]).  SQLite holds no NaN. *)
Definition SqlReal : Type := option float.

(** A double bound to a statement parameter, as SQLite stores it in a
    [REAL] column: NaN is stored as [NULL], and negative zero as zero (a
    real that equals an integer is kept as that integer and read back as
    a real). *)
Definition bind_double (f : float) : SqlReal :=
  if PrimFloat.is_nan f then None
  else if PrimFloat.eqb f 0%float then Some 0%float
  else Some f.

(** [column < ?], [column >= ?]: a comparison with [NULL] is not true.
    A NaN parameter is bound as [NULL]; the comparison of doubles is
    false for it as well. *)
Definition sql_lt_param (column : SqlReal) (param : float) : bool :=
  match column with
  | Some x => PrimFloat.ltb x param
  | None => false
  end.

Definition sql_ge_param (column : SqlReal) (param : float) : bool :=
  match column with
  | Some x => PrimFloat.leb param x
  | None => false
  end.

(** The order of [ORDER BY] on a [REAL] column: [NULL] is below every
    number. *)
Definition sql_below (a b : SqlReal) : bool :=
  match a, b with
  | None, None => false
  | None, Some _ => true
  | Some _, None => false
  | Some x, Some y => PrimFloat.ltb x y
  end.

Definition sql_same (a b : SqlReal) : bool :=
  match a, b with
  | None, None => true
  | Some x, Some y => PrimFloat.eqb x y
  | _, _ => false
  end.

(** A row of the table [long_term_memory]. *)
Record Row : Type := mkRow {
  id : Z;
  user_id : string;
  content : StoredContent;
  metadata : Metadata;
  importance : SqlReal;
  timestamp : Z;
  created_at : Z;
  updated_at : Z
}.

(** The table in row-id order and the last id that [AUTOINCREMENT] gave. *)
Record Table : Type := mkTable {
  rows : list Row;
  seq : Z
}.

(** [this.db]: [null] until [initialize] has opened the database. *)
Record t : Type := mk { db : option Table }.

(** [constructor()] *)
Definition new : t := {| db := None |}.

(** [initialize()], given the table found in the database file. *)
Definition initialize (persisted : Table) : t := {| db := Some persisted |}.

(** All rows, none when there is no database. *)
Definition all_rows (self : t) : list Row :=
  match db self with
  | Some tbl => rows tbl
  | None => []
  end.

Definition rows_of_user (self : t) (userId : string) : list Row :=
  List.filter (fun r => String.eqb (user_id r) userId) (all_rows self).

Definition null_db : JS.Error :=
  JS.TypeError "Cannot read properties of null".

(** [store(userId, memoryData)]: the new id ([result?.lastID || null]),
    or the error rethrown by the [catch]. *)
Definition store (self : t) (userId : string) (memoryData : MemoryItem) (now : Z)
  : JS.completion (option Z) * t :=
  match db self with
  | None => (JS.Throw null_db, self)
  | Some tbl =>
      let content :=
        Serialized {| c_userMessage := item_userMessage memoryData;
                      c_botResponse := item_botResponse memoryData;
                      c_timestamp := item_timestamp memoryData |} in
      let lastID := seq tbl + 1 in
      let row :=
        {| id := lastID;
           user_id := userId;
           content := content;
           metadata := default [] (item_metadata memoryData);
           importance := bind_double (default 0.5%float (item_importance memoryData));
           timestamp := default now (item_timestamp memoryData);
           created_at := now;
           updated_at := now |} in
      let memoryId := if lastID =? 0 then None else Some lastID in
      (JS.Normal memoryId,
       {| db := Some {| rows := rows tbl ++ [row]; seq := lastID |} |})
  end.

(** The fields an [update] may carry. *)
Record Updates : Type := mkUpdates {
  u_content : option StoredContent;
  u_metadata : option Metadata;
  u_importance : option float
}.

Definition apply_updates (updates : Updates) (now : Z) (r : Row) : Row :=
  {| id := id r;
     user_id := user_id r;
     content := default (content r) (u_content updates);
     metadata := default (metadata r) (u_metadata updates);
     importance :=
       match u_importance updates with
       | Some f => bind_double f
       | None => importance r
       end;
     timestamp := timestamp r;
     created_at := created_at r;
     updated_at := now |}.

Definition count_where (p : Row -> bool) (l : list Row) : Z :=
  Z.of_nat (length (List.filter p l)).

(** [update(id, updates)]: [result.changes > 0]; [false] on an error. *)
Definition update (self : t) (id_ : Z) (updates : Updates) (now : Z) : bool * t :=
  match db self with
  | None => (false, self)
  | Some tbl =>
      let hit := fun r => id r =? id_ in
      let changes := count_where hit (rows tbl) in
      (0 <? changes,
       {| db := Some {| rows := List.map (fun r => if hit r then apply_updates updates now r else r)
                                         (rows tbl);
                        seq := seq tbl |} |})
  end.

(** [delete(id)] *)
Definition delete (self : t) (id_ : Z) : bool * t :=
  match db self with
  | None => (false, self)
  | Some tbl =>
      let hit := fun r => id r =? id_ in
      (0 <? count_where hit (rows tbl),
       {| db := Some {| rows := List.filter (fun r => negb (hit r)) (rows tbl);
                        seq := seq tbl |} |})
  end.

(** [clear(userId)]: the number of rows deleted, or the error rethrown. *)
Definition clear (self : t) (userId : string) : JS.completion Z * t :=
  match db self with
  | None => (JS.Throw null_db, self)
  | Some tbl =>
      let hit := fun r => String.eqb (user_id r) userId in
      (JS.Normal (count_where hit (rows tbl)),
       {| db := Some {| rows := List.filter (fun r => negb (hit r)) (rows tbl);
                        seq := seq tbl |} |})
  end.

(** [ORDER BY timestamp ASC]: rows with equal timestamps stay in row-id
    order, as a scan of [idx_timestamp] returns them. *)
Fixpoint insert_by_timestamp (r : Row) (l : list Row) : list Row :=
  match l with
  | [] => [r]
  | x :: l' =>
      if timestamp r <=? timestamp x then r :: l else x :: insert_by_timestamp r l'
  end.

Definition order_by_timestamp (l : list Row) : list Row :=
  fold_right insert_by_timestamp [] l.

(** The options of [cleanup], each with its default. *)
Record CleanupOptions : Type := mkOptions {
  maxAge : option Z;            (* days, default 365 *)
  minImportance : option float; (* default 0.1 *)
  maxRecords : option Z         (* default 10000 *)
}.

(** [cutoffDate]: [new Date()] set back by [maxAge] calendar days. *)
Definition cutoffDate {P : Platform} (now maxAge_ : Z) : Z :=
  Date_days_before now maxAge_.

(** The first [DELETE] of [cleanup]: old and of low importance. *)
Definition old_and_unimportant (cutoff : Z) (minImportance_ : float) (r : Row) : bool :=
  (timestamp r <? cutoff) && sql_lt_param (importance r) minImportance_.

(** The ids that [SELECT id ... ORDER BY timestamp ASC LIMIT excess]
    returns. *)
Definition oldest_ids (l : list Row) (excess : Z) : list Z :=
  List.map id (firstn (Z.to_nat excess) (order_by_timestamp l)).

Definition id_in (ids : list Z) (r : Row) : bool :=
  existsb (Z.eqb (id r)) ids.

(** The table after both phases of [cleanup], with the changes of each. *)
Definition cleanup_phases {P : Platform} (tbl : Table) (options : CleanupOptions) (now : Z)
  : Table * Z * Z :=
  let maxAge_ := default 365 (maxAge options) in
  let minImportance_ := default 0.1%float (minImportance options) in
  let maxRecords_ := default 10000 (maxRecords options) in
  let cutoff := cutoffDate now maxAge_ in
  let rows1 := List.filter (fun r => negb (old_and_unimportant cutoff minImportance_ r))
                           (rows tbl) in
  let changes1 := Z.of_nat (length (rows tbl)) - Z.of_nat (length rows1) in
  let total := Z.of_nat (length rows1) in
  if maxRecords_ <? total then
    let excessRecords := total - maxRecords_ in
    let ids := oldest_ids rows1 excessRecords in
    let rows2 := List.filter (fun r => negb (id_in ids r)) rows1 in
    let changes2 := Z.of_nat (length rows1) - Z.of_nat (length rows2) in
    ({| rows := rows2; seq := seq tbl |}, changes1, changes2)
  else
    ({| rows := rows1; seq := seq tbl |}, changes1, 0).

(** [cleanup(options)]: the value returned is [result1.changes]; the sum
    [changes1 + changes2] is only logged.  [0] on an error. *)
Definition cleanup {P : Platform} (self : t) (options : CleanupOptions) (now : Z)
  : Z * t :=
  match db self with
  | None => (0, self)
  | Some tbl =>
      let '(tbl', changes1, changes2) := cleanup_phases tbl options now in
      (changes1, {| db := Some tbl' |})
  end.

(** What [cleanup] writes to the log: ["Cleaned up N old memories"]. *)
Definition cleanup_logged {P : Platform} (self : t) (options : CleanupOptions) (now : Z)
  : option Z :=
  match db self with
  | None => None
  | Some tbl =>
      let '(_, changes1, changes2) := cleanup_phases tbl options now in
      Some (changes1 + changes2)
  end.

(** A row as the read paths return it. *)
Record LongTermRecord : Type := mkRecord {
  r_id : Z;
  r_content : Content;
  r_metadata : Metadata;
  r_importance : SqlReal;
  r_timestamp : Z
}.

(** The text of the [content] column. *)
Definition content_text {P : Platform} (c : StoredContent) : string :=
  match c with
  | Serialized c => JSON_stringify_content c
  | Raw s => s
  end.

(** [JSON.parse(row.content)]: [None] when it throws. *)
Definition parse_content {P : Platform} (c : StoredContent) : option Content :=
  match c with
  | Serialized c => Some c
  | Raw s => JSON_parse_content s
  end.

(** [ORDER BY importance DESC, timestamp DESC], ties in row-id order;
    rows whose importance is [NULL] come last. *)
Definition ranks_before (r x : Row) : bool :=
  sql_below (importance x) (importance r)
  || (sql_same (importance r) (importance x) && (timestamp x <=? timestamp r)).

Fixpoint insert_by_rank (r : Row) (l : list Row) : list Row :=
  match l with
  | [] => [r]
  | x :: l' => if ranks_before r x then r :: l else x :: insert_by_rank r l'
  end.

Definition order_by_rank (l : list Row) : list Row :=
  fold_right insert_by_rank [] l.

(** [LIMIT n]: a negative [n] is no limit. *)
Definition sql_limit {A} (n : Z) (l : list A) : list A :=
  if n <? 0 then l else firstn (Z.to_nat n) l.

(** [results.map(row => ...)]: [None] when a [JSON.parse] throws. *)
Fixpoint to_records {P : Platform} (l : list Row) : option (list LongTermRecord) :=
  match l with
  | [] => Some []
  | r :: l' =>
      match parse_content (content r), to_records l' with
      | Some c, Some rs =>
          Some ({| r_id := id r; r_content := c; r_metadata := metadata r;
                   r_importance := importance r; r_timestamp := timestamp r |} :: rs)
      | _, _ => None
      end
  end.

Definition unexpected_token : JS.Error := JS.SyntaxError "Unexpected token".

(** The [try] block of [getRelevant]: it raises when there is no
    database ([this.db] is [null]) and when the content of a selected
    row is not JSON. *)
Definition getRelevant_body {P : Platform} (self : t) (userId query : string) (limit : Z)
  : JS.completion (list LongTermRecord) :=
  match db self with
  | None => JS.Throw null_db
  | Some tbl =>
      let searchTerm := ("%" ++ query ++ "%")%string in
      let hit := fun r =>
        String.eqb (user_id r) userId
        && (sql_like searchTerm (content_text (content r))
            || sql_like searchTerm (JSON_stringify (metadata r))) in
      let results := sql_limit limit (order_by_rank (List.filter hit (rows tbl))) in
      match to_records results with
      | Some records => JS.Normal records
      | None => JS.Throw unexpected_token
      end
  end.

(** [getRelevant(userId, query, limit = 5)]: every error ends in the
    [catch], which returns [[]]. *)
Definition getRelevant {P : Platform} (self : t) (userId query : string) (limit : Z)
  : list LongTermRecord :=
  match JS.try_catch (getRelevant_body self userId query limit)
                     (fun _ => JS.Normal []) with
  | JS.Normal records => records
  | JS.Throw _ => []
  end.

(** [ORDER BY timestamp DESC], ties in row-id order. *)
Fixpoint insert_by_timestamp_desc (r : Row) (l : list Row) : list Row :=
  match l with
  | [] => [r]
  | x :: l' =>
      if timestamp x <=? timestamp r then r :: l else x :: insert_by_timestamp_desc r l'
  end.

Definition order_by_timestamp_desc (l : list Row) : list Row :=
  fold_right insert_by_timestamp_desc [] l.

(** [getRecent(userId, limit = 10)]: every error ends in the [catch],
    which returns [[]]. *)
Definition getRecent {P : Platform} (self : t) (userId : string) (limit : Z)
  : list LongTermRecord :=
  match db self with
  | None => []
  | Some tbl =>
      let hit := fun r => String.eqb (user_id r) userId in
      let results :=
        sql_limit limit (order_by_timestamp_desc (List.filter hit (rows tbl))) in
      default [] (to_records results)
  end.

(** The options of [search], each with its default. *)
Record SearchOptions : Type := mkSearchOptions {
  s_limit : option Z;              (* default 10 *)
  s_minImportance : option float;  (* default 0 *)
  s_startDate : option Z;          (* default null *)
  s_endDate : option Z             (* default null *)
}.

(** The [WHERE] clause that [search] builds: the text test is added for
    a query that is not empty, each date test for a date that is given. *)
Definition search_hit {P : Platform} (userId query : string) (options : SearchOptions)
    (r : Row) : bool :=
  let searchTerm := ("%" ++ query ++ "%")%string in
  String.eqb (user_id r) userId
  && sql_ge_param (importance r) (default 0%float (s_minImportance options))
  && (if JS.falsy_string (Some query) then true
      else sql_like searchTerm (content_text (content r))
           || sql_like searchTerm (JSON_stringify (metadata r)))
  && match s_startDate options with
     | Some startDate => startDate <=? timestamp r
     | None => true
     end
  && match s_endDate options with
     | Some endDate => timestamp r <=? endDate
     | None => true
     end.

(** [search(userId, query, options = {})] *)
Definition search {P : Platform} (self : t) (userId query : string)
    (options : SearchOptions) : list LongTermRecord :=
  match db self with
  | None => []
  | Some tbl =>
      let results :=
        sql_limit (default 10 (s_limit options))
          (order_by_rank (List.filter (search_hit userId query options) (rows tbl))) in
      default [] (to_records results)
  end.

End LongTermMemory.

(* ===================================================================== *)
(** * Semantic Index: [RAGMemory.js] *)
(* ===================================================================== *)

Module RAGMemory.

(** A stored document: [{ id, content, metadata }]. *)
Record Document : Type := mkDocument {
  doc_id : string;
  doc_content : string;
  doc_metadata : Metadata
}.

(** The argument of [addDocument]: [{ content, metadata }], either of
    which may be missing. *)
Record DocumentInput : Type := mkInput {
  in_content : option string;
  in_metadata : option Metadata
}.

(** [this.documents]: a [Map] in insertion order, [undefined] until
    [initialize] has run.  [this.client] is [null] on every path (only the
    constructor assigns it), so the in-memory branches are the ones that
    run and the only ones modelled. *)
Record t : Type := mk { documents : option (list (string * Document)) }.

(** [constructor()] *)
Definition new : t := {| documents := None |}.

(** [initialize()] *)
Definition initialize (self : t) : t := {| documents := Some [] |}.

(** [Map.prototype.set]: an existing key keeps its place. *)
Fixpoint Map_set (m : list (string * Document)) (k : string) (v : Document)
  : list (string * Document) :=
  match m with
  | [] => [(k, v)]
  | (k', v') :: m' =>
      if String.eqb k' k then (k, v) :: m' else (k', v') :: Map_set m' k v
  end.

(** [generateDocumentId(content, metadata)] *)
Definition generateDocumentId {P : Platform} (content : string) (metadata : Metadata)
  : string :=
  JS.substring0 16 (sha256_hex (content ++ JSON_stringify metadata)%string).

Definition empty_content : JS.Error := JS.Err "Document content cannot be empty".

Definition undefined_documents : JS.Error :=
  JS.TypeError "Cannot read properties of undefined".

(** [!content || content.trim().length === 0] *)
Definition content_missing (content : option string) : bool :=
  JS.falsy_string content
  || match content with
     | Some s => JS.strlen (JS.trim s) =? 0
     | None => true
     end.

(** [addDocument(document)], given [new Date().toISOString()]: the id, or
    the error that the [catch] rethrows. *)
Definition addDocument {P : Platform} (self : t) (document : DocumentInput)
    (addedAt : string) : JS.completion string * t :=
  let content := in_content document in
  let metadata := default [] (in_metadata document) in
  if content_missing content then (JS.Throw empty_content, self)
  else
    match content with
    | None => (JS.Throw empty_content, self)
    | Some content =>
        let id := generateDocumentId content metadata in
        match documents self with
        | None => (JS.Throw undefined_documents, self)
        | Some docs =>
            let doc :=
              {| doc_id := id;
                 doc_content := content;
                 doc_metadata :=
                   obj_set (obj_set metadata "addedAt" (VString addedAt))
                           "contentLength" (VInt (JS.strlen content)) |} in
            (JS.Normal id, {| documents := Some (Map_set docs id doc) |})
        end
    end.

(** An element of a search result. *)
Record ScoredDocument : Type := mkScored {
  s_content : string;
  similarity : float;
  distance : float;
  s_metadata : Metadata
}.

(** The score and distance every fallback match gets. *)
Definition fallback_similarity : float := 0.8%float.
Definition fallback_distance : float := 0.2%float.

(** The body of [for (const [id, doc] of this.documents)]: push on a
    match. *)
Definition search_step (queryLower : string) (results : list ScoredDocument)
    (entry : string * Document) : list ScoredDocument :=
  let doc := snd entry in
  if JS.includes (JS.toLowerCase (doc_content doc)) queryLower then
    results ++ [ {| s_content := doc_content doc;
                    similarity := fallback_similarity;
                    distance := fallback_distance;
                    s_metadata := doc_metadata doc |} ]
  else results.

(** [!query || query.trim().length === 0] *)
Definition query_missing (query : string) : bool :=
  JS.falsy_string (Some query) || (JS.strlen (JS.trim query) =? 0).

(** The [try] block of [search]. *)
Definition search_body (self : t) (query : string) (limit : Z)
  : JS.completion (list ScoredDocument) :=
  if query_missing query then JS.Normal []
  else
    match documents self with
    | None => JS.Throw undefined_documents
    | Some docs =>
        let queryLower := JS.toLowerCase query in
        let results := fold_left (search_step queryLower) docs [] in
        JS.Normal (JS.slice results (JS.Finite 0) (JS.Finite limit))
    end.

(** [search(query, limit = 5)]: the [catch] logs and returns [[]]. *)
Definition search (self : t) (query : string) (limit : Z) : list ScoredDocument :=
  match JS.try_catch (search_body self query limit) (fun _ => JS.Normal []) with
  | JS.Normal results => results
  | JS.Throw _ => []
  end.

(** [getStatus().totalDocuments] *)
Definition totalDocuments (self : t) : Z :=
  match documents self with
  | Some docs => Z.of_nat (length docs)
  | None => 0
  end.

(** ** The methods that go through [this.collection]

    [this.collection] is [null] on every path (only the constructor
    assigns it), so each use of it raises a [TypeError].
    [this.openai] is set by [initialize] when an API key is configured;
    the embeddings call is the environment's: [None] stands for no
    client, [Some api] for a client whose call on a text ends as [api]
    says. *)

Definition Embedding : Type := list float.

Definition EmbeddingApi : Type := option (string -> JS.completion Embedding).

Definition null_collection : JS.Error :=
  JS.TypeError "Cannot read properties of null".

Definition no_openai : JS.Error :=
  JS.Err "OpenAI client not initialized for embeddings".

(** [generateEmbedding(text)]: the [catch] logs and rethrows. *)
Definition generateEmbedding (api : EmbeddingApi) (text : string)
  : JS.completion Embedding :=
  match api with
  | None => JS.Throw no_openai
  | Some call => call text
  end.

(** The argument of [updateDocument]. *)
Record DocumentUpdates : Type := mkDocumentUpdates {
  up_content : option string;
  up_metadata : option Metadata
}.

(** The [try] block of [updateDocument]. *)
Definition updateDocument_body (api : EmbeddingApi) (updates : DocumentUpdates)
  : JS.completion unit :=
  if negb (JS.falsy_string (up_content updates)) then
    JS.bind (generateEmbedding api (default ""%string (up_content updates)))
            (fun _ => JS.Throw null_collection)
  else
    match up_metadata updates with
    | Some _ => JS.Throw null_collection
    | None => JS.Normal tt
    end.

(** [updateDocument(id, updates)]: [true], or [false] from the [catch]. *)
Definition updateDocument (self : t) (api : EmbeddingApi) (id : string)
    (updates : DocumentUpdates) : bool * t :=
  match updateDocument_body api updates with
  | JS.Normal _ => (true, self)
  | JS.Throw _ => (false, self)
  end.

(** [deleteDocument(id)]: [this.collection.delete] raises, the [catch]
    returns [false]. *)
Definition deleteDocument (self : t) (id : string) : bool * t :=
  match JS.try_catch (JS.Throw null_collection) (fun _ => JS.Normal false) with
  | JS.Normal b => (b, self)
  | JS.Throw _ => (false, self)
  end.

(** [getDocument(id)]: [this.collection.get] raises, the [catch] returns
    [null]. *)
Definition getDocument (self : t) (id : string) : option Document :=
  match JS.try_catch (JS.Throw null_collection) (fun _ => JS.Normal None) with
  | JS.Normal d => d
  | JS.Throw _ => None
  end.

Definition not_found : JS.Error := JS.Err "Document not found".

(** [searchSimilar(documentId, limit = 5)] *)
Definition searchSimilar (self : t) (documentId : string) (limit : Z)
  : list ScoredDocument :=
  let body :=
    match getDocument self documentId with
    | None => JS.Throw not_found
    | Some doc => JS.Normal (search self (doc_content doc) (limit + 1))
    end in
  match JS.try_catch body (fun _ => JS.Normal []) with
  | JS.Normal results => results
  | JS.Throw _ => []
  end.

(** [cleanup(options)]: [this.collection.get] raises, the [catch]
    returns [0]. *)
Definition cleanup (self : t) : Z * t :=
  match JS.try_catch (JS.Throw null_collection) (fun _ => JS.Normal 0) with
  | JS.Normal n => (n, self)
  | JS.Throw _ => (0, self)
  end.

Definition not_an_array : JS.Error := JS.Err "Documents must be a non-empty array".

(** The loop of [addBulkDocuments]: the ids gathered, or the error of
    the first embedding that fails.  A document without content is
    skipped before any embedding is asked for. *)
Fixpoint bulk_ids {P : Platform} (api : EmbeddingApi) (documents : list DocumentInput)
    (ids : list string) : JS.completion (list string) :=
  match documents with
  | [] => JS.Normal ids
  | doc :: rest =>
      if content_missing (in_content doc) then bulk_ids api rest ids
      else
        let content := default ""%string (in_content doc) in
        let metadata := default [] (in_metadata doc) in
        JS.bind (generateEmbedding api content) (fun _ =>
          bulk_ids api rest (ids ++ [generateDocumentId content metadata]))
  end.

(** [addBulkDocuments(documents)] for an array: the ids, or the error
    that the [catch] rethrows. *)
Definition addBulkDocuments {P : Platform} (self : t) (api : EmbeddingApi)
    (documents : list DocumentInput) : JS.completion (list string) * t :=
  match documents with
  | [] => (JS.Throw not_an_array, self)
  | _ =>
      (JS.bind (bulk_ids api documents []) (fun ids =>
         if 0 <? Z.of_nat (length ids) then JS.Throw null_collection
         else JS.Normal ids),
       self)
  end.

End RAGMemory.

(* ===================================================================== *)
(** * Memory Orchestrator: [MemoryManager.js] *)
(* ===================================================================== *)

Module MemoryManager.

Record t : Type := mk {
  shortTermMemory : ShortTermMemory.t;
  longTermMemory : LongTermMemory.t;
  ragMemory : RAGMemory.t;
  isInitialized : bool
}.

(** [constructor()], given [parseInt(process.env.SHORT_MEMORY_LIMIT)]. *)
Definition new (SHORT_MEMORY_LIMIT : option Z) : t :=
  {| shortTermMemory := ShortTermMemory.new SHORT_MEMORY_LIMIT;
     longTermMemory := LongTermMemory.new;
     ragMemory := RAGMemory.new;
     isInitialized := false |}.

(** [initialize()], given the table found in the database file. *)
Definition initialize (self : t) (persisted : LongTermMemory.Table) : t :=
  {| shortTermMemory := shortTermMemory self;
     longTermMemory := LongTermMemory.initialize persisted;
     ragMemory := RAGMemory.initialize (ragMemory self);
     isInitialized := true |}.

(** The result of [getRelevantContext]. *)
Record ContextBundle : Type := mkBundle {
  shortTerm : list MemoryItem;
  longTerm : list LongTermMemory.LongTermRecord;
  rag : list RAGMemory.ScoredDocument
}.

Definition empty_bundle : ContextBundle :=
  {| shortTerm := []; longTerm := []; rag := [] |}.

Definition not_initialized : JS.Error := JS.Err "Memory Manager not initialized".

(** The control flow of [getRelevantContext], for any outcome of the
    three awaited tier calls: the guard on [isInitialized] throws outside
    the [try]; inside it, the first call that throws sends control to the
    [catch], which returns three empty arrays. *)
Definition assemble (initialized : bool)
    (recent : JS.completion (list MemoryItem))
    (relevant : JS.completion (list LongTermMemory.LongTermRecord))
    (found : JS.completion (list RAGMemory.ScoredDocument))
  : JS.completion ContextBundle :=
  if negb initialized then JS.Throw not_initialized
  else
    JS.try_catch
      (JS.bind recent (fun shortTerm =>
       JS.bind relevant (fun longTerm =>
       JS.bind found (fun rag =>
       JS.Normal {| shortTerm := shortTerm; longTerm := longTerm; rag := rag |}))))
      (fun _ => JS.Normal empty_bundle).

(** [getRelevantContext(userId, query)] over the engine's own tiers, none
    of whose three methods throws. *)
Definition getRelevantContext {P : Platform} (self : t) (userId query : string)
  : JS.completion ContextBundle :=
  assemble (isInitialized self)
    (JS.Normal (ShortTermMemory.getRecent (shortTermMemory self) userId 10))
    (JS.Normal (LongTermMemory.getRelevant (longTermMemory self) userId query 5))
    (JS.Normal (RAGMemory.search (ragMemory self) query 5)).

(** [Math.min(a, b)] *)
Definition Math_min (a b : float) : float :=
  if PrimFloat.is_nan a || PrimFloat.is_nan b then PrimFloat.nan
  else if PrimFloat.ltb a b then a
  else if PrimFloat.ltb b a then b
  else if PrimFloat.get_sign a then a else b.

Definition highImportanceKeywords : list string :=
  ["important"; "urgent"; "critical"; "remember"]%string.

Definition mediumImportanceKeywords : list string :=
  ["project"; "task"; "deadline"; "meeting"]%string.

(** The body of each [forEach]: add [weight] when the keyword occurs. *)
Definition add_if_included (messageText : string) (weight : float)
    (importance : float) (keyword : string) : float :=
  if JS.includes messageText keyword then PrimFloat.add importance weight
  else importance.

(** [calculateImportance(userMessage, botResponse)] *)
Definition calculateImportance (userMessage botResponse : string) : float :=
  let importance := 0.5%float in
  let messageText := JS.toLowerCase (userMessage ++ " " ++ botResponse)%string in
  let importance :=
    fold_left (add_if_included messageText 0.2%float) highImportanceKeywords importance in
  let importance :=
    fold_left (add_if_included messageText 0.1%float) mediumImportanceKeywords importance in
  let importance :=
    if 500 <? JS.strlen botResponse then PrimFloat.add importance 0.1%float
    else importance in
  let importance :=
    if 200 <? JS.strlen userMessage then PrimFloat.add importance 0.1%float
    else importance in
  Math_min importance 1.0%float.

(** [memory.importance && memory.importance > 0.7] *)
Definition is_important (memory : MemoryItem) : bool :=
  match item_importance memory with
  | None => false
  | Some importance => JS.truthy importance && PrimFloat.ltb 0.7%float importance
  end.

(** The [for] loop of the consolidation: [store] each important memory,
    the [k]-th one at the time [clock k]; a [store] that throws ends the
    loop. *)
Fixpoint store_important (ltm : LongTermMemory.t) (userId : string)
    (clock : nat -> Z) (k : nat) (oldMemories : list MemoryItem)
  : JS.completion unit * LongTermMemory.t :=
  match oldMemories with
  | [] => (JS.Normal tt, ltm)
  | memory :: rest =>
      if is_important memory then
        match LongTermMemory.store ltm userId memory (clock k) with
        | (JS.Normal _, ltm') => store_important ltm' userId clock (S k) rest
        | (JS.Throw e, ltm') => (JS.Throw e, ltm')
        end
      else store_important ltm userId clock (S k) rest
  end.

(** [consolidateMemoryIfNeeded(userId)], given
    [parseInt(process.env.LONG_MEMORY_THRESHOLD)]. *)
Definition consolidateMemoryIfNeeded (self : t) (userId : string)
    (LONG_MEMORY_THRESHOLD : option Z) (clock : nat -> Z)
  : JS.completion unit * t :=
  let shortTermCount := ShortTermMemory.getCount (shortTermMemory self) userId in
  let threshold := JS.parseInt_or LONG_MEMORY_THRESHOLD 100 in
  if threshold <? shortTermCount then
    let oldMemories := ShortTermMemory.getOldest (shortTermMemory self) userId 20 in
    match store_important (longTermMemory self) userId clock 0 oldMemories with
    | (JS.Throw e, ltm') =>
        (JS.Throw e,
         {| shortTermMemory := shortTermMemory self;
            longTermMemory := ltm';
            ragMemory := ragMemory self;
            isInitialized := isInitialized self |})
    | (JS.Normal _, ltm') =>
        let keepCount := PrimFloat.mul (JS.Z_to_float threshold) 0.8%float in
        (JS.Normal tt,
         {| shortTermMemory := ShortTermMemory.cleanup (shortTermMemory self) userId keepCount;
            longTermMemory := ltm';
            ragMemory := ragMemory self;
            isInitialized := isInitialized self |})
    end
  else (JS.Normal tt, self).

(** [clearUserMemory(userId, type = 'all')]: the [catch] logs and
    rethrows; what was cleared before the error stays cleared. *)
Definition clearUserMemory (self : t) (userId : string) (type : string)
  : JS.completion unit * t :=
  let stm :=
    if String.eqb type "all" || String.eqb type "short"
    then ShortTermMemory.clear (shortTermMemory self) userId
    else shortTermMemory self in
  if String.eqb type "all" || String.eqb type "long" then
    match LongTermMemory.clear (longTermMemory self) userId with
    | (JS.Normal _, ltm) =>
        (JS.Normal tt,
         {| shortTermMemory := stm; longTermMemory := ltm;
            ragMemory := ragMemory self; isInitialized := isInitialized self |})
    | (JS.Throw e, ltm) =>
        (JS.Throw e,
         {| shortTermMemory := stm; longTermMemory := ltm;
            ragMemory := ragMemory self; isInitialized := isInitialized self |})
    end
  else
    (JS.Normal tt,
     {| shortTermMemory := stm; longTermMemory := longTermMemory self;
        ragMemory := ragMemory self; isInitialized := isInitialized self |}).

(** [addToShortMemory(userId, memoryItem)] *)
Definition addToShortMemory (self : t) (userId : string) (freshId : string) (now : Z)
    (memoryItem : MemoryItem) : JS.completion string * t :=
  if negb (isInitialized self) then (JS.Throw not_initialized, self)
  else
    let '(id, stm) := ShortTermMemory.add (shortTermMemory self) userId freshId now memoryItem in
    (JS.Normal id,
     {| shortTermMemory := stm; longTermMemory := longTermMemory self;
        ragMemory := ragMemory self; isInitialized := isInitialized self |}).

Definition importantKeywords : list string :=
  ["remember"; "important"; "project"; "deadline"; "meeting";
   "password"; "login"; "configuration"; "settings"; "preference"]%string.

(** [shouldStoreInLongTerm(userMessage, botResponse)] *)
Definition shouldStoreInLongTerm (userMessage botResponse : string) : bool :=
  let messageText := JS.toLowerCase (userMessage ++ " " ++ botResponse)%string in
  let hasImportantKeywords := existsb (fun keyword => JS.includes messageText keyword)
                                      importantKeywords in
  let isDetailed := (100 <? JS.strlen userMessage) || (200 <? JS.strlen botResponse) in
  let hasQA := JS.includes userMessage "?" && (50 <? JS.strlen botResponse) in
  hasImportantKeywords || isDetailed || hasQA.

(** The line feed of the template literal. *)
Definition newline : string := String "010"%char EmptyString.

(** The document that [updateLongTermMemory] adds to the Semantic Index. *)
Definition conversation_document (userId userMessage botResponse : string) (timestamp : Z)
  : RAGMemory.DocumentInput :=
  {| RAGMemory.in_content :=
       Some ("User: " ++ userMessage ++ newline ++ "Bot: " ++ botResponse)%string;
     RAGMemory.in_metadata :=
       Some [("userId"%string, VString userId);
             ("timestamp"%string, VDate timestamp);
             ("type"%string, VString "conversation")] |}.

Definition with_tiers (self : t) (ltm : LongTermMemory.t) (rag_ : RAGMemory.t) : t :=
  {| shortTermMemory := shortTermMemory self; longTermMemory := ltm;
     ragMemory := rag_; isInitialized := isInitialized self |}.

(** [updateLongTermMemory(userId, userMessage, botResponse)], given the
    two readings of [new Date()] (for the stored turn and for the
    document's metadata), [new Date().toISOString()] of [addDocument],
    and what the consolidation needs.  The first call that throws sends
    control to the [catch], which logs and returns; what was written
    before stays written. *)
Definition updateLongTermMemory {P : Platform} (self : t)
    (userId userMessage botResponse : string)
    (storedAt indexedAt : Z) (addedAt : string)
    (LONG_MEMORY_THRESHOLD : option Z) (clock : nat -> Z) : t :=
  if shouldStoreInLongTerm userMessage botResponse then
    let memoryData :=
      {| item_id := None; item_timestamp := Some storedAt;
         item_type := None; item_content := None; item_platform := None;
         item_importance := Some (calculateImportance userMessage botResponse);
         item_userMessage := Some userMessage; item_botResponse := Some botResponse;
         item_metadata := None |} in
    match LongTermMemory.store (longTermMemory self) userId memoryData storedAt with
    | (JS.Throw _, ltm) => with_tiers self ltm (ragMemory self)
    | (JS.Normal _, ltm) =>
        match RAGMemory.addDocument (ragMemory self)
                (conversation_document userId userMessage botResponse indexedAt) addedAt with
        | (JS.Throw _, rag_) => with_tiers self ltm rag_
        | (JS.Normal _, rag_) =>
            snd (consolidateMemoryIfNeeded (with_tiers self ltm rag_) userId
                   LONG_MEMORY_THRESHOLD clock)
        end
    end
  else snd (consolidateMemoryIfNeeded self userId LONG_MEMORY_THRESHOLD clock).

(** The options of [searchMemory]. *)
Record SearchMemoryOptions : Type := mkSearchMemoryOptions {
  includeShortTerm : option bool;
  includeLongTerm : option bool;
  includeRAG : option bool;
  ragLimit : option Z
}.

(** [options.includeX !== false] *)
Definition included (flag : option bool) : bool :=
  match flag with
  | Some false => false
  | _ => true
  end.

(** The control flow of [searchMemory], for any outcome of the three
    awaited tier calls: [results] is filled tier by tier; the first call
    that throws sends control to the [catch], which returns [results] as
    filled so far.  A tier that is excluded is not called. *)
Definition gather (options : SearchMemoryOptions)
    (short : JS.completion (list MemoryItem))
    (long : JS.completion (list LongTermMemory.LongTermRecord))
    (found : JS.completion (list RAGMemory.ScoredDocument))
  : ContextBundle :=
  let results0 := empty_bundle in
  let step3 (results : ContextBundle) :=
    if included (includeRAG options) then
      match found with
      | JS.Normal r => {| shortTerm := shortTerm results; longTerm := longTerm results; rag := r |}
      | JS.Throw _ => results
      end
    else results in
  let step2 (results : ContextBundle) :=
    if included (includeLongTerm options) then
      match long with
      | JS.Normal l =>
          step3 {| shortTerm := shortTerm results; longTerm := l; rag := rag results |}
      | JS.Throw _ => results
      end
    else step3 results in
  if included (includeShortTerm options) then
    match short with
    | JS.Normal s => step2 {| shortTerm := s; longTerm := longTerm results0; rag := rag results0 |}
    | JS.Throw _ => results0
    end
  else step2 results0.

Definition no_search_options : LongTermMemory.SearchOptions :=
  {| LongTermMemory.s_limit := None; LongTermMemory.s_minImportance := None;
     LongTermMemory.s_startDate := None; LongTermMemory.s_endDate := None |}.

(** [searchMemory(userId, query, options = {})] over the engine's own
    tiers, given [JSON.stringify] on items; [options.ragLimit || 5]. *)
Definition searchMemory {P : Platform} (stringify : MemoryItem -> string) (self : t)
    (userId query : string) (options : SearchMemoryOptions) : ContextBundle :=
  gather options
    (JS.Normal (ShortTermMemory.search stringify (shortTermMemory self) userId query))
    (JS.Normal (LongTermMemory.search (longTermMemory self) userId query no_search_options))
    (JS.Normal (RAGMemory.search (ragMemory self) query
                  (JS.parseInt_or (ragLimit options) 5))).

End MemoryManager.

(* ===================================================================== *)
(** * Vocabulary of the statements *)
(* ===================================================================== *)

(** The last [n] elements of a list (all of it when it is shorter). *)
Definition keep_last {A} (n : nat) (l : list A) : list A :=
  skipn (length l - n) l.

(** One call [add(userId, memoryItem)] with the id and the time it draws. *)
Record AddCall : Type := mkCall {
  call_user : string;
  call_id : string;
  call_now : Z;
  call_item : MemoryItem
}.

(** A sequence of [add] calls, run in order. *)
Definition add_all (self : ShortTermMemory.t) (calls : list AddCall) : ShortTermMemory.t :=
  fold_left
    (fun s c => snd (ShortTermMemory.add s (call_user c) (call_id c) (call_now c) (call_item c)))
    calls self.

(** The items that the calls for [userId] append, in call order. *)
Definition appended (userId : string) (calls : list AddCall) : list MemoryItem :=
  List.map (fun c => ShortTermMemory.stamp (call_id c) (call_now c) (call_item c))
           (List.filter (fun c => String.eqb (call_user c) userId) calls).

(** ** Sample data *)

(** A short-tier event as [MiniBotCore.processMessage] builds it. *)
Definition user_message (content : string) (timestamp : Z) : MemoryItem :=
  {| item_id := None; item_timestamp := Some timestamp;
     item_type := Some "user_message"%string; item_content := Some content;
     item_platform := Some "telegram"%string; item_importance := None;
     item_userMessage := None; item_botResponse := None; item_metadata := None |}.

(** The same event carrying a precomputed [importance]. *)
Definition scored_message (content : string) (timestamp : Z) (importance : float)
  : MemoryItem :=
  {| item_id := None; item_timestamp := Some timestamp;
     item_type := Some "user_message"%string; item_content := Some content;
     item_platform := Some "telegram"%string; item_importance := Some importance;
     item_userMessage := None; item_botResponse := None; item_metadata := None |}.

(** Three [add] calls of one user. *)
Definition three_calls : list AddCall :=
  [ {| call_user := "alice"; call_id := "id1"; call_now := 1; call_item := user_message "one" 1 |};
    {| call_user := "alice"; call_id := "id2"; call_now := 2; call_item := user_message "two" 2 |};
    {| call_user := "alice"; call_id := "id3"; call_now := 3; call_item := user_message "three" 3 |}
  ]%string.

(** An item whose [importance] field is a number greater than [0.7]. *)
Definition importance_above_07 (memory : MemoryItem) : bool :=
  match item_importance memory with
  | Some importance => PrimFloat.ltb 0.7%float importance
  | None => false
  end.

(** The [k]-th event of a long conversation: the first three carry an
    importance of [0.9], the next seven one of [0.5], the rest none. *)
Definition event_call (k : nat) : AddCall :=
  {| call_user := "alice"%string;
     call_id := "id"%string;
     call_now := Z.of_nat k;
     call_item :=
       if (k <? 3)%nat then scored_message "note" (Z.of_nat k) 0.9%float
       else if (k <? 10)%nat then scored_message "chat" (Z.of_nat k) 0.5%float
       else user_message "chat" (Z.of_nat k) |}.

(** An initialized engine with room for 200 events per user and an empty
    database, after [n] events of one user. *)
Definition engine_after (n : nat) : MemoryManager.t :=
  let fresh :=
    MemoryManager.initialize (MemoryManager.new (Some 200))
      {| LongTermMemory.rows := []; LongTermMemory.seq := 0 |} in
  {| MemoryManager.shortTermMemory :=
       add_all (MemoryManager.shortTermMemory fresh) (List.map event_call (seq 0 n));
     MemoryManager.longTermMemory := MemoryManager.longTermMemory fresh;
     MemoryManager.ragMemory := MemoryManager.ragMemory fresh;
     MemoryManager.isInitialized := MemoryManager.isInitialized fresh |}.

(** A clock that reads [1000 + k] at the [k]-th store. *)
Definition sample_clock (k : nat) : Z := 1000 + Z.of_nat k.

(** A turn as [updateLongTermMemory] hands it to [store]. *)
Definition turn (userMessage botResponse : string) (timestamp : Z)
    (importance : option float) : MemoryItem :=
  {| item_id := None; item_timestamp := Some timestamp;
     item_type := None; item_content := None; item_platform := None;
     item_importance := importance;
     item_userMessage := Some userMessage; item_botResponse := Some botResponse;
     item_metadata := None |}.

(** A number within [[0, 1]]. *)
Definition in_unit (f : float) : bool :=
  PrimFloat.leb 0%float f && PrimFloat.leb f 1%float.

(** A write to the Durable Store. *)
Inductive DurableWrite : Type :=
| Store (userId : string) (memoryData : MemoryItem) (now : Z)
| Update (id : Z) (updates : LongTermMemory.Updates) (now : Z).

(** The importance that a write passes explicitly, if it passes one. *)
Definition explicit_importance (w : DurableWrite) : option float :=
  match w with
  | Store _ memoryData _ => item_importance memoryData
  | Update _ updates _ => LongTermMemory.u_importance updates
  end.

Definition write (self : LongTermMemory.t) (w : DurableWrite) : LongTermMemory.t :=
  match w with
  | Store userId memoryData now => snd (LongTermMemory.store self userId memoryData now)
  | Update id updates now => snd (LongTermMemory.update self id updates now)
  end.

(** A sequence of writes, run in order. *)
Definition run_writes (self : LongTermMemory.t) (ws : list DurableWrite) : LongTermMemory.t :=
  fold_left write ws self.

(** An open, empty database. *)
Definition empty_store : LongTermMemory.t :=
  LongTermMemory.initialize {| LongTermMemory.rows := []; LongTermMemory.seq := 0 |}.

(** The column holds a number within [[0, 1]]. *)
Definition column_in_unit (column : LongTermMemory.SqlReal) : bool :=
  match column with
  | Some f => in_unit f
  | None => false
  end.

(** Every stored record has its importance within [[0, 1]]. *)
Definition rows_in_unit (self : LongTermMemory.t) : Prop :=
  Forall (fun r => column_in_unit (LongTermMemory.importance r) = true)
         (LongTermMemory.all_rows self).

(** The column holds the number that was written: the same double, but
    for the sign of zero. *)
Definition holds_number (column : LongTermMemory.SqlReal) (f : float) : bool :=
  match column with
  | Some g => PrimFloat.eqb f g
  | None => false
  end.

(** ** The importance formula in exact arithmetic *)

(** How many of the keywords occur in the text. *)
Definition keyword_hits (keywords : list string) (text : string) : Z :=
  Z.of_nat (length (List.filter (JS.includes text) keywords)).

(** [min(1.0, 0.5 + 0.2 h + 0.1 m + 0.1 + 0.1)] counted in tenths. *)
Definition claimed_tenths (userMessage botResponse : string) : Z :=
  let text := JS.toLowerCase (userMessage ++ " " ++ botResponse)%string in
  Z.min 10
    (5 + 2 * keyword_hits MemoryManager.highImportanceKeywords text
       + keyword_hits MemoryManager.mediumImportanceKeywords text
       + (if 500 <? JS.strlen botResponse then 1 else 0)
       + (if 200 <? JS.strlen userMessage then 1 else 0)).

(** The double that the decimal [k/10] denotes: the quotient of two
    exact doubles, correctly rounded. *)
Definition tenths (k : Z) : float := PrimFloat.div (JS.Z_to_float k) 10%float.

Definition claimed_importance (userMessage botResponse : string) : float :=
  tenths (claimed_tenths userMessage botResponse).

(** The score is a function of ten tests: eight keywords, two lengths. *)
Definition score_of_flags (i u c r p t d m long_response long_message : bool) : float :=
  let add (b : bool) (w x : float) := if b then PrimFloat.add x w else x in
  MemoryManager.Math_min
    (add long_message 0.1 (add long_response 0.1
       (add m 0.1 (add d 0.1 (add t 0.1 (add p 0.1
          (add r 0.2 (add c 0.2 (add u 0.2 (add i 0.2 0.5))))))))))%float
    1%float.

Definition tenths_of_flags (i u c r p t d m long_response long_message : bool) : Z :=
  let n (b : bool) := if b then 1 else 0 in
  Z.min 10 (5 + 2 * (n i + n u + n c + n r) + (n p + n t + n d + n m)
              + n long_response + n long_message).

(** ** Semantic Index *)

(** A string made of white space only (the empty string is one). *)
Definition whitespace_only (s : string) : bool :=
  forallb JS.is_whitespace (list_ascii_of_string s).

(** Content that is absent, empty, or white space only. *)
Definition blank (content : option string) : bool :=
  match content with
  | None => true
  | Some s => whitespace_only s
  end.

(** The stored documents, in insertion order. *)
Definition stored (self : RAGMemory.t) : list RAGMemory.Document :=
  List.map snd (default [] (RAGMemory.documents self)).

(** The content of the document contains the query, letter case apart. *)
Definition matches (query : string) (doc : RAGMemory.Document) : bool :=
  JS.includes (JS.toLowerCase (RAGMemory.doc_content doc)) (JS.toLowerCase query).

(** The element that a fallback search returns for a document. *)
Definition scored (doc : RAGMemory.Document) : RAGMemory.ScoredDocument :=
  {| RAGMemory.s_content := RAGMemory.doc_content doc;
     RAGMemory.similarity := RAGMemory.fallback_similarity;
     RAGMemory.distance := RAGMemory.fallback_distance;
     RAGMemory.s_metadata := RAGMemory.doc_metadata doc |}.

(** A stand-in for the platform, to run the engine on sample data: the
    digest is the text itself, an object is serialized by its keys, and
    the local time zone is UTC, where every day has 24 hours. *)
Definition sample_platform : Platform :=
  {| sha256_hex := fun s => s;
     JSON_stringify := fun o => String.concat "," (List.map fst o);
     JSON_stringify_content := fun c => default ""%string (c_userMessage c);
     JSON_parse_content := fun _ => None;
     sql_like := fun pattern text => true;
     Date_days_before := fun now days => now - days * 86400000 |}.

(** The index after [addDocument] of the given contents, without
    metadata, on a fresh initialized index. *)
Definition index_of (contents : list string) : RAGMemory.t :=
  fold_left
    (fun s content =>
       snd (@RAGMemory.addDocument sample_platform s
              {| RAGMemory.in_content := Some content; RAGMemory.in_metadata := None |}
              "2024-01-01T00:00:00.000Z"))
    contents (RAGMemory.initialize RAGMemory.new).

(** ** Durable Store cleanup *)

(** A record is at least as old as another. *)
Definition not_newer (a b : LongTermMemory.Row) : Prop :=
  LongTermMemory.timestamp a <= LongTermMemory.timestamp b.

(** Three turns of one user, stored at the times 100, 300 and 200. *)
Definition three_records : LongTermMemory.t :=
  run_writes empty_store
    [Store "alice" (turn "first" "ok" 100 (Some 0.9%float)) 100;
     Store "alice" (turn "second" "ok" 300 (Some 0.9%float)) 300;
     Store "alice" (turn "third" "ok" 200 (Some 0.9%float)) 200].

(** Cleanup options that cap the table at one record. *)
Definition cap_at_one : LongTermMemory.CleanupOptions :=
  {| LongTermMemory.maxAge := None;
     LongTermMemory.minImportance := None;
     LongTermMemory.maxRecords := Some 1 |}.

(** The ids of a table are distinct and none is above the last id given. *)
Definition well_keyed (tbl : LongTermMemory.Table) : Prop :=
  NoDup (List.map LongTermMemory.id (LongTermMemory.rows tbl))
  /\ Forall (fun r => LongTermMemory.id r <= LongTermMemory.seq tbl) (LongTermMemory.rows tbl).

(** ** Recent Buffer operations *)

(** An operation on the Recent Buffer that can change it. *)
Inductive BufferOp : Type :=
| BufAdd (call : AddCall)
| BufRemove (userId itemId : string)
| BufCleanup (userId : string) (keepCount : float)
| BufClear (userId : string).

Definition buffer_step (self : ShortTermMemory.t) (op : BufferOp) : ShortTermMemory.t :=
  match op with
  | BufAdd c =>
      snd (ShortTermMemory.add self (call_user c) (call_id c) (call_now c) (call_item c))
  | BufRemove userId itemId => snd (ShortTermMemory.remove self userId itemId)
  | BufCleanup userId keepCount => ShortTermMemory.cleanup self userId keepCount
  | BufClear userId => ShortTermMemory.clear self userId
  end.

(** A sequence of operations, run in order. *)
Definition buffer_run (self : ShortTermMemory.t) (ops : list BufferOp) : ShortTermMemory.t :=
  fold_left buffer_step ops self.

(** No user holds more than [maxItems] items. *)
Definition within_capacity (self : ShortTermMemory.t) : Prop :=
  forall userId, ShortTermMemory.getCount self userId <= ShortTermMemory.maxItems self.

(** ** Durable Store operations *)

(** An operation on the Durable Store that can change it. *)
Inductive DurableOp : Type :=
| DurWrite (w : DurableWrite)
| DurDelete (id : Z)
| DurClear (userId : string)
| DurCleanup (options : LongTermMemory.CleanupOptions) (now : Z).

Definition durable_step {P : Platform} (self : LongTermMemory.t) (op : DurableOp)
  : LongTermMemory.t :=
  match op with
  | DurWrite w => write self w
  | DurDelete id => snd (LongTermMemory.delete self id)
  | DurClear userId => snd (LongTermMemory.clear self userId)
  | DurCleanup options now => snd (LongTermMemory.cleanup self options now)
  end.

(** A sequence of operations, run in order. *)
Definition durable_run {P : Platform} (self : LongTermMemory.t) (ops : list DurableOp)
  : LongTermMemory.t :=
  fold_left durable_step ops self.

(** A record returned by a read path is the row it was made from. *)
Definition record_of (row : LongTermMemory.Row) (r : LongTermMemory.LongTermRecord) : Prop :=
  LongTermMemory.r_id r = LongTermMemory.id row
  /\ LongTermMemory.r_metadata r = LongTermMemory.metadata row
  /\ LongTermMemory.r_importance r = LongTermMemory.importance row
  /\ LongTermMemory.r_timestamp r = LongTermMemory.timestamp row.

(** The records come from rows of the user, one row each. *)
Definition from_rows_of (self : LongTermMemory.t) (userId : string)
    (records : list LongTermMemory.LongTermRecord) : Prop :=
  Forall (fun r => exists row, In row (LongTermMemory.rows_of_user self userId)
                               /\ record_of row r) records.

(** The first record is not older than the second. *)
Definition not_older (a b : LongTermMemory.LongTermRecord) : Prop :=
  LongTermMemory.r_timestamp b <= LongTermMemory.r_timestamp a.

(** ** Semantic Index operations *)

(** An operation on the Semantic Index that could change it. *)
Inductive IndexOp : Type :=
| IdxAdd (document : RAGMemory.DocumentInput) (addedAt : string)
| IdxBulk (api : RAGMemory.EmbeddingApi) (documents : list RAGMemory.DocumentInput)
| IdxUpdate (api : RAGMemory.EmbeddingApi) (id : string) (updates : RAGMemory.DocumentUpdates)
| IdxDelete (id : string)
| IdxCleanup.

Definition index_step {P : Platform} (self : RAGMemory.t) (op : IndexOp) : RAGMemory.t :=
  match op with
  | IdxAdd document addedAt => snd (RAGMemory.addDocument self document addedAt)
  | IdxBulk api documents => snd (RAGMemory.addBulkDocuments self api documents)
  | IdxUpdate api id updates => snd (RAGMemory.updateDocument self api id updates)
  | IdxDelete id => snd (RAGMemory.deleteDocument self id)
  | IdxCleanup => snd (RAGMemory.cleanup self)
  end.

(** A sequence of operations, run in order. *)
Definition index_run {P : Platform} (self : RAGMemory.t) (ops : list IndexOp) : RAGMemory.t :=
  fold_left index_step ops self.

(** The ids of the stored documents, in insertion order. *)
Definition stored_ids (self : RAGMemory.t) : list string :=
  List.map fst (default [] (RAGMemory.documents self)).

(** ** Orchestrator: searching and updating *)

(** What an awaited call gave: its list, or nothing when it threw. *)
Definition returned {A : Type} (c : JS.completion (list A)) : list A :=
  match c with
  | JS.Normal l => l
  | JS.Throw _ => []
  end.

Definition threw {A : Type} (c : JS.completion A) : bool :=
  match c with
  | JS.Normal _ => false
  | JS.Throw _ => true
  end.

(** The tier lets the search go on: it is left out, or its call
    returned. *)
Definition passes {A : Type} (flag : option bool) (c : JS.completion A) : bool :=
  negb (MemoryManager.included flag) || negb (threw c).

(** The [content] column that [store] writes for an event. *)
Definition stored_content (m : MemoryItem) : LongTermMemory.StoredContent :=
  LongTermMemory.Serialized
    {| c_userMessage := item_userMessage m;
       c_botResponse := item_botResponse m;
       c_timestamp := item_timestamp m |}.

(** A buffer of over a hundred events as [MiniBotCore.processMessage]
    records them. *)
Definition unscored_buffer (userId : string) (count : nat) : ShortTermMemory.t :=
  {| ShortTermMemory.memory :=
       {[ userId := List.map (fun k => user_message "hello" (Z.of_nat k)) (List.seq 0 count) ]};
     ShortTermMemory.maxItems := 200 |}.

(** The engine after [n] events of one user, its database not opened. *)
Definition engine_without_database (n : nat) : MemoryManager.t :=
  {| MemoryManager.shortTermMemory := MemoryManager.shortTermMemory (engine_after n);
     MemoryManager.longTermMemory := LongTermMemory.new;
     MemoryManager.ragMemory := MemoryManager.ragMemory (engine_after n);
     MemoryManager.isInitialized := true |}.

(** An initialized engine whose buffer holds [n] events of one user, none
    with an importance. *)
Definition unscored_engine (n : nat) : MemoryManager.t :=
  {| MemoryManager.shortTermMemory := unscored_buffer "alice" n;
     MemoryManager.longTermMemory := empty_store;
     MemoryManager.ragMemory := RAGMemory.initialize RAGMemory.new;
     MemoryManager.isInitialized := true |}.

(** The engine after [n] events of one user, when the one record of the
    Durable Store has had its content overwritten, through [update], by a
    text that is not JSON. *)
Definition engine_with_unparsable_record (n : nat) : MemoryManager.t :=
  let stored :=
    snd (LongTermMemory.store (MemoryManager.longTermMemory (engine_after n)) "alice"
           (turn "remember this" "noted" 10 (Some 0.9%float)) 10) in
  {| MemoryManager.shortTermMemory := MemoryManager.shortTermMemory (engine_after n);
     MemoryManager.longTermMemory :=
       snd (LongTermMemory.update stored 1
              {| LongTermMemory.u_content := Some (LongTermMemory.Raw "not json");
                 LongTermMemory.u_metadata := None;
                 LongTermMemory.u_importance := None |} 20);
     MemoryManager.ragMemory := MemoryManager.ragMemory (engine_after n);
     MemoryManager.isInitialized := true |}.

(* ===================================================================== *)
(** * Facts about the primitives *)
(* ===================================================================== *)

Section ListFacts.
Context {A : Type}.
Implicit Types l a b : list A.

Lemma keep_last_length n l : length (keep_last n l) = Nat.min n (length l).
Proof. unfold keep_last. rewrite length_skipn. lia. Qed.

Lemma keep_last_all n l : (length l <= n)%nat -> keep_last n l = l.
Proof.
  intros H. unfold keep_last.
  replace (length l - n)%nat with 0%nat by lia. reflexivity.
Qed.

Lemma keep_last_suffix n l : exists dropped, l = dropped ++ keep_last n l.
Proof.
  exists (firstn (length l - n) l). unfold keep_last.
  symmetry. apply firstn_skipn.
Qed.

(** Trimming early does not change what is kept in the end. *)
Lemma keep_last_app_idem n a b :
  keep_last n (keep_last n a ++ b) = keep_last n (a ++ b).
Proof.
  unfold keep_last. rewrite !length_app, length_skipn.
  destruct (Nat.le_gt_cases (length a) n) as [Hle | Hgt].
  - replace (length a - n)%nat with 0%nat by lia.
    rewrite Nat.sub_0_r. reflexivity.
  - rewrite (skipn_app (length a + length b - n) a b).
    replace (length a + length b - n - length a)%nat with (length b - n)%nat by lia.
    rewrite (skipn_app _ (skipn (length a - n) a) b), length_skipn.
    rewrite skipn_skipn.
    f_equal; [f_equal; lia | f_equal; lia].
Qed.

Lemma keep_last_app_long n a b :
  (n <= length b)%nat -> keep_last n (a ++ b) = keep_last n b.
Proof.
  intros H. unfold keep_last. rewrite length_app, skipn_app.
  rewrite (skipn_all2 a) by lia. simpl. f_equal. lia.
Qed.

(** [slice(-n)] of an array that is not longer than [n] is the array. *)
Lemma slice_from_short l (n : Z) :
  0 <= n -> Z.of_nat (length l) <= n -> JS.slice_from l (JS.Finite (- n)) = l.
Proof.
  intros Hn Hlen. unfold JS.slice_from, JS.slice, JS.relative_index.
  destruct (- n <? 0) eqn:E.
  - rewrite Z.max_r by lia. simpl.
    rewrite Z.sub_0_r, Nat2Z.id. apply firstn_all.
  - apply Z.ltb_ge in E. assert (n = 0) by lia. subst n.
    assert (length l = 0%nat) by lia. destruct l; [reflexivity | discriminate].
Qed.

(** [slice(-n)] of a longer array is its last [n] elements. *)
Lemma slice_from_last l (n : Z) :
  0 < n -> JS.slice_from l (JS.Finite (- n)) = keep_last (Z.to_nat n) l.
Proof.
  intros Hn. unfold JS.slice_from, JS.slice, JS.relative_index, keep_last.
  replace (- n <? 0) with true by (symmetry; apply Z.ltb_lt; lia).
  replace (Z.to_nat (Z.max (Z.of_nat (length l) + - n) 0)) with (length l - Z.to_nat n)%nat by lia.
  apply firstn_all2. rewrite length_skipn. lia.
Qed.

(** [slice(0, n)] is the first [n] elements. *)
Lemma slice_first l (n : Z) :
  0 <= n -> JS.slice l (JS.Finite 0) (JS.Finite n) = firstn (Z.to_nat n) l.
Proof.
  intros Hn. unfold JS.slice, JS.relative_index.
  replace (0 <? 0) with false by reflexivity.
  replace (n <? 0) with false by (symmetry; apply Z.ltb_ge; lia).
  rewrite (Z.min_l 0) by lia.
  change (Z.to_nat 0) with 0%nat. rewrite skipn_O, Z.sub_0_r.
  destruct (Z.le_gt_cases n (Z.of_nat (length l))).
  - rewrite Z.min_l by lia. reflexivity.
  - rewrite Z.min_r by lia. rewrite Nat2Z.id.
    rewrite firstn_all. symmetry. apply firstn_all2. lia.
Qed.

End ListFacts.

Section NumberFacts.

Lemma SFeqb_finite_refl s m e : SFeqb (S754_finite s m e) (S754_finite s m e) = true.
Proof.
  unfold SFeqb, SFcompare. rewrite Z.compare_refl.
  assert (H : Pos.compare_cont Eq m m = Eq) by apply Pos.compare_cont_refl.
  destruct s; rewrite ?H; reflexivity.
Qed.

(** A number above [0.7] is truthy. *)
Lemma above_07_truthy f : PrimFloat.ltb 0.7 f = true -> JS.truthy f = true.
Proof.
  unfold JS.truthy, PrimFloat.is_nan.
  rewrite FloatAxioms.ltb_spec, !FloatAxioms.eqb_spec.
  intros H.
  destruct (Prim2SF f) as [s | s | | s m e] eqn:E.
  - vm_compute in H. discriminate.
  - destruct s; vm_compute in H; try discriminate. reflexivity.
  - vm_compute in H; discriminate.
  - rewrite SFeqb_finite_refl. destruct s; reflexivity.
Qed.

(** At the default threshold the product [threshold * 0.8] is exactly
    [80]. *)
Lemma keepCount_default :
  PrimFloat.mul (JS.Z_to_float (JS.parseInt_or None 100)) 0.8 = 80%float.
Proof. reflexivity. Qed.

End NumberFacts.

(* ===================================================================== *)
(** * The primitives on sample values *)
(* ===================================================================== *)

Section PrimitiveExamples.

(** [[1,2,3,4].slice(-2)], [.slice(-9)], [.slice(0, 2)], [.slice(0, -1)]
    and [.slice(-0)], which is the whole array. *)
Example slice_samples :
  JS.slice_from [1; 2; 3; 4] (JS.Finite (-2)) = [3; 4]
  /\ JS.slice_from [1; 2; 3; 4] (JS.Finite (-9)) = [1; 2; 3; 4]
  /\ JS.slice [1; 2; 3; 4] (JS.Finite 0) (JS.Finite 2) = [1; 2]
  /\ JS.slice [1; 2; 3; 4] (JS.Finite 0) (JS.Finite (-1)) = [1; 2; 3]
  /\ JS.slice_from [1; 2; 3; 4] (JS.Finite (- 0)) = [1; 2; 3; 4].
Proof. repeat split; reflexivity. Qed.

(** [splice(0, n)] clamps its count. *)
Example splice_samples :
  JS.splice0 [1; 2; 3] 1 = [2; 3]
  /\ JS.splice0 [1; 2; 3] 7 = []
  /\ JS.splice0 [1; 2; 3] (-1) = [1; 2; 3].
Proof. repeat split; reflexivity. Qed.

Example string_samples :
  JS.toLowerCase "Hello, WORLD" = "hello, world"%string
  /\ JS.trim "  two words  " = "two words"%string
  /\ JS.trim "   " = ""%string
  /\ JS.includes "foobar" "oba" = true
  /\ JS.includes "foobar" "" = true
  /\ JS.includes "foobar" "baz" = false.
Proof. repeat split; reflexivity. Qed.

(** On array lengths, which are exact as doubles, [Z_gt_float] is the
    comparison of doubles; checked here against [PrimFloat.ltb] for the
    lengths up to 300 and a few right-hand sides. *)
Example Z_gt_float_samples :
  forallb
    (fun f =>
       forallb
         (fun n => Bool.eqb (JS.Z_gt_float (Z.of_nat n) f)
                            (PrimFloat.ltb f (JS.Z_to_float (Z.of_nat n))))
         (seq 0 301))
    [80; 79.99; 56.00000000000001; 0; 0.5; -0.5; -3; 300; 1e300; PrimFloat.infinity;
     PrimFloat.neg_infinity; PrimFloat.nan]%float
  = true.
Proof. vm_compute. reflexivity. Qed.

(** [ToIntegerOrInfinity] truncates toward zero. *)
Example ToIntegerOrInfinity_samples :
  JS.ToIntegerOrInfinity 80 = JS.Finite 80
  /\ JS.ToIntegerOrInfinity 56.00000000000001 = JS.Finite 56
  /\ JS.ToIntegerOrInfinity (-2.5) = JS.Finite (-2)
  /\ JS.ToIntegerOrInfinity 0.9 = JS.Finite 0
  /\ JS.ToIntegerOrInfinity PrimFloat.nan = JS.Finite 0
  /\ JS.ToIntegerOrInfinity PrimFloat.neg_infinity = JS.MinusInfinity.
Proof. repeat split; reflexivity. Qed.

(** [parseInt(process.env.X) || d] *)
Example parseInt_or_samples :
  JS.parseInt_or None 100 = 100
  /\ JS.parseInt_or (Some 0) 100 = 100
  /\ JS.parseInt_or (Some 250) 100 = 250.
Proof. repeat split; reflexivity. Qed.

End PrimitiveExamples.

Section SqlSamples.
Import LongTermMemory.

(** What SQLite keeps of a bound double, and where [ORDER BY importance
    DESC, timestamp DESC] puts the rows: the greatest number first, equal
    numbers by time, [NULL] last. *)
Example bind_and_rank_samples :
  let row := fun i f ts => mkRow i "u" (Raw "{}") [] (bind_double f) ts 0 0 in
  let table :=
    [row 1 PrimFloat.nan 1000; row 2 (-0)%float 1001; row 3 0%float 1002;
     row 4 1.5%float 1000; row 5 (-2)%float 1001; row 6 PrimFloat.infinity 1002;
     row 7 PrimFloat.neg_infinity 1000; row 8 0.9%float 1001; row 9 1%float 1000;
     row 10 3%float 1001] in
  List.map importance (firstn 3 table) = [None; Some 0%float; Some 0%float]
  /\ List.map id (order_by_rank table) = [6; 10; 4; 9; 8; 3; 2; 5; 7; 1]
  /\ List.map id (List.filter (fun r => sql_ge_param (importance r) 0) table)
     = [2; 3; 4; 6; 8; 9; 10]
  /\ List.map id (List.filter (fun r => sql_lt_param (importance r) 0.1) table)
     = [2; 3; 5; 7].
Proof. repeat split; reflexivity. Qed.

End SqlSamples.

(* ===================================================================== *)
(** * Facts about strings *)
(* ===================================================================== *)

Section StringFacts.

Lemma app_String c (p q : string) : (String c p ++ q = String c (p ++ q))%string.
Proof. reflexivity. Qed.

Lemma app_empty (q : string) : ("" ++ q = q)%string.
Proof. reflexivity. Qed.

Lemma prefix_iff (p s : string) :
  String.prefix p s = true <-> exists post, s = (p ++ post)%string.
Proof.
  revert s. induction p as [| c p IH]; intros s.
  - destruct s; cbn; (split; [intros _; eexists; reflexivity | reflexivity]).
  - destruct s as [| d s]; cbn.
    + split; [discriminate | intros [post H]; discriminate].
    + destruct (Ascii.ascii_dec c d) as [-> | Hne].
      * rewrite IH. split; intros [post H]; exists post;
          rewrite app_String in *; congruence.
      * split; [discriminate | intros [post H]; rewrite app_String in H; congruence].
Qed.

(** [includes] is the substring test. *)
Lemma includes_iff (s sub : string) :
  JS.includes s sub = true <-> exists pre post, s = (pre ++ sub ++ post)%string.
Proof.
  induction s as [| c s IH]; cbn [JS.includes].
  - destruct (String.prefix sub "") eqn:E.
    + apply prefix_iff in E. destruct E as [post E].
      split; [intros _; exists ""%string, post; exact E | reflexivity].
    + split; [discriminate |]. intros (pre & post & H).
      destruct pre; [rewrite app_empty in H | rewrite app_String in H; discriminate].
      assert (String.prefix sub "" = true) by (apply prefix_iff; exists post; exact H).
      congruence.
  - destruct (String.prefix sub (String c s)) eqn:E.
    + apply prefix_iff in E. destruct E as [post E].
      split; [intros _; exists ""%string, post; exact E | reflexivity].
    + rewrite IH. split.
      * intros (pre & post & H). exists (String c pre), post.
        rewrite app_String. congruence.
      * intros (pre & post & H).
        destruct pre as [| d pre]; [rewrite app_empty in H | rewrite app_String in H].
        -- assert (String.prefix sub (String c s) = true)
             by (apply prefix_iff; exists post; exact H).
           congruence.
        -- exists pre, post. congruence.
Qed.

Lemma trimStart_whitespace_only s : whitespace_only s = true -> JS.trimStart s = ""%string.
Proof.
  unfold whitespace_only. induction s as [| c s IH]; cbn; [reflexivity |].
  destruct (JS.is_whitespace c); cbn; [exact IH | discriminate].
Qed.

Lemma trimStart_not_whitespace_only s :
  whitespace_only s = false ->
  exists c rest, JS.trimStart s = String c rest /\ JS.is_whitespace c = false.
Proof.
  unfold whitespace_only. induction s as [| c s IH]; cbn; [discriminate |].
  destruct (JS.is_whitespace c) eqn:E; cbn; [exact IH |].
  intros _. exists c, s. split; [reflexivity | exact E].
Qed.

(** [trim] leaves nothing exactly of the strings of white space. *)
Lemma trim_empty_iff s : (JS.strlen (JS.trim s) =? 0) = whitespace_only s.
Proof.
  unfold JS.trim. destruct (whitespace_only s) eqn:E.
  - rewrite trimStart_whitespace_only by exact E. reflexivity.
  - destruct (trimStart_not_whitespace_only s E) as (c & rest & -> & Hc).
    cbn [JS.trimEnd]. rewrite Hc.
    destruct (JS.trimEnd rest); reflexivity.
Qed.

Lemma content_missing_blank content : RAGMemory.content_missing content = blank content.
Proof.
  unfold RAGMemory.content_missing, blank. destruct content as [s |]; [| reflexivity].
  rewrite trim_empty_iff. destruct s; [reflexivity |]. reflexivity.
Qed.

Lemma query_missing_whitespace query : RAGMemory.query_missing query = whitespace_only query.
Proof.
  unfold RAGMemory.query_missing. rewrite trim_empty_iff.
  destruct query; reflexivity.
Qed.

End StringFacts.


(* ===================================================================== *)
(** * Recent Buffer: capacity and recency *)
(* ===================================================================== *)

Section RecentBuffer.
Implicit Types (self : ShortTermMemory.t) (u v : string).

Lemma add_maxItems self u i now m :
  ShortTermMemory.maxItems (snd (ShortTermMemory.add self u i now m))
  = ShortTermMemory.maxItems self.
Proof. reflexivity. Qed.

Lemma add_getAll self u i now m :
  ShortTermMemory.getAll (snd (ShortTermMemory.add self u i now m)) u
  = keep_last (Z.to_nat (ShortTermMemory.maxItems self))
      (ShortTermMemory.getAll self u ++ [ShortTermMemory.stamp i now m]).
Proof.
  unfold ShortTermMemory.add, ShortTermMemory.getAll. cbn [snd ShortTermMemory.memory].
  rewrite lookup_insert_eq.
  set (old := default [] _).
  assert (Hold : old = match ShortTermMemory.memory self !! u with
                       | Some um => um | None => [] end).
  { subst old. destruct (ShortTermMemory.memory self !! u) as [um|] eqn:E.
    - rewrite E. reflexivity.
    - rewrite lookup_insert_eq. reflexivity. }
  rewrite <- Hold. clearbody old.
  set (pushed := old ++ _).
  destruct (_ <? _) eqn:E.
  - apply Z.ltb_lt in E. unfold JS.splice0, keep_last. f_equal. lia.
  - apply Z.ltb_ge in E. symmetry. apply keep_last_all. lia.
Qed.

Lemma add_getAll_other self u v i now m :
  u <> v ->
  ShortTermMemory.getAll (snd (ShortTermMemory.add self u i now m)) v
  = ShortTermMemory.getAll self v.
Proof.
  intros Hne. unfold ShortTermMemory.add, ShortTermMemory.getAll.
  cbn [snd ShortTermMemory.memory].
  rewrite lookup_insert_ne by exact Hne.
  destruct (ShortTermMemory.memory self !! u); [reflexivity |].
  rewrite lookup_insert_ne by exact Hne. reflexivity.
Qed.

Lemma add_all_maxItems calls : forall self,
  ShortTermMemory.maxItems (add_all self calls) = ShortTermMemory.maxItems self.
Proof.
  induction calls as [| c calls IH]; intros self; [reflexivity |].
  unfold add_all in *. cbn [fold_left]. rewrite IH. reflexivity.
Qed.

Lemma add_all_getAll u calls : forall self,
  ShortTermMemory.getAll (add_all self calls) u
  = match appended u calls with
    | [] => ShortTermMemory.getAll self u
    | news => keep_last (Z.to_nat (ShortTermMemory.maxItems self))
                (ShortTermMemory.getAll self u ++ news)
    end.
Proof.
  induction calls as [| c calls IH]; intros self; [reflexivity |].
  change (add_all self (c :: calls))
    with (add_all (snd (ShortTermMemory.add self (call_user c) (call_id c)
                          (call_now c) (call_item c))) calls).
  rewrite IH, add_maxItems. unfold appended. cbn [List.filter].
  destruct (String.eqb (call_user c) u) eqn:E.
  - apply String.eqb_eq in E. rewrite E. cbn [List.map].
    rewrite add_getAll.
    fold (appended u calls). destruct (appended u calls) as [| x news].
    + reflexivity.
    + rewrite keep_last_app_idem, <- app_assoc. reflexivity.
  - apply String.eqb_neq in E. rewrite add_getAll_other by exact E. reflexivity.
Qed.

Lemma getCount_getAll self u :
  ShortTermMemory.getCount self u = Z.of_nat (length (ShortTermMemory.getAll self u)).
Proof.
  unfold ShortTermMemory.getCount, ShortTermMemory.getAll.
  destruct (ShortTermMemory.memory self !! u); reflexivity.
Qed.

Lemma getRecent_getAll self u limit :
  ShortTermMemory.getRecent self u limit
  = rev (JS.slice_from (ShortTermMemory.getAll self u) (JS.Finite (- limit))).
Proof.
  unfold ShortTermMemory.getRecent, ShortTermMemory.getAll.
  destruct (ShortTermMemory.memory self !! u); [reflexivity |].
  unfold JS.slice_from, JS.slice. rewrite skipn_nil, firstn_nil. reflexivity.
Qed.

End RecentBuffer.

(** C5.  After the [add] calls of a user outnumber [maxItems], whatever
    the buffer held before and whatever other users add in between,
    [getCount] is [maxItems], [getRecent(userId, maxItems)] is the last
    [maxItems] appended items, most recent first, and what was dropped is
    a prefix (the oldest part) of the sequence. *)
Theorem recent_buffer_keeps_last_maxItems
    (self : ShortTermMemory.t) (userId : string) (calls : list AddCall) :
  let maxItems := ShortTermMemory.maxItems self in
  let after := add_all self calls in
  0 <= maxItems ->
  maxItems < Z.of_nat (length (appended userId calls)) ->
  ShortTermMemory.getCount after userId = maxItems
  /\ ShortTermMemory.getRecent after userId maxItems
     = rev (keep_last (Z.to_nat maxItems) (appended userId calls))
  /\ exists dropped,
       ShortTermMemory.getAll self userId ++ appended userId calls
       = dropped ++ ShortTermMemory.getAll after userId.
Proof.
  intros maxItems after Hmax HN.
  assert (Hall : ShortTermMemory.getAll after userId
                 = keep_last (Z.to_nat maxItems) (appended userId calls)).
  { subst after. rewrite add_all_getAll.
    destruct (appended userId calls) as [| x news] eqn:E.
    - simpl in HN. lia.
    - apply keep_last_app_long. fold maxItems. lia. }
  assert (Hlen : Z.of_nat (length (ShortTermMemory.getAll after userId)) = maxItems).
  { rewrite Hall, keep_last_length. lia. }
  split; [| split].
  - rewrite getCount_getAll. exact Hlen.
  - rewrite getRecent_getAll, slice_from_short by lia. rewrite Hall. reflexivity.
  - subst after. rewrite add_all_getAll.
    destruct (appended userId calls) as [| x news] eqn:E.
    + simpl in HN. lia.
    + apply keep_last_suffix.
Qed.

Lemma recent_buffer_keeps_last_maxItems_witness :
  let self := ShortTermMemory.new (Some 2) in
  let after := add_all self three_calls in
  ShortTermMemory.getCount after "alice" = 2
  /\ ShortTermMemory.getRecent after "alice" 2
     = rev (keep_last 2 (appended "alice" three_calls))
  /\ exists dropped,
       ShortTermMemory.getAll self "alice" ++ appended "alice" three_calls
       = dropped ++ ShortTermMemory.getAll after "alice".
Proof.
  apply (recent_buffer_keeps_last_maxItems (ShortTermMemory.new (Some 2)) "alice" three_calls).
  - vm_compute. discriminate.
  - vm_compute. reflexivity.
Defined.

(** [getRecent(userId, 0)] is not empty: [slice(-0)] is the whole array. *)
Example getRecent_limit_zero :
  List.map item_content
    (ShortTermMemory.getRecent (add_all (ShortTermMemory.new None) three_calls) "alice" 0)
  = [Some "three"; Some "two"; Some "one"]%string.
Proof. vm_compute. reflexivity. Qed.

(** The buffer of the witness, spelled out: the first item is gone. *)
Example recent_three_into_two :
  List.map item_content
    (ShortTermMemory.getRecent (add_all (ShortTermMemory.new (Some 2)) three_calls) "alice" 2)
  = [Some "three"; Some "two"]%string.
Proof. vm_compute. reflexivity. Qed.

(* ===================================================================== *)
(** * Orchestrator: consolidation *)
(* ===================================================================== *)

Section Consolidation.
Import MemoryManager.

Lemma is_important_above m : is_important m = importance_above_07 m.
Proof.
  unfold is_important, importance_above_07.
  destruct (item_importance m) as [f |]; [| reflexivity].
  destruct (PrimFloat.ltb 0.7 f) eqn:E.
  - rewrite above_07_truthy by exact E. reflexivity.
  - apply andb_false_r.
Qed.

Lemma store_important_ok userId clock l : forall tbl k,
  exists new,
    store_important {| LongTermMemory.db := Some tbl |} userId clock k l
    = (JS.Normal tt,
       {| LongTermMemory.db :=
            Some {| LongTermMemory.rows := LongTermMemory.rows tbl ++ new;
                    LongTermMemory.seq := LongTermMemory.seq tbl + Z.of_nat (length new) |} |})
    /\ length new = length (List.filter is_important l)
    /\ Forall (fun r => LongTermMemory.user_id r = userId) new.
Proof.
  induction l as [| m l IH]; intros tbl k.
  - exists []. cbn [store_important length List.filter]. rewrite app_nil_r, Z.add_0_r.
    destruct tbl; repeat split; constructor.
  - cbn [store_important List.filter]. destruct (is_important m) eqn:E.
    + unfold LongTermMemory.store. cbn [LongTermMemory.db].
      match goal with
      | |- context [store_important {| LongTermMemory.db := Some ?t |} _ _ _ _] =>
          destruct (IH t (S k)) as (new & Heq & Hlen & Hall)
      end.
      cbn [LongTermMemory.rows LongTermMemory.seq] in Heq.
      eexists (_ :: new). rewrite Heq. split; [| split].
      * rewrite <- app_assoc. cbn [app length]. do 4 f_equal. lia.
      * cbn [length]. rewrite Hlen. reflexivity.
      * constructor; [reflexivity | exact Hall].
    + exact (IH tbl (S k)).
Qed.

(** C1 (amended).  With the default threshold of 100, when a user's
    buffer holds more than 100 events, the database is open, and exactly 3
    of the 20 oldest events have an importance above 0.7, the
    consolidation step ends normally, appends exactly 3 rows of that user
    to the Durable Store, and trims the buffer to its 80 newest events. *)
Theorem consolidation_promotes_and_trims
    (self : MemoryManager.t) (userId : string) (clock : nat -> Z)
    (tbl : LongTermMemory.Table) (items : list MemoryItem) :
  LongTermMemory.db (longTermMemory self) = Some tbl ->
  ShortTermMemory.memory (shortTermMemory self) !! userId = Some items ->
  100 < Z.of_nat (length items) ->
  length (List.filter importance_above_07 (firstn 20 items)) = 3%nat ->
  let '(result, after) := consolidateMemoryIfNeeded self userId None clock in
  result = JS.Normal tt
  /\ (exists new,
        LongTermMemory.all_rows (longTermMemory after) = LongTermMemory.rows tbl ++ new
        /\ length new = 3%nat
        /\ Forall (fun r => LongTermMemory.user_id r = userId) new)
  /\ ShortTermMemory.getCount (shortTermMemory after) userId = 80
  /\ ShortTermMemory.getAll (shortTermMemory after) userId = keep_last 80 items.
Proof.
  intros Hdb Hmem Hlen Himp.
  unfold consolidateMemoryIfNeeded.
  rewrite keepCount_default.
  unfold ShortTermMemory.getCount at 1. rewrite Hmem.
  change (JS.parseInt_or None 100) with 100.
  replace (100 <? Z.of_nat (length items)) with true by (symmetry; apply Z.ltb_lt; lia).
  unfold ShortTermMemory.getOldest. rewrite Hmem.
  rewrite slice_first by lia. change (Z.to_nat 20) with 20%nat.
  destruct (longTermMemory self) as [d] eqn:El. cbn [LongTermMemory.db] in Hdb. subst d.
  destruct (store_important_ok userId clock (firstn 20 items) tbl 0)
    as (new & Heq & Hnew & Hall).
  rewrite Heq.
  split; [reflexivity |]. split.
  - exists new. cbn [longTermMemory LongTermMemory.all_rows LongTermMemory.db LongTermMemory.rows].
    split; [reflexivity |]. split; [| exact Hall].
    rewrite Hnew. etransitivity; [| exact Himp].
    f_equal. apply filter_ext. intros m. apply is_important_above.
  - cbn [shortTermMemory].
    assert (Hclean : ShortTermMemory.getAll
                       (ShortTermMemory.cleanup (shortTermMemory self) userId 80) userId
                     = keep_last 80 items).
    { unfold ShortTermMemory.cleanup. rewrite Hmem.
      change (JS.Z_gt_float (Z.of_nat (length items)) 80) with (80 <? Z.of_nat (length items)).
      replace (80 <? Z.of_nat (length items)) with true by (symmetry; apply Z.ltb_lt; lia).
      change (JS.ToIntegerOrInfinity (- 80)%float) with (JS.Finite (- 80)).
      unfold ShortTermMemory.getAll. cbn [ShortTermMemory.memory].
      rewrite lookup_insert_eq. apply (slice_from_last items 80). lia. }
    split; [| exact Hclean].
    rewrite getCount_getAll, Hclean, keep_last_length. lia.
Qed.

Lemma consolidation_promotes_and_trims_witness :
  let '(result, after) :=
    consolidateMemoryIfNeeded (engine_after 101) "alice" None sample_clock in
  result = JS.Normal tt
  /\ (exists new,
        LongTermMemory.all_rows (longTermMemory after) = [] ++ new
        /\ length new = 3%nat
        /\ Forall (fun r => LongTermMemory.user_id r = "alice"%string) new)
  /\ ShortTermMemory.getCount (shortTermMemory after) "alice" = 80
  /\ ShortTermMemory.getAll (shortTermMemory after) "alice"
     = keep_last 80 (ShortTermMemory.getAll (shortTermMemory (engine_after 101)) "alice").
Proof.
  apply (consolidation_promotes_and_trims (engine_after 101) "alice" sample_clock
           {| LongTermMemory.rows := []; LongTermMemory.seq := 0 |}
           (ShortTermMemory.getAll (shortTermMemory (engine_after 101)) "alice")).
  - reflexivity.
  - vm_compute. reflexivity.
  - vm_compute. reflexivity.
  - vm_compute. reflexivity.
Defined.

(** C1 as stated fails: with exactly 100 events (three of the oldest 20
    above 0.7) the guard [shortTermCount > threshold] is false, so nothing
    is stored and nothing is trimmed. *)
Lemma consolidation_skipped_at_threshold :
  ShortTermMemory.getCount (shortTermMemory (engine_after 100)) "alice" = 100
  /\ length (List.filter importance_above_07
               (ShortTermMemory.getOldest (shortTermMemory (engine_after 100)) "alice" 20))
     = 3%nat
  /\ let '(result, after) :=
       consolidateMemoryIfNeeded (engine_after 100) "alice" None sample_clock in
     result = JS.Normal tt
     /\ after = engine_after 100
     /\ LongTermMemory.all_rows (longTermMemory after) = []
     /\ length (LongTermMemory.all_rows (longTermMemory after)) <> 3%nat
     /\ ShortTermMemory.getCount (shortTermMemory after) "alice" = 100
     /\ ShortTermMemory.getCount (shortTermMemory after) "alice" <> 80.
Proof.
  split; [vm_compute; reflexivity |]. split; [vm_compute; reflexivity |].
  change (consolidateMemoryIfNeeded (engine_after 100) "alice" None sample_clock)
    with (JS.Normal tt, engine_after 100).
  split; [reflexivity |]. split; [reflexivity |].
  split; [reflexivity |]. split; [discriminate |].
  split; [vm_compute; reflexivity | vm_compute; discriminate].
Qed.

End Consolidation.

(* ===================================================================== *)
(** * Orchestrator: context assembly *)
(* ===================================================================== *)

Section ContextAssembly.
Import MemoryManager.
Context {P : Platform}.

(** The tiers of the engine absorb their own failures: with no database
    [getRelevant] returns an empty array, and with no document map
    [search] does. *)
Lemma getRelevant_without_db userId query limit :
  LongTermMemory.getRelevant LongTermMemory.new userId query limit = [].
Proof. reflexivity. Qed.

Lemma search_without_documents query limit :
  RAGMemory.search RAGMemory.new query limit = [].
Proof.
  unfold RAGMemory.search, RAGMemory.search_body. cbn [RAGMemory.documents RAGMemory.new].
  destruct (RAGMemory.query_missing query); reflexivity.
Qed.

(** What [getRelevant] returns, in terms of its [try] block. *)
Lemma getRelevant_catches ltm userId query limit :
  LongTermMemory.getRelevant ltm userId query limit
  = match LongTermMemory.getRelevant_body ltm userId query limit with
    | JS.Normal records => records
    | JS.Throw _ => []
    end.
Proof.
  unfold LongTermMemory.getRelevant.
  destruct (LongTermMemory.getRelevant_body ltm userId query limit); reflexivity.
Qed.

Lemma search_catches rag_ query limit :
  RAGMemory.search rag_ query limit
  = match RAGMemory.search_body rag_ query limit with
    | JS.Normal results => results
    | JS.Throw _ => []
    end.
Proof.
  unfold RAGMemory.search. destruct (RAGMemory.search_body rag_ query limit); reflexivity.
Qed.

(** C2.  On an initialized manager no exception leaves the assembly, and
    a tier that fails costs the bundle that tier's part only.  The
    short-term part is what [getRecent] returns (nothing in it can
    raise).  The long-term part is what the query of the Durable Store
    returned, and an empty sequence when it raised; the same for the
    Semantic Index; neither depends on what the other tiers did.  The
    Durable Store raises when it has no database, the Semantic Index when
    it has no document map and the query is not blank. *)
Theorem failing_tier_degrades_to_empty
    (self : MemoryManager.t) (userId query : string) :
  isInitialized self = true ->
  getRelevantContext self userId query
  = JS.Normal
      {| shortTerm := ShortTermMemory.getRecent (shortTermMemory self) userId 10;
         longTerm :=
           match LongTermMemory.getRelevant_body (longTermMemory self) userId query 5 with
           | JS.Normal records => records
           | JS.Throw _ => []
           end;
         rag :=
           match RAGMemory.search_body (ragMemory self) query 5 with
           | JS.Normal results => results
           | JS.Throw _ => []
           end |}
  /\ (LongTermMemory.db (longTermMemory self) = None ->
      LongTermMemory.getRelevant_body (longTermMemory self) userId query 5
      = JS.Throw LongTermMemory.null_db)
  /\ (RAGMemory.documents (ragMemory self) = None ->
      whitespace_only query = false ->
      RAGMemory.search_body (ragMemory self) query 5
      = JS.Throw RAGMemory.undefined_documents).
Proof.
  intros Hinit. split; [| split].
  - unfold getRelevantContext, assemble. rewrite Hinit.
    cbn [negb JS.bind JS.try_catch].
    rewrite getRelevant_catches, search_catches. reflexivity.
  - intros Hdb. unfold LongTermMemory.getRelevant_body. rewrite Hdb. reflexivity.
  - intros Hdocs Hquery. unfold RAGMemory.search_body.
    rewrite query_missing_whitespace, Hquery, Hdocs. reflexivity.
Qed.

End ContextAssembly.

(** The theorem at an engine whose Durable Store raises (the content of
    its one record is not JSON): the bundle keeps the three recent events
    and has no long-term part. *)
Lemma failing_tier_degrades_to_empty_witness :
  @MemoryManager.getRelevantContext sample_platform
    (engine_with_unparsable_record 3) "alice" "remember"
  = JS.Normal
      {| MemoryManager.shortTerm :=
           ShortTermMemory.getRecent
             (MemoryManager.shortTermMemory (engine_with_unparsable_record 3)) "alice" 10;
         MemoryManager.longTerm := [];
         MemoryManager.rag := [] |}
  /\ @LongTermMemory.getRelevant_body sample_platform
       (MemoryManager.longTermMemory (engine_with_unparsable_record 3)) "alice" "remember" 5
     = JS.Throw LongTermMemory.unexpected_token
  /\ length (ShortTermMemory.getRecent
               (MemoryManager.shortTermMemory (engine_with_unparsable_record 3)) "alice" 10)
     = 3%nat.
Proof.
  split; [| split; reflexivity].
  exact (proj1 (@failing_tier_degrades_to_empty sample_platform
                  (engine_with_unparsable_record 3) "alice" "remember" eq_refl)).
Defined.

(* ===================================================================== *)
(** * Durable Store: importance *)
(* ===================================================================== *)

Section DurableImportance.
Import LongTermMemory.

(** ** What SQLite keeps of a double *)

Lemma bind_double_nan f : PrimFloat.is_nan f = true -> bind_double f = None.
Proof. intros H. unfold bind_double. rewrite H. reflexivity. Qed.

Lemma bind_double_number f :
  PrimFloat.is_nan f = false -> holds_number (bind_double f) f = true.
Proof.
  intros H. unfold bind_double. rewrite H.
  destruct (PrimFloat.eqb f 0) eqn:E; cbn [holds_number].
  - exact E.
  - unfold PrimFloat.is_nan in H. apply negb_false_iff in H. exact H.
Qed.

Lemma bind_double_truthy f : JS.truthy f = true -> bind_double f = Some f.
Proof.
  unfold JS.truthy, bind_double. intros H. apply andb_true_iff in H.
  destruct H as [Hzero Hnan].
  apply negb_true_iff in Hzero. apply negb_true_iff in Hnan.
  rewrite Hnan, Hzero. reflexivity.
Qed.

Lemma in_unit_not_nan f : in_unit f = true -> PrimFloat.is_nan f = false.
Proof.
  unfold in_unit, PrimFloat.is_nan. intros H. apply andb_true_iff in H.
  destruct H as [H _]. rewrite FloatAxioms.leb_spec in H.
  rewrite FloatAxioms.eqb_spec.
  destruct (Prim2SF f) as [s | s | | s m e].
  - reflexivity.
  - destruct s; reflexivity.
  - vm_compute in H. discriminate.
  - rewrite SFeqb_finite_refl. reflexivity.
Qed.

Lemma bind_double_in_unit f : in_unit f = true -> column_in_unit (bind_double f) = true.
Proof.
  intros H. unfold bind_double. rewrite (in_unit_not_nan f H).
  destruct (PrimFloat.eqb f 0); [reflexivity | exact H].
Qed.

(** ** The two writes *)

Lemma store_rows self userId memoryData now tbl :
  db self = Some tbl ->
  exists r,
    all_rows (snd (store self userId memoryData now)) = rows tbl ++ [r]
    /\ importance r = bind_double (default 0.5%float (item_importance memoryData))
    /\ user_id r = userId
    /\ fst (store self userId memoryData now) = JS.Normal (if id r =? 0 then None else Some (id r)).
Proof.
  intros Hdb. unfold store, all_rows. rewrite Hdb. cbn.
  eexists. split; [reflexivity |]. cbn. repeat split.
Qed.

Lemma store_without_db self userId memoryData now :
  db self = None -> store self userId memoryData now = (JS.Throw null_db, self).
Proof. intros Hdb. unfold store. rewrite Hdb. reflexivity. Qed.

Lemma update_rows self id_ updates now :
  all_rows (snd (update self id_ updates now))
  = List.map (fun r => if id r =? id_ then apply_updates updates now r else r) (all_rows self).
Proof.
  unfold update, all_rows.
  destruct (db self) eqn:E; cbn [snd db]; [reflexivity | rewrite E; reflexivity].
Qed.

Lemma write_keeps_in_unit self w :
  rows_in_unit self ->
  (forall f, explicit_importance w = Some f -> in_unit f = true) ->
  rows_in_unit (write self w).
Proof.
  unfold rows_in_unit. intros Hrows Hw. destruct w as [userId m now | id_ u now]; cbn [write].
  - destruct (db self) as [tbl |] eqn:Hdb.
    + destruct (store_rows self userId m now tbl Hdb) as (r & Hr & Himp & _).
      rewrite Hr. unfold all_rows in Hrows. rewrite Hdb in Hrows.
      apply Forall_app. split; [exact Hrows |].
      constructor; [| constructor]. rewrite Himp.
      cbn [explicit_importance] in Hw. apply bind_double_in_unit.
      destruct (item_importance m) as [f |]; [apply Hw; reflexivity | reflexivity].
    + rewrite store_without_db by exact Hdb. exact Hrows.
  - rewrite update_rows. apply Forall_map.
    eapply Forall_impl; [exact Hrows |].
    intros r Hr. cbn beta. destruct (id r =? id_); [| exact Hr].
    unfold apply_updates. cbn [importance].
    cbn [explicit_importance] in Hw.
    destruct (u_importance u) as [f |]; [| exact Hr].
    apply bind_double_in_unit, Hw. reflexivity.
Qed.

(** C3 (amended).  The Durable Store neither clamps nor rejects.  In
    every state of the store, [store] appends a row whose importance is
    the number it is given (0.5 when none is given) as SQLite keeps a
    double, and [update] overwrites the importance of the row with the
    number it is given, likewise.  What SQLite keeps of a double is the
    double itself, but for the sign of zero; for NaN it keeps [NULL].  So
    every stored record has its importance in [[0, 1]] after any
    sequence of writes whose explicit importances all are in [[0, 1]],
    when it was so before. *)
Theorem importance_is_stored_as_given (self : LongTermMemory.t) :
  (forall userId memoryData now tbl,
      db self = Some tbl ->
      JS.is_throw (fst (store self userId memoryData now)) = false
      /\ exists r, all_rows (snd (store self userId memoryData now)) = rows tbl ++ [r]
                   /\ importance r
                      = bind_double (default 0.5%float (item_importance memoryData)))
  /\ (forall id_ updates now f r,
        u_importance updates = Some f ->
        In r (all_rows (snd (update self id_ updates now))) -> id r = id_ ->
        importance r = bind_double f)
  /\ (forall f,
        (JS.truthy f = true -> bind_double f = Some f)
        /\ (PrimFloat.is_nan f = false -> holds_number (bind_double f) f = true)
        /\ (PrimFloat.is_nan f = true -> bind_double f = None))
  /\ (forall ws,
        rows_in_unit self ->
        Forall (fun w => forall f, explicit_importance w = Some f -> in_unit f = true) ws ->
        rows_in_unit (run_writes self ws)).
Proof.
  split; [| split; [| split]].
  - intros userId m now tbl Hdb.
    destruct (store_rows self userId m now tbl Hdb) as (r & Hr & Himp & _ & Hres).
    split; [rewrite Hres; reflexivity |].
    exists r. split; [exact Hr | exact Himp].
  - intros id_ u now f r Hf Hin Hid. rewrite update_rows in Hin.
    apply in_map_iff in Hin. destruct Hin as (r0 & Hr0 & _).
    destruct (id r0 =? id_) eqn:E.
    + subst r. unfold apply_updates. cbn [importance]. rewrite Hf. reflexivity.
    + subst r. apply Z.eqb_neq in E. contradiction.
  - intros f. split; [apply bind_double_truthy |].
    split; [apply bind_double_number | apply bind_double_nan].
  - intros ws Hrows Hws. revert self Hrows.
    induction Hws as [| w ws Hw _ IH]; intros self Hrows.
    + exact Hrows.
    + cbn [run_writes fold_left]. apply IH. apply write_keeps_in_unit; assumption.
Qed.

(** The theorem after an importance of [1.5] has been stored: the
    [update] that follows writes the [1] it is given over it, and the
    store is within [[0, 1]] again; from there it stays so. *)
Lemma importance_is_stored_as_given_witness :
  let stored := snd (store empty_store "alice" (turn "hi" "hello" 10 (Some 1.5%float)) 10) in
  let one := {| u_content := None; u_metadata := None; u_importance := Some 1%float |} in
  let mended := snd (update stored 1 one 20) in
  ~ rows_in_unit stored
  /\ (forall r, In r (all_rows mended) -> id r = 1 -> importance r = Some 1%float)
  /\ rows_in_unit
       (run_writes mended
          [Store "alice" (turn "remember this" "noted" 30 (Some 0.9%float)) 30;
           Update 2 {| u_content := None; u_metadata := None;
                       u_importance := Some 0%float |} 40]).
Proof.
  intros stored one mended. split; [| split].
  - intros H. inversion H as [| r l Hr Hl]. discriminate Hr.
  - intros r Hin Hid.
    exact (proj1 (proj2 (importance_is_stored_as_given stored)) 1 one 20 1%float r
             eq_refl Hin Hid).
  - apply (proj2 (proj2 (proj2 (importance_is_stored_as_given mended)))).
    + repeat constructor.
    + repeat constructor; cbn; intros f Hf; inversion Hf; subst; reflexivity.
Defined.

(** C3 as stated fails: an importance of [1.5] given to [store], or of
    [-2] given to [update], is stored as it is. *)
Lemma importance_out_of_range_is_stored :
  let stored := snd (store empty_store "alice" (turn "hi" "hello" 10 (Some 1.5%float)) 10) in
  let updated :=
    snd (update stored 1
           {| u_content := None; u_metadata := None; u_importance := Some (-2)%float |} 20) in
  List.map importance (all_rows stored) = [Some 1.5%float]
  /\ List.map importance (all_rows updated) = [Some (-2)%float]
  /\ in_unit 1.5 = false
  /\ in_unit (-2) = false
  /\ ~ rows_in_unit stored
  /\ ~ rows_in_unit updated.
Proof.
  repeat split; try reflexivity;
    intros H; inversion H as [| r l Hr Hl]; discriminate Hr.
Qed.

(** What SQLite keeps of the doubles that are not kept as they are. *)
Example bind_double_samples :
  bind_double PrimFloat.nan = None
  /\ bind_double (-0)%float = Some 0%float
  /\ bind_double 0.5%float = Some 0.5%float
  /\ bind_double PrimFloat.infinity = Some PrimFloat.infinity.
Proof. repeat split; reflexivity. Qed.

End DurableImportance.

(* ===================================================================== *)
(** * Orchestrator: clearing a user's memory *)
(* ===================================================================== *)

Section Clearing.
Import MemoryManager.

Lemma short_clear_empties self userId :
  ShortTermMemory.memory (ShortTermMemory.clear self userId) !! userId = None.
Proof.
  unfold ShortTermMemory.clear.
  destruct (ShortTermMemory.memory self !! userId) eqn:E; cbn [ShortTermMemory.memory].
  - apply lookup_delete_eq.
  - exact E.
Qed.

Lemma short_clear_other self userId other :
  userId <> other ->
  ShortTermMemory.memory (ShortTermMemory.clear self userId) !! other
  = ShortTermMemory.memory self !! other.
Proof.
  intros Hne. unfold ShortTermMemory.clear.
  destruct (ShortTermMemory.memory self !! userId); cbn [ShortTermMemory.memory].
  - apply lookup_delete_ne. exact Hne.
  - reflexivity.
Qed.

Lemma long_clear_rows self userId :
  LongTermMemory.all_rows (snd (LongTermMemory.clear self userId))
  = List.filter (fun r => negb (String.eqb (LongTermMemory.user_id r) userId))
                (LongTermMemory.all_rows self).
Proof.
  unfold LongTermMemory.clear, LongTermMemory.all_rows.
  destruct (LongTermMemory.db self) eqn:E; cbn [snd LongTermMemory.db LongTermMemory.rows].
  - reflexivity.
  - rewrite E. reflexivity.
Qed.

Lemma filter_filter_neg {A} (p : A -> bool) (l : list A) :
  List.filter p (List.filter (fun x => negb (p x)) l) = [].
Proof.
  induction l as [| x l IH]; [reflexivity |].
  cbn [List.filter]. destruct (p x) eqn:E; cbn [negb List.filter]; [exact IH |].
  rewrite E. exact IH.
Qed.

Lemma filter_filter_other {A} (p q : A -> bool) (l : list A) :
  (forall x, q x = true -> p x = false) ->
  List.filter q (List.filter (fun x => negb (p x)) l) = List.filter q l.
Proof.
  intros H. induction l as [| x l IH]; [reflexivity |].
  cbn [List.filter]. destruct (p x) eqn:E; cbn [negb List.filter].
  - destruct (q x) eqn:Eq; [| exact IH]. rewrite (H x Eq) in E. discriminate.
  - rewrite IH. reflexivity.
Qed.

(** C9.  Clearing with scope ["short"] empties the user's Recent Buffer
    and leaves the Durable Store (and the Semantic Index) as they were;
    clearing with scope ["all"] leaves the user with nothing in the Recent
    Buffer and no row in the Durable Store, and leaves the Semantic Index
    as it was.  Other users keep their buffers and rows in both cases. *)
Theorem clearUserMemory_scopes (self : MemoryManager.t) (userId : string) :
  let short := snd (clearUserMemory self userId "short") in
  let all := snd (clearUserMemory self userId "all") in
  (ShortTermMemory.getAll (shortTermMemory short) userId = []
   /\ ShortTermMemory.getCount (shortTermMemory short) userId = 0
   /\ longTermMemory short = longTermMemory self
   /\ ragMemory short = ragMemory self
   /\ fst (clearUserMemory self userId "short") = JS.Normal tt)
  /\ (ShortTermMemory.getAll (shortTermMemory all) userId = []
      /\ ShortTermMemory.getCount (shortTermMemory all) userId = 0
      /\ LongTermMemory.rows_of_user (longTermMemory all) userId = []
      /\ ragMemory all = ragMemory self
      /\ (LongTermMemory.db (longTermMemory self) <> None ->
          fst (clearUserMemory self userId "all") = JS.Normal tt))
  /\ (forall other, other <> userId ->
        ShortTermMemory.getAll (shortTermMemory short) other
        = ShortTermMemory.getAll (shortTermMemory self) other
        /\ ShortTermMemory.getAll (shortTermMemory all) other
           = ShortTermMemory.getAll (shortTermMemory self) other
        /\ LongTermMemory.rows_of_user (longTermMemory all) other
           = LongTermMemory.rows_of_user (longTermMemory self) other).
Proof.
  intros short all.
  assert (Hshort : shortTermMemory short = ShortTermMemory.clear (shortTermMemory self) userId)
    by reflexivity.
  assert (Hall : shortTermMemory all = ShortTermMemory.clear (shortTermMemory self) userId
                 /\ longTermMemory all = snd (LongTermMemory.clear (longTermMemory self) userId)
                 /\ ragMemory all = ragMemory self).
  { subst all. unfold clearUserMemory. cbn [String.eqb Ascii.eqb Bool.eqb orb].
    destruct (LongTermMemory.clear (longTermMemory self) userId) as [[n | e] ltm];
      repeat split. }
  destruct Hall as (Hall1 & Hall2 & Hall3).
  assert (Hok : LongTermMemory.db (longTermMemory self) <> None ->
                fst (clearUserMemory self userId "all") = JS.Normal tt).
  { intros Hdb. unfold clearUserMemory, LongTermMemory.clear.
    cbn [String.eqb Ascii.eqb Bool.eqb orb].
    destruct (LongTermMemory.db (longTermMemory self)); [reflexivity | contradiction]. }
  split; [| split].
  - rewrite getCount_getAll. unfold ShortTermMemory.getAll.
    rewrite Hshort, short_clear_empties. repeat split.
  - rewrite getCount_getAll. unfold ShortTermMemory.getAll, LongTermMemory.rows_of_user.
    rewrite Hall1, Hall2, short_clear_empties, long_clear_rows.
    repeat split; [| exact Hall3 | exact Hok].
    apply (filter_filter_neg (fun r => String.eqb (LongTermMemory.user_id r) userId)).
  - intros other Hne. unfold ShortTermMemory.getAll, LongTermMemory.rows_of_user.
    rewrite Hshort, Hall1, Hall2, long_clear_rows.
    rewrite short_clear_other by congruence.
    repeat split.
    apply (filter_filter_other (fun r => String.eqb (LongTermMemory.user_id r) userId)).
    intros r Hr. apply String.eqb_eq in Hr. apply String.eqb_neq. congruence.
Qed.

End Clearing.

(* ===================================================================== *)
(** * Durable Store: row ids *)
(* ===================================================================== *)

Section RowIds.
Import LongTermMemory.
Context {P : Platform}.

Lemma NoDup_ids_filter (p : Row -> bool) (l : list Row) :
  NoDup (List.map id l) -> NoDup (List.map id (List.filter p l)).
Proof.
  induction l as [| r l IH]; intros Hnd; [constructor |].
  cbn [List.map] in Hnd. apply NoDup_cons in Hnd. destruct Hnd as [Hr Hl].
  cbn [List.filter]. destruct (p r); [| apply IH, Hl].
  cbn [List.map]. apply NoDup_cons. split; [| apply IH, Hl].
  intros Hin. apply Hr. apply list_elem_of_In in Hin. apply list_elem_of_In.
  apply in_map_iff in Hin. destruct Hin as (x & Hx & Hin).
  apply in_map_iff. exists x. split; [exact Hx |].
  apply List.filter_In in Hin. apply Hin.
Qed.

Lemma filter_keeps_well_keyed (p : Row -> bool) (l : list Row) (s : Z) :
  well_keyed {| rows := l; seq := s |} ->
  well_keyed {| rows := List.filter p l; seq := s |}.
Proof.
  unfold well_keyed. cbn [rows seq]. intros [Hnd Hle]. split.
  - apply NoDup_ids_filter, Hnd.
  - rewrite List.Forall_forall in *. intros r Hr. apply Hle.
    apply List.filter_In in Hr. apply Hr.
Qed.

(** Ids stay distinct under every write and under [cleanup]. *)
Lemma write_well_keyed self w tbl :
  db self = Some tbl -> well_keyed tbl ->
  exists tbl', db (write self w) = Some tbl' /\ well_keyed tbl'.
Proof.
  intros Hdb [Hnd Hle]. destruct w as [userId m now | id_ u now]; cbn [write].
  - unfold store. rewrite Hdb. cbn [snd db]. eexists. split; [reflexivity |].
    unfold well_keyed. cbn [rows seq]. split.
    + rewrite List.map_app. cbn [List.map id]. apply NoDup_app. split; [exact Hnd |].
      split; [| apply NoDup_singleton].
      intros x Hx Hin. apply list_elem_of_In in Hx. apply list_elem_of_In in Hin.
      destruct Hin as [<- | []].
      apply in_map_iff in Hx. destruct Hx as (r & Hr & Hin).
      rewrite List.Forall_forall in Hle. specialize (Hle r Hin). lia.
    + apply Forall_app. split.
      * eapply Forall_impl; [exact Hle |]. cbn beta. intros; lia.
      * constructor; [cbn [id]; lia | constructor].
  - unfold update. rewrite Hdb. cbn [snd db]. eexists. split; [reflexivity |].
    unfold well_keyed. cbn [rows seq].
    assert (Hid : List.map id (List.map (fun r => if id r =? id_ then apply_updates u now r else r)
                                        (rows tbl))
                  = List.map id (rows tbl)).
    { rewrite List.map_map. apply List.map_ext. intros r.
      destruct (id r =? id_); reflexivity. }
    split; [rewrite Hid; exact Hnd |].
    apply Forall_map. eapply Forall_impl; [exact Hle |]. cbn beta. intros r Hr.
    destruct (id r =? id_); exact Hr.
Qed.

Lemma run_writes_well_keyed ws : forall self tbl,
  db self = Some tbl -> well_keyed tbl ->
  exists tbl', db (run_writes self ws) = Some tbl' /\ well_keyed tbl'.
Proof.
  induction ws as [| w ws IH]; intros self tbl Hdb Hwk.
  - exists tbl. split; assumption.
  - destruct (write_well_keyed self w tbl Hdb Hwk) as (tbl1 & Hdb1 & Hwk1).
    cbn [run_writes fold_left]. exact (IH _ tbl1 Hdb1 Hwk1).
Qed.

Lemma cleanup_well_keyed self options now tbl :
  db self = Some tbl -> well_keyed tbl ->
  exists tbl', db (snd (cleanup self options now)) = Some tbl' /\ well_keyed tbl'.
Proof.
  intros Hdb Hwk. unfold cleanup, cleanup_phases. rewrite Hdb.
  destruct (_ <? _); cbn [snd db]; eexists; (split; [reflexivity |]).
  - apply filter_keeps_well_keyed, filter_keeps_well_keyed. destruct tbl; exact Hwk.
  - apply filter_keeps_well_keyed. destruct tbl; exact Hwk.
Qed.

End RowIds.

(* ===================================================================== *)
(** * Durable Store: cleanup *)
(* ===================================================================== *)

Section Cleanup.
Import LongTermMemory.
Context {P : Platform}.

Lemma insert_by_timestamp_perm r l : Permutation (insert_by_timestamp r l) (r :: l).
Proof.
  induction l as [| x l IH]; cbn [insert_by_timestamp]; [reflexivity |].
  destruct (timestamp r <=? timestamp x); [reflexivity |].
  rewrite IH. apply perm_swap.
Qed.

Lemma order_by_timestamp_perm l : Permutation (order_by_timestamp l) l.
Proof.
  induction l as [| r l IH]; [reflexivity |].
  cbn [order_by_timestamp fold_right]. rewrite insert_by_timestamp_perm.
  apply perm_skip. exact IH.
Qed.

Lemma insert_by_timestamp_sorted r l :
  StronglySorted not_newer l -> StronglySorted not_newer (insert_by_timestamp r l).
Proof.
  induction 1 as [| x l Hs IH Hx]; cbn [insert_by_timestamp].
  - repeat constructor.
  - destruct (timestamp r <=? timestamp x) eqn:E.
    + apply Z.leb_le in E. constructor; [constructor; assumption |].
      constructor; [exact E |].
      eapply Forall_impl; [exact Hx |]. unfold not_newer. intros; lia.
    + apply Z.leb_gt in E. constructor; [exact IH |].
      rewrite insert_by_timestamp_perm.
      constructor; [unfold not_newer; lia | exact Hx].
Qed.

Lemma order_by_timestamp_sorted l : StronglySorted not_newer (order_by_timestamp l).
Proof.
  induction l as [| r l IH]; [constructor |].
  apply insert_by_timestamp_sorted. exact IH.
Qed.

Lemma filter_perm {A} (p : A -> bool) (l l' : list A) :
  Permutation l l' -> Permutation (List.filter p l) (List.filter p l').
Proof.
  induction 1 as [| x l l' _ IH | x y l | l l' l'' _ IH1 _ IH2]; cbn [List.filter].
  - reflexivity.
  - destruct (p x); [apply perm_skip |]; exact IH.
  - destruct (p x), (p y); try reflexivity. apply perm_swap.
  - etransitivity; eassumption.
Qed.

Lemma filter_none {A} (p : A -> bool) (l : list A) :
  (forall x, In x l -> p x = false) -> List.filter p l = [].
Proof.
  induction l as [| x l IH]; intros H; [reflexivity |].
  cbn [List.filter]. rewrite (H x) by (left; reflexivity).
  apply IH. intros y Hy. apply H. right. exact Hy.
Qed.

Lemma id_in_iff ids r : id_in ids r = true <-> In (id r) ids.
Proof.
  unfold id_in. rewrite existsb_exists. split.
  - intros (x & Hin & E). apply Z.eqb_eq in E. congruence.
  - intros Hin. exists (id r). split; [exact Hin | apply Z.eqb_refl].
Qed.

(** Deleting the ids of a prefix of a list without repeated ids leaves
    the rest of the list. *)
Lemma filter_out_prefix (front back : list Row) :
  NoDup (List.map id (front ++ back)) ->
  List.filter (fun r => negb (id_in (List.map id front) r)) (front ++ back) = back.
Proof.
  intros Hnd. rewrite List.filter_app.
  assert (H1 : List.filter (fun r => negb (id_in (List.map id front) r)) front = []).
  { apply filter_none. intros r Hr.
    assert (E : id_in (List.map id front) r = true)
      by (apply id_in_iff, in_map, Hr).
    rewrite E. reflexivity. }
  assert (H2 : List.filter (fun r => negb (id_in (List.map id front) r)) back = back).
  { apply List.forallb_filter_id. apply forallb_forall. intros r Hr.
    destruct (id_in (List.map id front) r) eqn:E; [| reflexivity].
    apply id_in_iff in E. exfalso.
    rewrite List.map_app in Hnd. apply NoDup_app in Hnd.
    destruct Hnd as (_ & Hdisj & _).
    apply (Hdisj (id r)); apply list_elem_of_In; [exact E | apply in_map, Hr]. }
  rewrite H1, H2. reflexivity.
Qed.

(** The second [DELETE]: with ids that do not repeat it removes
    [excess] rows, each at least as old as every row it keeps. *)
Lemma delete_oldest rows1 (excess : Z) :
  NoDup (List.map id rows1) ->
  0 <= excess <= Z.of_nat (length rows1) ->
  let rows2 := List.filter (fun r => negb (id_in (oldest_ids rows1 excess) r)) rows1 in
  Z.of_nat (length rows2) = Z.of_nat (length rows1) - excess
  /\ (forall r, In r rows2 -> In r rows1)
  /\ (forall removed kept,
        In removed rows1 -> ~ In removed rows2 -> In kept rows2 ->
        not_newer removed kept).
Proof.
  intros Hnd Hex rows2.
  set (sorted := order_by_timestamp rows1).
  assert (Hperm : Permutation sorted rows1) by apply order_by_timestamp_perm.
  set (front := firstn (Z.to_nat excess) sorted).
  set (back := skipn (Z.to_nat excess) sorted).
  assert (Hsplit : sorted = front ++ back) by (symmetry; apply firstn_skipn).
  assert (Hrows2 : Permutation rows2 back).
  { subst rows2. unfold oldest_ids. fold sorted. fold front.
    rewrite <- (filter_perm _ _ _ Hperm), Hsplit.
    rewrite filter_out_prefix; [reflexivity |].
    rewrite <- Hsplit. rewrite Hperm. exact Hnd. }
  assert (Hlen : length sorted = length rows1) by (apply Permutation_length, Hperm).
  split; [| split].
  - rewrite (Permutation_length Hrows2). subst back. rewrite length_skipn. lia.
  - intros r Hr. apply List.filter_In in Hr. apply Hr.
  - intros removed kept Hin Hnot Hkept.
    assert (Hfront : In removed front).
    { apply (Permutation_in _ (Permutation_sym Hperm)) in Hin.
      rewrite Hsplit in Hin. apply in_app_or in Hin. destruct Hin as [H | H]; [exact H |].
      exfalso. apply Hnot. apply (Permutation_in _ (Permutation_sym Hrows2)). exact H. }
    assert (Hback : In kept back) by (apply (Permutation_in _ Hrows2), Hkept).
    pose proof (order_by_timestamp_sorted rows1) as Hsorted. fold sorted in Hsorted.
    rewrite Hsplit in Hsorted. clear - Hsorted Hfront Hback.
    induction front as [| x front IH]; [contradiction |].
    cbn [app] in Hsorted. apply StronglySorted_inv in Hsorted. destruct Hsorted as [Hs Hx].
    destruct Hfront as [-> | Hfront].
    + rewrite List.Forall_forall in Hx. apply Hx. apply in_or_app. right. exact Hback.
    + apply IH; assumption.
Qed.

(** What [cleanup] does to an open database: the first phase deletes
    exactly the rows that are old and of low importance; if more than
    [maxRecords] rows are left, the second phase deletes the oldest of
    them until [maxRecords] are left.  The value returned counts the rows
    of the first phase only; the sum over both phases goes to the log. *)
Lemma cleanup_two_phases (self : LongTermMemory.t) (tbl : Table)
    (options : CleanupOptions) (now : Z) :
  let cap := default 10000 (maxRecords options) in
  let doomed :=
    old_and_unimportant (cutoffDate now (default 365 (maxAge options)))
                        (default 0.1%float (minImportance options)) in
  let rows1 := List.filter (fun r => negb (doomed r)) (rows tbl) in
  let after := all_rows (snd (cleanup self options now)) in
  db self = Some tbl ->
  NoDup (List.map id (rows tbl)) ->
  0 <= cap ->
  Z.of_nat (length after) = Z.min (Z.of_nat (length rows1)) cap
  /\ (forall r, In r after -> In r rows1)
  /\ (forall removed kept,
        In removed rows1 -> ~ In removed after -> In kept after -> not_newer removed kept)
  /\ fst (cleanup self options now)
     = Z.of_nat (length (rows tbl)) - Z.of_nat (length rows1)
  /\ cleanup_logged self options now
     = Some (Z.of_nat (length (rows tbl)) - Z.of_nat (length after)).
Proof.
  intros cap doomed rows1 after Hdb Hnd Hcap.
  subst after. unfold cleanup, cleanup_logged, cleanup_phases. rewrite Hdb.
  fold cap. fold doomed. fold rows1.
  assert (Hnd1 : NoDup (List.map id rows1)) by (apply NoDup_ids_filter, Hnd).
  destruct (cap <? Z.of_nat (length rows1)) eqn:E.
  - apply Z.ltb_lt in E.
    destruct (delete_oldest rows1 (Z.of_nat (length rows1) - cap) Hnd1) as (Hlen & Hsub & Hold);
      [lia |].
    cbn [snd fst all_rows db rows].
    repeat split.
    + rewrite Hlen. lia.
    + exact Hsub.
    + exact Hold.
    + f_equal. lia.
  - apply Z.ltb_ge in E. cbn [snd fst all_rows db rows].
    repeat split.
    + lia.
    + intros r Hr. exact Hr.
    + intros removed kept Hin Hnot. contradiction.
    + f_equal. lia.
Qed.

(** Rows that are not of low importance pass the first phase, whatever
    the cutoff date. *)
Lemma important_rows_are_kept cutoff minImportance_ l :
  Forall (fun r => sql_lt_param (importance r) minImportance_ = false) l ->
  List.filter (fun r => negb (old_and_unimportant cutoff minImportance_ r)) l = l.
Proof.
  induction 1 as [| r l Hr _ IH]; [reflexivity |].
  cbn [List.filter]. unfold old_and_unimportant at 1.
  rewrite Hr, andb_false_r. cbn [negb]. rewrite IH. reflexivity.
Qed.

(** C4, at a table of three records capped at one: no record is old and
    unimportant, so the second phase removes the two oldest records; the
    call returns 0, the count of the first phase, while 2 records are
    gone (and 2 is what the log says). *)
Theorem cleanup_returns_first_phase_only :
  let '(returned, after) := cleanup three_records cap_at_one 1000 in
  List.map timestamp (all_rows three_records) = [100; 300; 200]
  /\ List.map timestamp (all_rows after) = [300]
  /\ returned = 0
  /\ cleanup_logged three_records cap_at_one 1000 = Some 2.
Proof.
  assert (Hkept : forall cutoff,
             List.filter (fun r => negb (old_and_unimportant cutoff 0.1 r))
                         (all_rows three_records)
             = all_rows three_records).
  { intros cutoff. apply important_rows_are_kept. repeat constructor. }
  unfold cleanup, cleanup_logged, cleanup_phases.
  change (db three_records)
    with (Some {| rows := all_rows three_records; seq := 3 |}).
  cbn [rows seq cap_at_one maxAge minImportance maxRecords default].
  rewrite !Hkept. vm_compute. repeat split; reflexivity.
Qed.

End Cleanup.

(* ===================================================================== *)
(** * Orchestrator: importance scoring *)
(* ===================================================================== *)

Section Importance.
Import MemoryManager.

(** [tenths] gives the doubles that the decimal literals denote. *)
Example tenths_literals :
  List.map tenths [5; 6; 7; 8; 9; 10] = [0.5; 0.6; 0.7; 0.8; 0.9; 1.0]%float.
Proof. reflexivity. Qed.

Example below_one : PrimFloat.next_down 1 = 0.9999999999999999%float.
Proof. reflexivity. Qed.

Lemma calculateImportance_flags userMessage botResponse :
  let text := JS.toLowerCase (userMessage ++ " " ++ botResponse)%string in
  calculateImportance userMessage botResponse
  = score_of_flags
      (JS.includes text "important") (JS.includes text "urgent")
      (JS.includes text "critical") (JS.includes text "remember")
      (JS.includes text "project") (JS.includes text "task")
      (JS.includes text "deadline") (JS.includes text "meeting")
      (500 <? JS.strlen botResponse) (200 <? JS.strlen userMessage).
Proof. reflexivity. Qed.

Lemma claimed_tenths_flags userMessage botResponse :
  let text := JS.toLowerCase (userMessage ++ " " ++ botResponse)%string in
  claimed_tenths userMessage botResponse
  = tenths_of_flags
      (JS.includes text "important") (JS.includes text "urgent")
      (JS.includes text "critical") (JS.includes text "remember")
      (JS.includes text "project") (JS.includes text "task")
      (JS.includes text "deadline") (JS.includes text "meeting")
      (500 <? JS.strlen botResponse) (200 <? JS.strlen userMessage).
Proof.
  intros text. unfold claimed_tenths, keyword_hits, tenths_of_flags.
  fold text. unfold highImportanceKeywords, mediumImportanceKeywords.
  cbn [List.filter].
  destruct (JS.includes text "important"), (JS.includes text "urgent"),
    (JS.includes text "critical"), (JS.includes text "remember"),
    (JS.includes text "project"), (JS.includes text "task"),
    (JS.includes text "deadline"), (JS.includes text "meeting");
    reflexivity.
Qed.

Lemma score_near_tenths i u c r p t d m lr lm :
  let s := score_of_flags i u c r p t d m lr lm in
  let e := tenths (tenths_of_flags i u c r p t d m lr lm) in
  (s = e \/ s = PrimFloat.next_down e)
  /\ PrimFloat.leb 0.5 s = true /\ PrimFloat.leb s 1 = true.
Proof.
  destruct i, u, c, r, p, t, d, m, lr, lm;
    (split; [first [left; reflexivity | right; reflexivity] | split; reflexivity]).
Qed.


(** C6 (amended).  The score is the formula's value
    [min(1.0, 0.5 + 0.2 h + 0.1 m + 0.1 + 0.1)] (keywords looked up in
    the lower-cased [userMessage + ' ' + botResponse]) up to the rounding
    of the additions: it is that value or the double just below it, and
    lies within [[0.5, 1]].  For ("this is urgent and important", "ok") it
    is 0.8999999999999999; for ("hi", "hello") it is 0.5. *)
Theorem importance_score_up_to_rounding (userMessage botResponse : string) :
  let s := calculateImportance userMessage botResponse in
  let e := claimed_importance userMessage botResponse in
  (s = e \/ s = PrimFloat.next_down e)
  /\ PrimFloat.leb 0.5 s = true /\ PrimFloat.leb s 1 = true
  /\ calculateImportance "this is urgent and important" "ok" = 0.8999999999999999%float
  /\ calculateImportance "hi" "hello" = 0.5%float.
Proof.
  intros s e. subst s e. unfold claimed_importance.
  rewrite calculateImportance_flags, claimed_tenths_flags. cbv zeta.
  match goal with
  | |- context [score_of_flags ?i ?u ?c ?r ?p ?t ?d ?m ?lr ?lm] =>
      destruct (score_near_tenths i u c r p t d m lr lm) as (H1 & H2 & H3)
  end.
  repeat split; try assumption; reflexivity.
Qed.

(** C6 as stated fails: the formula gives 0.9 for
    ("this is urgent and important", "ok"), the code a different double. *)
Lemma importance_of_urgent_and_important :
  claimed_importance "this is urgent and important" "ok" = 0.9%float
  /\ calculateImportance "this is urgent and important" "ok" <> 0.9%float
  /\ calculateImportance "this is urgent and important" "ok"
     <> claimed_importance "this is urgent and important" "ok".
Proof.
  assert (H : forall x, calculateImportance "this is urgent and important" "ok" = x ->
                        PrimFloat.eqb 0.8999999999999999 x = true).
  { intros x <-. reflexivity. }
  split; [reflexivity | split]; intros E; apply H in E; vm_compute in E; discriminate.
Qed.

(** A keyword is looked for in the two texts joined by a space: split
    across them it is not found. *)
Example keyword_across_the_two_texts :
  calculateImportance "impor" "tant" = 0.5%float
  /\ calculateImportance "important" "" = 0.7%float.
Proof. split; reflexivity. Qed.

End Importance.
(* ===================================================================== *)
(** * Semantic Index *)
(* ===================================================================== *)

Section SemanticIndex.
Import RAGMemory.
Context {P : Platform}.

Lemma Map_set_has_key m k v : In k (List.map fst (Map_set m k v)).
Proof.
  induction m as [| [k' v'] m IH]; cbn [Map_set].
  - left. reflexivity.
  - destruct (String.eqb k' k); [left; reflexivity | right; exact IH].
Qed.

Lemma Map_set_length_present m k v :
  In k (List.map fst m) -> length (Map_set m k v) = length m.
Proof.
  induction m as [| [k' v'] m IH]; cbn [Map_set List.map fst In]; [contradiction |].
  intros Hin. destruct (String.eqb k' k) eqn:E; [reflexivity |].
  cbn [length]. f_equal. apply IH. destruct Hin as [Heq | Hin]; [| exact Hin].
  apply String.eqb_neq in E. contradiction.
Qed.

(** The loop of [search] is a filter. *)
Lemma search_loop queryLower docs : forall results,
  fold_left (search_step queryLower) docs results
  = results
    ++ List.map scored
         (List.filter (fun d => JS.includes (JS.toLowerCase (doc_content d)) queryLower)
                      (List.map snd docs)).
Proof.
  induction docs as [| [k d] docs IH]; intros results; cbn [fold_left List.map List.filter snd].
  - rewrite app_nil_r. reflexivity.
  - rewrite IH. unfold search_step. cbn [snd].
    destruct (JS.includes (JS.toLowerCase (doc_content d)) queryLower).
    + rewrite <- app_assoc. reflexivity.
    + reflexivity.
Qed.

(** C8 (amended).  In fallback mode, for every limit that is not
    negative, a query that has a character other than white space returns
    the stored documents whose content contains it (letter case apart),
    each with similarity 0.8 and distance 0.2, in insertion order, cut to
    the limit; a query of white space only returns nothing.  Over the
    documents "foobar" and "baz" the query "foo" returns "foobar" alone. *)
Theorem fallback_search_is_substring_filter (self : RAGMemory.t) (query : string) (limit : Z)
    (id1 id2 : string) (metadata1 metadata2 : Metadata) :
  let foobar := {| doc_id := id1; doc_content := "foobar"; doc_metadata := metadata1 |} in
  let baz := {| doc_id := id2; doc_content := "baz"; doc_metadata := metadata2 |} in
  0 <= limit ->
  search self query limit
  = (if whitespace_only query then []
     else firstn (Z.to_nat limit) (List.map scored (List.filter (matches query) (stored self))))
  /\ search {| documents := Some [(id1, foobar); (id2, baz)] |} "foo" 5 = [scored foobar].
Proof.
  intros foobar baz Hlimit. split; [| reflexivity].
  unfold search, search_body. rewrite query_missing_whitespace.
  destruct (whitespace_only query); [reflexivity |].
  unfold stored. destruct (documents self) as [docs |]; cbn [JS.try_catch default].
  - rewrite search_loop, slice_first by exact Hlimit. reflexivity.
  - cbn [List.map List.filter]. rewrite firstn_nil. reflexivity.
Qed.

Lemma fallback_search_is_substring_filter_witness :
  let index := index_of ["foobar"; "baz"] in
  search index "BA" 1
  = (if whitespace_only "BA" then []
     else firstn (Z.to_nat 1) (List.map scored (List.filter (matches "BA") (stored index))))
  /\ search {| documents :=
                 Some [("a"%string,
                        {| doc_id := "a"; doc_content := "foobar"; doc_metadata := [] |});
                       ("b"%string,
                        {| doc_id := "b"; doc_content := "baz"; doc_metadata := [] |})] |}
            "foo" 5
     = [scored {| doc_id := "a"; doc_content := "foobar"; doc_metadata := [] |}].
Proof.
  apply (fallback_search_is_substring_filter (index_of ["foobar"; "baz"]) "BA" 1
           "a" "b" [] []).
  lia.
Defined.

(** The same on an index filled by [addDocument]: the query "foo" finds
    "foobar" alone, the query "BA" finds both, the first of them within a
    limit of one. *)
Example search_foobar_baz :
  let index := index_of ["foobar"; "baz"] in
  List.map s_content (search index "foo" 5) = ["foobar"]%string
  /\ List.map similarity (search index "foo" 5) = [0.8%float]
  /\ List.map s_content (search index "BA" 5) = ["foobar"; "baz"]%string
  /\ List.map s_content (search index "BA" 1) = ["foobar"]%string.
Proof. repeat split; reflexivity. Qed.

(** C8 as stated fails: a query of one space is not empty and occurs in
    "foo bar", yet the search returns nothing. *)
Lemma search_for_a_space_finds_nothing :
  let index := index_of ["foo bar"] in
  " "%string <> ""%string
  /\ whitespace_only " " = true
  /\ search index " " 5 = []
  /\ List.map doc_content (List.filter (matches " ") (stored index)) = ["foo bar"]%string
  /\ search index " " 5
     <> firstn 5 (List.map scored (List.filter (matches " ") (stored index))).
Proof. repeat split; try reflexivity; discriminate. Qed.

(** The outcomes of [addDocument], case by case. *)
Lemma addDocument_cases self document addedAt :
  addDocument self document addedAt
  = match in_content document with
    | None => (JS.Throw empty_content, self)
    | Some content =>
        if whitespace_only content then (JS.Throw empty_content, self)
        else
          match documents self with
          | None => (JS.Throw undefined_documents, self)
          | Some docs =>
              let metadata := default [] (in_metadata document) in
              let id := generateDocumentId content metadata in
              (JS.Normal id,
               {| documents :=
                    Some (Map_set docs id
                            {| doc_id := id; doc_content := content;
                               doc_metadata :=
                                 obj_set (obj_set metadata "addedAt" (VString addedAt))
                                         "contentLength" (VInt (JS.strlen content)) |}) |})
          end
    end.
Proof.
  unfold addDocument. rewrite content_missing_blank.
  destruct (in_content document) as [content |]; cbn [blank]; [| reflexivity].
  destruct (whitespace_only content); reflexivity.
Qed.

(** C10.  For content that is absent, empty or white space only,
    [addDocument] throws ("Document content cannot be empty") and the
    index is what it was. *)
Theorem addDocument_rejects_blank_content
    (self : RAGMemory.t) (document : DocumentInput) (addedAt : string) :
  blank (in_content document) = true ->
  addDocument self document addedAt = (JS.Throw empty_content, self).
Proof.
  intros Hblank. rewrite addDocument_cases.
  destruct (in_content document) as [content |]; [| reflexivity].
  cbn [blank] in Hblank. rewrite Hblank. reflexivity.
Qed.

(** C7.  Adding the same content and metadata twice has the same outcome
    both times, and the second call leaves the number of documents as the
    first left it.  When the content is not blank and the index is
    initialized the outcome is the id, a function of content and
    metadata alone. *)
Theorem addDocument_is_idempotent
    (self : RAGMemory.t) (document : DocumentInput) (addedAt1 addedAt2 : string) :
  let first := addDocument self document addedAt1 in
  let second := addDocument (snd first) document addedAt2 in
  fst second = fst first
  /\ totalDocuments (snd second) = totalDocuments (snd first)
  /\ (forall docs content,
        documents self = Some docs ->
        in_content document = Some content ->
        whitespace_only content = false ->
        fst first
        = JS.Normal (generateDocumentId content (default [] (in_metadata document)))).
Proof.
  intros first second. subst first second.
  rewrite (addDocument_cases self), (addDocument_cases _ document addedAt2).
  destruct (in_content document) as [content |]; cbn [snd fst].
  - destruct (whitespace_only content) eqn:Hws; cbn [snd fst].
    + repeat split. intros docs c _ Hc. congruence.
    + destruct (documents self) as [docs |] eqn:Hdocs; cbv zeta; cbn [snd fst documents].
      * repeat split.
        -- unfold totalDocuments. cbn [documents].
           rewrite Map_set_length_present; [reflexivity | apply Map_set_has_key].
        -- intros docs' c _ Hc _. congruence.
      * rewrite Hdocs. repeat split. intros docs' c Hd. discriminate.
  - repeat split. intros docs c _ Hc. discriminate.
Qed.

End SemanticIndex.

Lemma addDocument_rejects_blank_content_witness :
  @RAGMemory.addDocument sample_platform (index_of ["foobar"])
    {| RAGMemory.in_content := Some "  "%string; RAGMemory.in_metadata := None |}
    "2024-01-02T00:00:00.000Z"
  = (JS.Throw RAGMemory.empty_content, index_of ["foobar"]).
Proof.
  apply (@addDocument_rejects_blank_content sample_platform). reflexivity.
Defined.

(** The index after the same document was added twice holds it once. *)
Example same_document_twice :
  RAGMemory.totalDocuments (index_of ["foobar"; "foobar"]) = 1
  /\ RAGMemory.totalDocuments (index_of ["foobar"; "baz"; "foobar"]) = 2.
Proof. split; reflexivity. Qed.

(* ===================================================================== *)
(** * Recent Buffer: the other operations *)
(* ===================================================================== *)

Section BufferOperations.
Implicit Types (self : ShortTermMemory.t) (u v : string).

Lemma slice_from_length {A} (l : list A) r : (length (JS.slice_from l r) <= length l)%nat.
Proof.
  unfold JS.slice_from, JS.slice. rewrite length_firstn, length_skipn. lia.
Qed.

Lemma findIndex_None {A} (p : A -> bool) (l : list A) :
  JS.findIndex p l = None <-> existsb p l = false.
Proof.
  induction l as [| x l IH]; cbn [JS.findIndex existsb]; [tauto |].
  destruct (p x); cbn [orb]; [split; discriminate |].
  destruct (JS.findIndex p l); [| tauto].
  split; [discriminate |]. intros H. apply IH in H. discriminate.
Qed.

(** [findIndex] finds the first element that satisfies the test. *)
Lemma findIndex_Some {A} (p : A -> bool) (l : list A) i :
  JS.findIndex p l = Some i ->
  exists before x rest,
    l = before ++ x :: rest /\ length before = i /\ p x = true
    /\ forallb (fun y => negb (p y)) before = true
    /\ JS.splice1 l i = before ++ rest.
Proof.
  revert i. induction l as [| y l IH]; intros i; cbn [JS.findIndex]; [discriminate |].
  destruct (p y) eqn:E.
  - intros [= <-]. exists [], y, l. repeat split. exact E.
  - destruct (JS.findIndex p l) as [j |]; [| discriminate].
    intros [= <-]. destruct (IH j eq_refl) as (before & x & rest & -> & Hlen & Hx & Hb & Hs).
    exists (y :: before), x, rest. repeat split.
    + cbn [length]. rewrite Hlen. reflexivity.
    + exact Hx.
    + cbn [forallb]. rewrite E, Hb. reflexivity.
    + unfold JS.splice1 in *. cbn [firstn skipn app]. f_equal. exact Hs.
Qed.

Lemma getAll_insert self u v l :
  ShortTermMemory.getAll
    {| ShortTermMemory.memory := <[u := l]> (ShortTermMemory.memory self);
       ShortTermMemory.maxItems := ShortTermMemory.maxItems self |} v
  = if decide (u = v) then l else ShortTermMemory.getAll self v.
Proof.
  unfold ShortTermMemory.getAll. cbn [ShortTermMemory.memory].
  rewrite lookup_insert. destruct (decide (u = v)); reflexivity.
Qed.

Lemma remove_getAll self u itemId v :
  ShortTermMemory.getAll (snd (ShortTermMemory.remove self u itemId)) v
  = if decide (u = v) then
      match JS.findIndex (ShortTermMemory.has_id itemId) (ShortTermMemory.getAll self u) with
      | Some i => JS.splice1 (ShortTermMemory.getAll self u) i
      | None => ShortTermMemory.getAll self u
      end
    else ShortTermMemory.getAll self v.
Proof.
  unfold ShortTermMemory.remove.
  destruct (ShortTermMemory.memory self !! u) as [um |] eqn:E.
  - assert (Hum : ShortTermMemory.getAll self u = um)
      by (unfold ShortTermMemory.getAll; rewrite E; reflexivity).
    rewrite Hum.
    destruct (JS.findIndex (ShortTermMemory.has_id itemId) um) as [i |]; cbn [snd].
    + apply getAll_insert.
    + destruct (decide (u = v)) as [<- |]; [exact Hum | reflexivity].
  - cbn [snd].
    assert (Hum : ShortTermMemory.getAll self u = [])
      by (unfold ShortTermMemory.getAll; rewrite E; reflexivity).
    rewrite Hum. cbn [JS.findIndex].
    destruct (decide (u = v)) as [<- |]; [exact Hum | reflexivity].
Qed.

Lemma cleanup_getAll self u keepCount v :
  ShortTermMemory.getAll (ShortTermMemory.cleanup self u keepCount) v
  = if decide (u = v) then
      if JS.Z_gt_float (ShortTermMemory.getCount self u) keepCount
      then JS.slice_from (ShortTermMemory.getAll self u)
             (JS.ToIntegerOrInfinity (PrimFloat.opp keepCount))
      else ShortTermMemory.getAll self u
    else ShortTermMemory.getAll self v.
Proof.
  unfold ShortTermMemory.cleanup, ShortTermMemory.getCount.
  destruct (ShortTermMemory.memory self !! u) as [um |] eqn:E.
  - assert (Hum : ShortTermMemory.getAll self u = um)
      by (unfold ShortTermMemory.getAll; rewrite E; reflexivity).
    rewrite Hum. destruct (JS.Z_gt_float _ keepCount).
    + apply getAll_insert.
    + destruct (decide (u = v)) as [<- |]; [exact Hum | reflexivity].
  - assert (Hum : ShortTermMemory.getAll self u = [])
      by (unfold ShortTermMemory.getAll; rewrite E; reflexivity).
    rewrite Hum.
    destruct (decide (u = v)) as [<- |]; [| reflexivity].
    rewrite Hum. destruct (JS.Z_gt_float 0 keepCount); [| reflexivity].
    unfold JS.slice_from, JS.slice. rewrite skipn_nil, firstn_nil. reflexivity.
Qed.

Lemma clear_getAll self u v :
  ShortTermMemory.getAll (ShortTermMemory.clear self u) v
  = if decide (u = v) then [] else ShortTermMemory.getAll self v.
Proof.
  unfold ShortTermMemory.getAll.
  destruct (decide (u = v)) as [<- | Hne].
  - rewrite short_clear_empties. reflexivity.
  - rewrite short_clear_other by exact Hne. reflexivity.
Qed.

Lemma buffer_step_maxItems self op :
  ShortTermMemory.maxItems (buffer_step self op) = ShortTermMemory.maxItems self.
Proof.
  destruct op as [c | u i | u k | u]; cbn [buffer_step].
  - reflexivity.
  - unfold ShortTermMemory.remove.
    destruct (ShortTermMemory.memory self !! u); [| reflexivity].
    destruct (JS.findIndex _ _); reflexivity.
  - unfold ShortTermMemory.cleanup.
    destruct (ShortTermMemory.memory self !! u); [| reflexivity].
    destruct (JS.Z_gt_float _ _); reflexivity.
  - unfold ShortTermMemory.clear.
    destruct (ShortTermMemory.memory self !! u); reflexivity.
Qed.

Lemma buffer_step_within_capacity self op :
  0 <= ShortTermMemory.maxItems self ->
  within_capacity self -> within_capacity (buffer_step self op).
Proof.
  intros Hmax Hcap v. rewrite buffer_step_maxItems.
  specialize (Hcap v) as Hv. rewrite getCount_getAll in Hv |- *.
  destruct op as [c | u i | u k | u]; cbn [buffer_step].
  - destruct (decide (call_user c = v)) as [<- | Hne].
    + rewrite add_getAll, keep_last_length. lia.
    + rewrite add_getAll_other by exact Hne. exact Hv.
  - rewrite remove_getAll. destruct (decide (u = v)) as [<- |]; [| exact Hv].
    destruct (JS.findIndex _ _) as [j |] eqn:E; [| exact Hv].
    destruct (findIndex_Some _ _ _ E) as (before & x & rest & Hl & _ & _ & _ & Hs).
    rewrite Hs. rewrite Hl in Hv. rewrite !length_app in *. cbn [length] in Hv. lia.
  - rewrite cleanup_getAll. destruct (decide (u = v)) as [<- |]; [| exact Hv].
    destruct (JS.Z_gt_float _ _); [| exact Hv].
    pose proof (slice_from_length (ShortTermMemory.getAll self u)
                  (JS.ToIntegerOrInfinity (PrimFloat.opp k))). lia.
  - rewrite clear_getAll. destruct (decide (u = v)); [cbn [length]; lia | exact Hv].
Qed.

(** X1.  A buffer whose capacity is not negative and in which no user
    holds more than [maxItems] items stays so under every sequence of
    [add], [remove], [cleanup] and [clear] calls, for any users. *)
Theorem buffer_stays_within_capacity self (ops : list BufferOp) :
  0 <= ShortTermMemory.maxItems self ->
  within_capacity self ->
  within_capacity (buffer_run self ops)
  /\ ShortTermMemory.maxItems (buffer_run self ops) = ShortTermMemory.maxItems self.
Proof.
  revert self. induction ops as [| op ops IH]; intros self Hmax Hcap.
  - split; [exact Hcap | reflexivity].
  - cbn [buffer_run fold_left].
    destruct (IH (buffer_step self op)) as [H1 H2].
    + rewrite buffer_step_maxItems. exact Hmax.
    + apply buffer_step_within_capacity; assumption.
    + split; [exact H1 |]. unfold buffer_run in H2. rewrite H2. apply buffer_step_maxItems.
Qed.


Lemma buffer_stays_within_capacity_witness :
  let self := ShortTermMemory.new (Some 2) in
  let ops := List.map BufAdd three_calls
             ++ [BufRemove "alice" "id3"; BufCleanup "alice" 1%float;
                 BufAdd (event_call 0); BufClear "bob"] in
  within_capacity (buffer_run self ops)
  /\ ShortTermMemory.maxItems (buffer_run self ops) = ShortTermMemory.maxItems self.
Proof.
  apply (buffer_stays_within_capacity (ShortTermMemory.new (Some 2))).
  - vm_compute. discriminate.
  - intros userId. unfold ShortTermMemory.getCount, ShortTermMemory.new.
    cbn [ShortTermMemory.memory]. rewrite lookup_empty. vm_compute. discriminate.
Defined.

(** X2.  [getRecent] for every limit: a positive limit gives the last
    [limit] items, newest first; a limit of [0] gives the whole buffer
    (because [slice(-0)] is [slice(0)]); a negative limit [-k] gives all
    but the [k] oldest items. *)
Theorem getRecent_by_limit self u (limit : Z) :
  ShortTermMemory.getRecent self u limit
  = rev (if 0 <? limit
         then keep_last (Z.to_nat limit) (ShortTermMemory.getAll self u)
         else skipn (Z.to_nat (- limit)) (ShortTermMemory.getAll self u)).
Proof.
  rewrite getRecent_getAll. f_equal.
  set (l := ShortTermMemory.getAll self u).
  destruct (0 <? limit) eqn:E.
  - apply Z.ltb_lt in E. apply slice_from_last. exact E.
  - apply Z.ltb_ge in E. unfold JS.slice_from, JS.slice, JS.relative_index.
    replace (- limit <? 0) with false by (symmetry; apply Z.ltb_ge; lia).
    destruct (Z.le_gt_cases (- limit) (Z.of_nat (length l))) as [Hle | Hgt].
    + rewrite Z.min_l by lia. apply firstn_all2. rewrite length_skipn. lia.
    + rewrite Z.min_r by lia. rewrite Z.sub_diag, Nat2Z.id.
      rewrite skipn_all. rewrite (skipn_all2 l) by lia. reflexivity.
Qed.

(** X3.  [remove] answers whether the user holds an item with that id.
    If not, the buffer is what it was; if so, exactly the first item
    with that id is taken out and the others keep their order.  Other
    users' buffers are never touched. *)
Theorem remove_takes_first_match self u (itemId : string) :
  let result := ShortTermMemory.remove self u itemId in
  let before := ShortTermMemory.getAll self u in
  fst result = existsb (ShortTermMemory.has_id itemId) before
  /\ (fst result = false -> snd result = self)
  /\ (fst result = true ->
      exists older item newer,
        before = older ++ item :: newer
        /\ ShortTermMemory.has_id itemId item = true
        /\ existsb (ShortTermMemory.has_id itemId) older = false
        /\ ShortTermMemory.getAll (snd result) u = older ++ newer)
  /\ (forall v, v <> u ->
        ShortTermMemory.getAll (snd result) v = ShortTermMemory.getAll self v).
Proof.
  intros result before. subst result before.
  assert (Hfst : fst (ShortTermMemory.remove self u itemId)
                 = match JS.findIndex (ShortTermMemory.has_id itemId)
                           (ShortTermMemory.getAll self u) with
                   | Some _ => true | None => false end).
  { unfold ShortTermMemory.remove, ShortTermMemory.getAll.
    destruct (ShortTermMemory.memory self !! u); [| reflexivity].
    destruct (JS.findIndex _ _); reflexivity. }
  split; [| split; [| split]].
  - rewrite Hfst.
    destruct (JS.findIndex _ _) as [i |] eqn:E.
    + destruct (findIndex_Some _ _ _ E) as (older & x & newer & Hl & _ & Hx & _).
      rewrite Hl, existsb_app. cbn [existsb]. rewrite Hx, orb_true_r. reflexivity.
    + apply findIndex_None in E. rewrite E. reflexivity.
  - clear Hfst. unfold ShortTermMemory.remove.
    destruct (ShortTermMemory.memory self !! u) as [um |]; [| reflexivity].
    destruct (JS.findIndex (ShortTermMemory.has_id itemId) um); cbn [fst snd];
      [intros H; discriminate H | reflexivity].
  - intros Htrue. rewrite Hfst in Htrue.
    pose proof (remove_getAll self u itemId u) as Hafter.
    destruct (decide (u = u)); [| congruence].
    destruct (JS.findIndex _ _) as [i |] eqn:E; [| discriminate].
    destruct (findIndex_Some _ _ _ E) as (older & x & newer & Hl & _ & Hx & Hold & Hs).
    exists older, x, newer. repeat split; try assumption.
    + clear - Hold. induction older as [| y older IH]; [reflexivity |].
      cbn [forallb existsb] in *. apply andb_true_iff in Hold. destruct Hold as [Hy Hold].
      destruct (ShortTermMemory.has_id itemId y); [discriminate |]. apply IH, Hold.
    + rewrite Hafter. exact Hs.
  - intros v Hne. rewrite remove_getAll.
    destruct (decide (u = v)); [congruence | reflexivity].
Qed.

Lemma includes_empty s : JS.includes s "" = true.
Proof. destruct s; reflexivity. Qed.

Lemma filter_all_true {A} (p : A -> bool) (l : list A) :
  (forall x, p x = true) -> List.filter p l = l.
Proof.
  intros H. induction l as [| x l IH]; [reflexivity |].
  cbn [List.filter]. rewrite H, IH. reflexivity.
Qed.

(** X4.  The buffer's [search] with an empty query returns the user's
    whole buffer, whatever the serialization of items is; for every
    query the result holds only items of that user's buffer, and an
    unknown user has no results. *)
Theorem buffer_search_empty_query (stringify : MemoryItem -> string) self u (query : string) :
  ShortTermMemory.search stringify self u "" = ShortTermMemory.getAll self u
  /\ (forall item, In item (ShortTermMemory.search stringify self u query) ->
                   In item (ShortTermMemory.getAll self u))
  /\ (ShortTermMemory.memory self !! u = None ->
      ShortTermMemory.search stringify self u query = []).
Proof.
  unfold ShortTermMemory.search, ShortTermMemory.getAll.
  destruct (ShortTermMemory.memory self !! u) as [um |]; repeat split; try discriminate.
  - apply filter_all_true. intros item. apply includes_empty.
  - intros item Hin. apply List.filter_In in Hin. apply Hin.
  - intros item [].
Qed.


Lemma totalItems_insert (m : gmap string (list MemoryItem)) u (l : list MemoryItem) M :
  ShortTermMemory.totalItems {| ShortTermMemory.memory := <[u := l]> m;
                                 ShortTermMemory.maxItems := M |}
  = ShortTermMemory.totalItems {| ShortTermMemory.memory := m; ShortTermMemory.maxItems := M |}
    - Z.of_nat (length (default [] (m !! u))) + Z.of_nat (length l).
Proof.
  unfold ShortTermMemory.totalItems. cbn [ShortTermMemory.memory].
  rewrite <- (insert_delete_eq m u l).
  rewrite map_fold_insert_L; [| intros; lia | apply lookup_delete_eq].
  destruct (m !! u) as [old |] eqn:E.
  - change (default [] (Some old)) with old.
    rewrite (map_fold_delete_L _ 0 u old m); [lia | intros; lia | exact E].
  - change (default [] (@None (list MemoryItem))) with (@nil MemoryItem).
    rewrite delete_id by exact E. cbn [length]. lia.
Qed.

Lemma totalItems_delete (m : gmap string (list MemoryItem)) u M :
  ShortTermMemory.totalItems {| ShortTermMemory.memory := delete u m;
                                 ShortTermMemory.maxItems := M |}
  = ShortTermMemory.totalItems {| ShortTermMemory.memory := m; ShortTermMemory.maxItems := M |}
    - Z.of_nat (length (default [] (m !! u))).
Proof.
  unfold ShortTermMemory.totalItems. cbn [ShortTermMemory.memory].
  destruct (m !! u) as [old |] eqn:E.
  - change (default [] (Some old)) with old.
    rewrite (map_fold_delete_L _ 0 u old m); [lia | intros; lia | exact E].
  - change (default [] (@None (list MemoryItem))) with (@nil MemoryItem).
    rewrite delete_id by exact E. cbn [length]. lia.
Qed.

Lemma kept_after_push (old : list MemoryItem) (x : MemoryItem) (M : Z) :
  Z.of_nat (length old) <= M ->
  Z.of_nat
    (length (if M <? Z.of_nat (length (old ++ [x]))
             then JS.splice0 (old ++ [x]) (Z.of_nat (length (old ++ [x])) - M)
             else old ++ [x]))
  = Z.of_nat (length old) + (if Z.of_nat (length old) <? M then 1 else 0).
Proof.
  intros Hcap. destruct (M <? _) eqn:E1.
  - apply Z.ltb_lt in E1. unfold JS.splice0. rewrite length_skipn.
    rewrite length_app in *. cbn [length] in *.
    replace (Z.of_nat (length old) <? M) with false by (symmetry; apply Z.ltb_ge; lia).
    lia.
  - apply Z.ltb_ge in E1. rewrite length_app in *. cbn [length] in *.
    replace (Z.of_nat (length old) <? M) with true by (symmetry; apply Z.ltb_lt; lia).
    lia.
Qed.

(** X5.  The counts of [getStatus] follow the buffer: an [add] within
    capacity raises [totalItems] by one unless the user's buffer is full
    (then the oldest item makes room and the total stays), and raises
    [totalUsers] by one exactly for a user not seen before; [clear]
    takes the user's items off [totalItems] and the user off
    [totalUsers]. *)
Theorem status_counts_follow_add_and_clear self u (freshId : string) (now : Z)
    (memoryItem : MemoryItem) :
  let count := ShortTermMemory.getCount self u in
  let known := match ShortTermMemory.memory self !! u with Some _ => true | None => false end in
  let added := snd (ShortTermMemory.add self u freshId now memoryItem) in
  let cleared := ShortTermMemory.clear self u in
  count <= ShortTermMemory.maxItems self ->
  ShortTermMemory.totalItems added
  = ShortTermMemory.totalItems self + (if count <? ShortTermMemory.maxItems self then 1 else 0)
  /\ ShortTermMemory.totalUsers added
     = ShortTermMemory.totalUsers self + (if known then 0 else 1)
  /\ ShortTermMemory.totalItems cleared = ShortTermMemory.totalItems self - count
  /\ ShortTermMemory.totalUsers cleared
     = ShortTermMemory.totalUsers self - (if known then 1 else 0).
Proof.
  intros count known added cleared Hcap. subst count known added cleared.
  destruct self as [m M]. unfold ShortTermMemory.getCount in *.
  cbn [ShortTermMemory.memory ShortTermMemory.maxItems] in *.
  unfold ShortTermMemory.add, ShortTermMemory.clear, ShortTermMemory.totalUsers.
  cbn [snd ShortTermMemory.memory ShortTermMemory.maxItems].
  destruct (m !! u) as [old |] eqn:E.
  - rewrite E. change (default [] (Some old)) with old.
    rewrite totalItems_insert, E. change (default [] (Some old)) with old.
    rewrite totalItems_delete, E. change (default [] (Some old)) with old.
    cbn [ShortTermMemory.memory].
    rewrite map_size_insert_Some by (rewrite E; eauto).
    rewrite map_size_delete_Some by (rewrite E; eauto).
    assert (0 < size m)%nat.
    { destruct (decide (size m = 0%nat)) as [Hz |]; [| lia].
      apply map_size_empty_iff in Hz. subst m. rewrite lookup_empty in E. discriminate. }
    rewrite (kept_after_push old _ M Hcap).
    repeat split; lia.
  - rewrite lookup_insert_eq. change (default [] (Some [])) with (@nil MemoryItem).
    rewrite totalItems_insert, lookup_insert_eq.
    change (default [] (Some [])) with (@nil MemoryItem).
    rewrite totalItems_insert, E.
    change (default [] (@None (list MemoryItem))) with (@nil MemoryItem).
    cbn [ShortTermMemory.memory].
    rewrite map_size_insert_Some by (rewrite lookup_insert_eq; eauto).
    rewrite map_size_insert_None by exact E.
    rewrite (kept_after_push [] _ M Hcap). cbn [length].
    change (Z.of_nat 0) with 0. repeat split; lia.
Qed.

Lemma status_counts_follow_add_and_clear_witness :
  let self := add_all (ShortTermMemory.new (Some 2)) three_calls in
  let added := snd (ShortTermMemory.add self "alice" "id4" 4 (user_message "four" 4)) in
  let cleared := ShortTermMemory.clear self "alice" in
  ShortTermMemory.totalItems added = ShortTermMemory.totalItems self + 0
  /\ ShortTermMemory.totalUsers added = ShortTermMemory.totalUsers self + 0
  /\ ShortTermMemory.totalItems cleared = ShortTermMemory.totalItems self - 2
  /\ ShortTermMemory.totalUsers cleared = ShortTermMemory.totalUsers self - 1.
Proof.
  apply (status_counts_follow_add_and_clear
           (add_all (ShortTermMemory.new (Some 2)) three_calls)
           "alice" "id4" 4 (user_message "four" 4)).
  vm_compute. discriminate.
Defined.

End BufferOperations.

(* ===================================================================== *)
(** * Durable Store: the other operations *)
(* ===================================================================== *)

Section DurableOperations.
Import LongTermMemory.
Context {P : Platform}.

Lemma delete_rows self id_ :
  all_rows (snd (delete self id_))
  = List.filter (fun r => negb (id r =? id_)) (all_rows self).
Proof.
  unfold delete, all_rows.
  destruct (db self) eqn:E; cbn [snd db rows]; [reflexivity | rewrite E; reflexivity].
Qed.

Lemma count_where_positive (p : Row -> bool) (l : list Row) :
  (0 <? count_where p l) = existsb p l.
Proof.
  unfold count_where. induction l as [| x l IH]; [reflexivity |].
  cbn [List.filter existsb]. destruct (p x); cbn [length orb]; [| exact IH].
  apply Z.ltb_lt. lia.
Qed.

Lemma delete_result self id_ :
  fst (delete self id_) = existsb (fun r => id r =? id_) (all_rows self).
Proof.
  unfold delete, all_rows. destruct (db self); cbn [fst]; [| reflexivity].
  apply count_where_positive.
Qed.

Lemma update_result self id_ updates now :
  fst (update self id_ updates now) = existsb (fun r => id r =? id_) (all_rows self).
Proof.
  unfold update, all_rows. destruct (db self); cbn [fst]; [| reflexivity].
  apply count_where_positive.
Qed.

Lemma filter_id_when {A} (p : A -> bool) (l : list A) :
  (forall x, In x l -> p x = true) -> List.filter p l = l.
Proof.
  induction l as [| x l IH]; intros H; [reflexivity |].
  cbn [List.filter]. rewrite (H x) by (left; reflexivity).
  f_equal. apply IH. intros y Hy. apply H. right. exact Hy.
Qed.

Lemma map_id_when {A} (f : A -> A) (l : list A) :
  (forall x, In x l -> f x = x) -> List.map f l = l.
Proof.
  induction l as [| x l IH]; intros H; [reflexivity |].
  cbn [List.map]. rewrite (H x) by (left; reflexivity).
  f_equal. apply IH. intros y Hy. apply H. right. exact Hy.
Qed.

Lemma existsb_false_forall {A} (p : A -> bool) (l : list A) :
  existsb p l = false -> forall x, In x l -> p x = false.
Proof.
  intros H x Hx. destruct (p x) eqn:E; [| reflexivity].
  assert (existsb p l = true) by (apply existsb_exists; eauto). congruence.
Qed.

(** X6.  [delete] answers whether a row with that id exists and removes
    exactly the rows with that id: every other row stays, in order; when
    it answers [false] the table is what it was.  Without a database it
    answers [false]. *)
Theorem delete_removes_that_id self (id_ : Z) :
  let result := delete self id_ in
  fst result = existsb (fun r => id r =? id_) (all_rows self)
  /\ all_rows (snd result) = List.filter (fun r => negb (id r =? id_)) (all_rows self)
  /\ (forall r, In r (all_rows (snd result)) <-> In r (all_rows self) /\ id r <> id_)
  /\ (fst result = false -> all_rows (snd result) = all_rows self)
  /\ (db self = None -> result = (false, self)).
Proof.
  intros result. subst result. rewrite delete_result, delete_rows.
  split; [reflexivity |]. split; [reflexivity |]. split; [| split].
  - intros r. rewrite List.filter_In. rewrite negb_true_iff, Z.eqb_neq. tauto.
  - intros Hnone. apply filter_id_when. intros r Hr.
    rewrite (existsb_false_forall _ _ Hnone r Hr). reflexivity.
  - intros Hdb. unfold delete. rewrite Hdb. reflexivity.
Qed.

(** X7.  [update] answers whether a row with that id exists.  It never
    adds or removes a row, never changes a row's id, user, timestamp or
    creation time, and leaves every row with another id as it was; when it
    answers [false] the table is what it was. *)
Theorem update_keeps_the_table_shape self (id_ : Z) (updates : Updates) (now : Z) :
  let result := update self id_ updates now in
  let key := fun r => (id r, user_id r, timestamp r, created_at r) in
  fst result = existsb (fun r => id r =? id_) (all_rows self)
  /\ List.map key (all_rows (snd result)) = List.map key (all_rows self)
  /\ List.filter (fun r => negb (id r =? id_)) (all_rows (snd result))
     = List.filter (fun r => negb (id r =? id_)) (all_rows self)
  /\ (fst result = false -> all_rows (snd result) = all_rows self).
Proof.
  intros result key. subst result key. rewrite update_result, update_rows.
  split; [reflexivity |]. split; [| split].
  - rewrite List.map_map. apply List.map_ext. intros r.
    destruct (id r =? id_); reflexivity.
  - induction (all_rows self) as [| r l IH]; [reflexivity |].
    cbn [List.map List.filter]. destruct (id r =? id_) eqn:E.
    + cbn [apply_updates id]. rewrite E. cbn [negb]. exact IH.
    + rewrite E. cbn [negb]. f_equal. exact IH.
  - intros Hnone. apply map_id_when. intros r Hr.
    rewrite (existsb_false_forall _ _ Hnone r Hr). reflexivity.
Qed.

(** X8.  With an open database, [clear] returns the number of rows it
    deleted, which is the number of rows the user had. *)
Theorem clear_returns_rows_deleted self (userId : string) (tbl : Table) :
  db self = Some tbl ->
  fst (clear self userId) = JS.Normal (Z.of_nat (length (rows_of_user self userId)))
  /\ Z.of_nat (length (all_rows (snd (clear self userId))))
     = Z.of_nat (length (all_rows self)) - Z.of_nat (length (rows_of_user self userId)).
Proof.
  intros Hdb. unfold clear, rows_of_user, all_rows. rewrite Hdb.
  cbn [fst snd db rows]. split; [reflexivity |].
  induction (rows tbl) as [| r l IH]; [reflexivity |].
  cbn [List.filter]. destruct (String.eqb (user_id r) userId); cbn [negb length]; lia.
Qed.

Lemma clear_returns_rows_deleted_witness :
  fst (clear three_records "alice") = JS.Normal (Z.of_nat (length (rows_of_user three_records "alice")))
  /\ Z.of_nat (length (all_rows (snd (clear three_records "alice"))))
     = Z.of_nat (length (all_rows three_records))
       - Z.of_nat (length (rows_of_user three_records "alice")).
Proof.
  apply (clear_returns_rows_deleted three_records "alice"
           (match db three_records with Some tbl => tbl | None => mkTable [] 0 end)).
  reflexivity.
Defined.

Lemma durable_step_well_keyed self op tbl :
  db self = Some tbl -> well_keyed tbl ->
  exists tbl', db (durable_step self op) = Some tbl' /\ well_keyed tbl'
               /\ seq tbl <= seq tbl'.
Proof.
  intros Hdb Hwk. destruct op as [w | id_ | userId | options now]; cbn [durable_step].
  - destruct (write_well_keyed self w tbl Hdb Hwk) as (tbl' & Hdb' & Hwk').
    exists tbl'. split; [exact Hdb' |]. split; [exact Hwk' |].
    destruct w; cbn [write] in Hdb'.
    + unfold store in Hdb'. rewrite Hdb in Hdb'. cbn [snd db] in Hdb'.
      injection Hdb' as <-. cbn [seq]. lia.
    + unfold update in Hdb'. rewrite Hdb in Hdb'. cbn [snd db] in Hdb'.
      injection Hdb' as <-. cbn [seq]. lia.
  - unfold delete. rewrite Hdb. cbn [snd db]. eexists. split; [reflexivity |].
    split; [| cbn [seq]; lia]. apply filter_keeps_well_keyed. destruct tbl; exact Hwk.
  - unfold clear. rewrite Hdb. cbn [snd db]. eexists. split; [reflexivity |].
    split; [| cbn [seq]; lia]. apply filter_keeps_well_keyed. destruct tbl; exact Hwk.
  - unfold cleanup, cleanup_phases. rewrite Hdb.
    destruct (_ <? _); cbn [snd db]; eexists; (split; [reflexivity |]);
      (split; [| cbn [seq]; lia]).
    + apply filter_keeps_well_keyed, filter_keeps_well_keyed. destruct tbl; exact Hwk.
    + apply filter_keeps_well_keyed. destruct tbl; exact Hwk.
Qed.

Lemma durable_run_well_keyed ops : forall self tbl,
  db self = Some tbl -> well_keyed tbl ->
  exists tbl', db (durable_run self ops) = Some tbl' /\ well_keyed tbl'
               /\ seq tbl <= seq tbl'.
Proof.
  induction ops as [| op ops IH]; intros self tbl Hdb Hwk.
  - exists tbl. repeat split; [assumption | apply Hwk | apply Hwk | lia].
  - destruct (durable_step_well_keyed self op tbl Hdb Hwk) as (tbl1 & Hdb1 & Hwk1 & Hle1).
    destruct (IH _ tbl1 Hdb1 Hwk1) as (tbl2 & Hdb2 & Hwk2 & Hle2).
    exists tbl2. cbn [durable_run fold_left]. repeat split;
      [exact Hdb2 | apply Hwk2 | apply Hwk2 | lia].
Qed.

(** X9.  Ids are never reused.  Starting from a table whose ids are
    distinct and not above the [AUTOINCREMENT] counter, after any
    sequence of stores, updates, deletes, clears and cleanups the ids are
    still distinct, and the next [store] returns an id that is above the
    counter before the sequence: above every id the table has ever
    held, deleted or not. *)
Theorem store_never_reuses_an_id self (tbl : Table) (ops : list DurableOp)
    (userId : string) (memoryData : MemoryItem) (now : Z) :
  db self = Some tbl ->
  well_keyed tbl ->
  0 <= seq tbl ->
  let after := durable_run self ops in
  exists newId,
    fst (store after userId memoryData now) = JS.Normal (Some newId)
    /\ seq tbl < newId
    /\ Forall (fun r => id r < newId) (all_rows self)
    /\ Forall (fun r => id r < newId) (all_rows after)
    /\ NoDup (List.map id (all_rows (snd (store after userId memoryData now)))).
Proof.
  intros Hdb Hwk Hseq after.
  destruct (durable_run_well_keyed ops self tbl Hdb Hwk) as (tbl' & Hdb' & Hwk' & Hle).
  fold after in Hdb'.
  destruct (write_well_keyed after (Store userId memoryData now) tbl' Hdb' Hwk')
    as (tbl2 & Hdb2 & Hwk2).
  cbn [write] in Hdb2.
  exists (seq tbl' + 1). split; [| split; [| split; [| split]]].
  - unfold store. rewrite Hdb'. cbn [fst].
    replace (seq tbl' + 1 =? 0) with false by (symmetry; apply Z.eqb_neq; lia).
    reflexivity.
  - lia.
  - unfold all_rows. rewrite Hdb. destruct Hwk as [_ Hbound].
    eapply Forall_impl; [exact Hbound |]. cbn beta. intros; lia.
  - unfold all_rows. rewrite Hdb'. destruct Hwk' as [_ Hbound].
    eapply Forall_impl; [exact Hbound |]. cbn beta. intros; lia.
  - unfold all_rows. rewrite Hdb2. apply Hwk2.
Qed.

(** X10.  Storing a turn and deleting the id that [store] returned
    gives back the rows as they were (only the id counter has moved). *)
Theorem store_then_delete_restores_rows self (tbl : Table) (userId : string)
    (memoryData : MemoryItem) (now : Z) :
  db self = Some tbl ->
  well_keyed tbl ->
  0 <= seq tbl ->
  let stored := store self userId memoryData now in
  exists newId,
    fst stored = JS.Normal (Some newId)
    /\ delete (snd stored) newId
       = (true, {| db := Some {| rows := rows tbl; seq := newId |} |}).
Proof.
  intros Hdb [Hnd Hbound] Hseq stored. subst stored.
  exists (seq tbl + 1). unfold store. rewrite Hdb. cbn [fst snd].
  replace (seq tbl + 1 =? 0) with false by (symmetry; apply Z.eqb_neq; lia).
  split; [reflexivity |].
  unfold delete. cbn [db rows seq].
  assert (Hold : forall r, In r (rows tbl) -> (id r =? seq tbl + 1) = false).
  { intros r Hr. rewrite List.Forall_forall in Hbound. specialize (Hbound r Hr).
    apply Z.eqb_neq. lia. }
  f_equal.
  - rewrite count_where_positive, existsb_app. cbn [existsb id].
    rewrite Z.eqb_refl, orb_true_r. reflexivity.
  - do 3 f_equal. rewrite List.filter_app. cbn [List.filter id].
    rewrite Z.eqb_refl. cbn [negb]. rewrite app_nil_r.
    apply filter_id_when. intros r Hr. rewrite (Hold r Hr). reflexivity.
Qed.

Lemma store_then_delete_restores_rows_witness :
  exists newId,
    fst (store empty_store "alice" (turn "hi" "hello" 10 None) 10) = JS.Normal (Some newId)
    /\ delete (snd (store empty_store "alice" (turn "hi" "hello" 10 None) 10)) newId
       = (true, {| db := Some {| rows := rows (mkTable [] 0); seq := newId |} |}).
Proof.
  apply (store_then_delete_restores_rows empty_store (mkTable [] 0)
           "alice" (turn "hi" "hello" 10 None) 10).
  - reflexivity.
  - split; constructor.
  - cbn. lia.
Defined.


(** ** The read paths *)

Lemma to_records_Some (l : list Row) rs :
  to_records l = Some rs -> Forall2 record_of l rs.
Proof.
  revert rs. induction l as [| r l IH]; intros rs; cbn [to_records].
  - intros [= <-]. constructor.
  - destruct (parse_content (content r)) as [c |]; [| discriminate].
    destruct (to_records l) as [rs' |]; [| discriminate].
    intros [= <-]. constructor; [| apply IH; reflexivity].
    repeat split.
Qed.

Lemma to_records_None (l : list Row) row :
  In row l -> parse_content (content row) = None -> to_records l = None.
Proof.
  induction l as [| r l IH]; intros Hin Hrow; [contradiction |].
  cbn [to_records]. destruct Hin as [-> | Hin].
  - rewrite Hrow. reflexivity.
  - rewrite (IH Hin Hrow). destruct (parse_content (content r)); reflexivity.
Qed.

Lemma insert_by_timestamp_desc_perm r l :
  Permutation (insert_by_timestamp_desc r l) (r :: l).
Proof.
  induction l as [| x l IH]; cbn [insert_by_timestamp_desc]; [reflexivity |].
  destruct (timestamp x <=? timestamp r); [reflexivity |].
  rewrite IH. apply perm_swap.
Qed.

Lemma order_by_timestamp_desc_perm l : Permutation (order_by_timestamp_desc l) l.
Proof.
  induction l as [| r l IH]; [reflexivity |].
  cbn [order_by_timestamp_desc fold_right]. rewrite insert_by_timestamp_desc_perm.
  apply perm_skip. exact IH.
Qed.

Lemma insert_by_rank_perm r l : Permutation (insert_by_rank r l) (r :: l).
Proof.
  induction l as [| x l IH]; cbn [insert_by_rank]; [reflexivity |].
  destruct (ranks_before r x); [reflexivity |].
  rewrite IH. apply perm_swap.
Qed.

Lemma order_by_rank_perm l : Permutation (order_by_rank l) l.
Proof.
  induction l as [| r l IH]; [reflexivity |].
  cbn [order_by_rank fold_right]. rewrite insert_by_rank_perm.
  apply perm_skip. exact IH.
Qed.

Lemma sql_limit_In {A} (n : Z) (l : list A) x : In x (sql_limit n l) -> In x l.
Proof.
  unfold sql_limit. destruct (n <? 0); [tauto |]. intros Hin.
  rewrite <- (firstn_skipn (Z.to_nat n) l). apply in_or_app. left. exact Hin.
Qed.

Lemma sql_limit_length {A} (n : Z) (l : list A) :
  0 <= n -> Z.of_nat (length (sql_limit n l)) <= n.
Proof.
  intros Hn. unfold sql_limit.
  replace (n <? 0) with false by (symmetry; apply Z.ltb_ge; lia).
  rewrite length_firstn. lia.
Qed.

(** What a read returns when nothing throws: records of the selected
    rows, one each, in order; otherwise nothing. *)
Lemma read_result (results : list Row) :
  default [] (to_records results) = []
  \/ Forall2 record_of results (default [] (to_records results)).
Proof.
  destruct (to_records results) as [rs |] eqn:E; [right | left; reflexivity].
  apply to_records_Some. exact E.
Qed.

Lemma read_from_rows self (userId : string) (results : list Row) :
  (forall row, In row results -> In row (rows_of_user self userId)) ->
  from_rows_of self userId (default [] (to_records results)).
Proof.
  intros Hsub. unfold from_rows_of.
  destruct (read_result results) as [-> | H2]; [constructor |].
  induction H2 as [| row r l rs Hr _ IH]; constructor.
  - exists row. split; [apply Hsub; left; reflexivity | exact Hr].
  - apply IH. intros row' Hin. apply Hsub. right. exact Hin.
Qed.

Lemma read_length (results : list Row) :
  (length (default [] (to_records results)) <= length results)%nat.
Proof.
  destruct (read_result results) as [-> | H2]; [cbn; lia |].
  apply Forall2_length in H2. lia.
Qed.

(** [getRelevant] with its [catch] folded in. *)
Lemma getRelevant_result self (userId query : string) (limit : Z) :
  getRelevant self userId query limit
  = match db self with
    | None => []
    | Some tbl =>
        let searchTerm := ("%" ++ query ++ "%")%string in
        let hit := fun r =>
          String.eqb (user_id r) userId
          && (sql_like searchTerm (content_text (content r))
              || sql_like searchTerm (JSON_stringify (metadata r))) in
        default [] (to_records (sql_limit limit (order_by_rank (List.filter hit (rows tbl)))))
    end.
Proof.
  unfold getRelevant, getRelevant_body.
  destruct (db self) as [tbl |]; [| reflexivity]. cbv zeta.
  destruct (to_records _); reflexivity.
Qed.

(** X11.  The three read paths are scoped to the user: every record
    that [getRecent], [getRelevant] or [search] returns is made from a
    row of that user, whatever the query and the options. *)
Theorem reads_return_rows_of_the_user self (userId query : string) (limit : Z)
    (options : SearchOptions) :
  from_rows_of self userId (getRecent self userId limit)
  /\ from_rows_of self userId (getRelevant self userId query limit)
  /\ from_rows_of self userId (search self userId query options).
Proof.
  rewrite getRelevant_result. unfold getRecent, search, rows_of_user.
  destruct (db self) as [tbl |] eqn:Hdb; [| repeat split; constructor].
  assert (Hrows : all_rows self = rows tbl) by (unfold all_rows; rewrite Hdb; reflexivity).
  split; [| split]; apply read_from_rows; intros row Hin;
    apply sql_limit_In in Hin; unfold rows_of_user; rewrite Hrows.
  - apply (Permutation_in _ (order_by_timestamp_desc_perm _)) in Hin. exact Hin.
  - apply (Permutation_in _ (order_by_rank_perm _)) in Hin.
    apply List.filter_In in Hin. destruct Hin as [Hin Hhit].
    apply List.filter_In. split; [exact Hin |].
    apply andb_true_iff in Hhit. apply Hhit.
  - apply (Permutation_in _ (order_by_rank_perm _)) in Hin.
    apply List.filter_In in Hin. destruct Hin as [Hin Hhit].
    apply List.filter_In. split; [exact Hin |].
    unfold search_hit in Hhit. repeat (apply andb_true_iff in Hhit; destruct Hhit as [Hhit _]).
    exact Hhit.
Qed.

(** X12.  A limit that is not negative bounds the number of records
    that each read path returns. *)
Theorem reads_respect_the_limit self (userId query : string) (limit : Z)
    (minImportance_ : option float) (startDate endDate : option Z) :
  0 <= limit ->
  Z.of_nat (length (getRecent self userId limit)) <= limit
  /\ Z.of_nat (length (getRelevant self userId query limit)) <= limit
  /\ Z.of_nat (length (search self userId query
                         {| s_limit := Some limit; s_minImportance := minImportance_;
                            s_startDate := startDate; s_endDate := endDate |})) <= limit.
Proof.
  intros Hlimit. rewrite getRelevant_result. unfold getRecent, search. cbn [s_limit default].
  destruct (db self) as [tbl |]; [| cbn [length]; lia].
  repeat split;
    (eapply Z.le_trans; [apply inj_le, read_length | apply sql_limit_length, Hlimit]).
Qed.

(** X13.  One row whose content is not JSON empties a whole read: when
    a row of the user does not parse and the limit does not cut it off
    (it is negative, or not below the number of the user's rows),
    [getRecent] returns nothing at all for that user. *)
Theorem unparsable_row_empties_getRecent self (tbl : Table) (userId : string)
    (row : Row) (limit : Z) :
  db self = Some tbl ->
  In row (rows tbl) ->
  user_id row = userId ->
  parse_content (content row) = None ->
  limit < 0 \/ Z.of_nat (length (rows_of_user self userId)) <= limit ->
  getRecent self userId limit = [].
Proof.
  intros Hdb Hin Huser Hparse Hlimit. unfold getRecent. rewrite Hdb.
  set (mine := List.filter (fun r => String.eqb (user_id r) userId) (rows tbl)).
  assert (Hmine : rows_of_user self userId = mine)
    by (unfold rows_of_user, all_rows; rewrite Hdb; reflexivity).
  assert (Hall : sql_limit limit (order_by_timestamp_desc mine) = order_by_timestamp_desc mine).
  { unfold sql_limit. destruct (limit <? 0) eqn:E; [reflexivity |].
    apply Z.ltb_ge in E. destruct Hlimit as [Hneg | Hbig]; [lia |].
    apply firstn_all2. rewrite (Permutation_length (order_by_timestamp_desc_perm mine)).
    rewrite Hmine in Hbig. lia. }
  rewrite Hall.
  rewrite (to_records_None _ row); [reflexivity | | exact Hparse].
  apply (Permutation_in _ (Permutation_sym (order_by_timestamp_desc_perm mine))).
  apply List.filter_In. split; [exact Hin |]. apply String.eqb_eq. exact Huser.
Qed.


Lemma insert_by_timestamp_desc_sorted r l :
  StronglySorted (fun a b => not_newer b a) l ->
  StronglySorted (fun a b => not_newer b a) (insert_by_timestamp_desc r l).
Proof.
  induction 1 as [| x l Hs IH Hx]; cbn [insert_by_timestamp_desc].
  - repeat constructor.
  - destruct (timestamp x <=? timestamp r) eqn:E.
    + apply Z.leb_le in E. constructor; [constructor; assumption |].
      constructor; [exact E |].
      eapply Forall_impl; [exact Hx |]. unfold not_newer. intros; lia.
    + apply Z.leb_gt in E. constructor; [exact IH |].
      rewrite insert_by_timestamp_desc_perm.
      constructor; [unfold not_newer; lia | exact Hx].
Qed.

Lemma order_by_timestamp_desc_sorted l :
  StronglySorted (fun a b => not_newer b a) (order_by_timestamp_desc l).
Proof.
  induction l as [| r l IH]; [constructor |].
  apply insert_by_timestamp_desc_sorted. exact IH.
Qed.

Lemma StronglySorted_firstn {A} (R : A -> A -> Prop) n (l : list A) :
  StronglySorted R l -> StronglySorted R (firstn n l).
Proof.
  intros Hs. revert n. induction Hs as [| x l Hs IH Hx]; intros n.
  - rewrite firstn_nil. constructor.
  - destruct n as [| n]; [constructor |]. cbn [firstn]. constructor; [apply IH |].
    rewrite List.Forall_forall in *. intros y Hy. apply Hx.
    rewrite <- (firstn_skipn n l). apply in_or_app. left. exact Hy.
Qed.

Lemma sorted_records (results : list Row) rs :
  Forall2 record_of results rs ->
  StronglySorted (fun a b => not_newer b a) results ->
  StronglySorted not_older rs.
Proof.
  induction 1 as [| row r l rs Hr H2 IH]; intros Hs; [constructor |].
  apply StronglySorted_inv in Hs. destruct Hs as [Hs Hrow].
  constructor; [apply IH, Hs |].
  clear IH Hs. induction H2 as [| row' r' l rs Hr' _ IH]; constructor.
  - apply Forall_inv in Hrow. unfold not_older, not_newer in *.
    destruct Hr as (_ & _ & _ & ->). destruct Hr' as (_ & _ & _ & ->). exact Hrow.
  - apply IH. apply Forall_inv_tail in Hrow. exact Hrow.
Qed.

(** X14.  [getRecent] returns the records newest first: no record is
    older than one that follows it. *)
Theorem getRecent_is_newest_first self (userId : string) (limit : Z) :
  StronglySorted not_older (getRecent self userId limit).
Proof.
  unfold getRecent. destruct (db self) as [tbl |]; [| constructor].
  match goal with |- context [to_records ?res] => set (results := res) end.
  destruct (read_result results) as [-> | H2]; [constructor |].
  apply (sorted_records results); [exact H2 |].
  subst results. unfold sql_limit. destruct (limit <? 0).
  - apply order_by_timestamp_desc_sorted.
  - apply StronglySorted_firstn, order_by_timestamp_desc_sorted.
Qed.

(** X15.  [cleanup] settles in one run: on an open database with
    distinct ids and a cap that is not negative, running it again with
    the same options at the same time deletes nothing and returns 0. *)
Theorem cleanup_twice_is_cleanup_once self (tbl : Table) (options : CleanupOptions)
    (now : Z) :
  db self = Some tbl ->
  NoDup (List.map id (rows tbl)) ->
  0 <= default 10000 (maxRecords options) ->
  let once := snd (cleanup self options now) in
  cleanup once options now = (0, once).
Proof.
  intros Hdb Hnd Hcap once.
  destruct (cleanup_two_phases self tbl options now Hdb Hnd Hcap)
    as (Hlen & Hsub & _ & _ & _).
  fold once in Hlen, Hsub.
  assert (Honce : exists rows1, once = {| db := Some {| rows := rows1; seq := seq tbl |} |}).
  { subst once. unfold cleanup, cleanup_phases. rewrite Hdb.
    destruct (_ <? _); cbn [snd]; eexists; reflexivity. }
  destruct Honce as [rows1 Honce]. rewrite Honce in *.
  cbn [all_rows db rows] in Hlen, Hsub.
  unfold cleanup, cleanup_phases. cbn [db rows seq].
  set (doomed := old_and_unimportant _ _) in *.
  assert (Hkeep : List.filter (fun r => negb (doomed r)) rows1 = rows1).
  { apply filter_id_when. intros r Hr. apply Hsub in Hr.
    apply List.filter_In in Hr. apply Hr. }
  rewrite Hkeep.
  replace (default 10000 (maxRecords options) <? Z.of_nat (length rows1)) with false
    by (symmetry; apply Z.ltb_ge; lia).
  f_equal. lia.
Qed.

End DurableOperations.

Lemma store_never_reuses_an_id_witness :
  let after :=
    @durable_run sample_platform three_records
      [DurDelete 3; DurClear "bob"; DurCleanup cap_at_one 1000; DurDelete 2] in
  exists newId,
    fst (LongTermMemory.store after "alice" (turn "again" "ok" 400 None) 400)
    = JS.Normal (Some newId)
    /\ 3 < newId
    /\ Forall (fun r => LongTermMemory.id r < newId) (LongTermMemory.all_rows three_records)
    /\ Forall (fun r => LongTermMemory.id r < newId) (LongTermMemory.all_rows after)
    /\ NoDup (List.map LongTermMemory.id
                (LongTermMemory.all_rows
                   (snd (LongTermMemory.store after "alice" (turn "again" "ok" 400 None) 400)))).
Proof.
  apply (@store_never_reuses_an_id sample_platform three_records
           (match LongTermMemory.db three_records with
            | Some tbl => tbl | None => LongTermMemory.mkTable [] 0 end)
           [DurDelete 3; DurClear "bob"; DurCleanup cap_at_one 1000; DurDelete 2]
           "alice" (turn "again" "ok" 400 None) 400).
  - reflexivity.
  - split.
    + vm_compute. repeat constructor; cbn; intros H; inversion H; subst;
        repeat match goal with H' : _ ∈ _ |- _ => inversion H'; subst; clear H' end.
    + vm_compute. repeat constructor; discriminate.
  - vm_compute. discriminate.
Defined.

Lemma cleanup_twice_is_cleanup_once_witness :
  let once := snd (@LongTermMemory.cleanup sample_platform three_records cap_at_one 1000) in
  @LongTermMemory.cleanup sample_platform once cap_at_one 1000 = (0, once).
Proof.
  apply (@cleanup_twice_is_cleanup_once sample_platform three_records
           (match LongTermMemory.db three_records with
            | Some tbl => tbl | None => LongTermMemory.mkTable [] 0 end)
           cap_at_one 1000).
  - reflexivity.
  - vm_compute. repeat constructor; cbn; intros H; inversion H; subst;
      repeat match goal with H' : _ ∈ _ |- _ => inversion H'; subst; clear H' end.
  - vm_compute. discriminate.
Defined.


Lemma reads_respect_the_limit_witness :
  Z.of_nat (length (@LongTermMemory.getRecent sample_platform three_records "alice" 2)) <= 2
  /\ Z.of_nat (length (@LongTermMemory.getRelevant sample_platform three_records "alice" "ok" 2)) <= 2
  /\ Z.of_nat (length (@LongTermMemory.search sample_platform three_records "alice" "ok"
                         {| LongTermMemory.s_limit := Some 2; LongTermMemory.s_minImportance := None;
                            LongTermMemory.s_startDate := Some 150; LongTermMemory.s_endDate := None |})) <= 2.
Proof.
  apply (@reads_respect_the_limit sample_platform three_records "alice" "ok" 2
           None (Some 150) None).
  lia.
Defined.


(** A record whose content an [update] replaced by plain text. *)
Lemma unparsable_row_empties_getRecent_witness :
  let self :=
    snd (LongTermMemory.update three_records 1
           {| LongTermMemory.u_content := Some (LongTermMemory.Raw "not json");
              LongTermMemory.u_metadata := None;
              LongTermMemory.u_importance := None |} 500) in
  @LongTermMemory.getRecent sample_platform self "alice" 10 = [].
Proof.
  intros self.
  apply (@unparsable_row_empties_getRecent sample_platform self
           (match LongTermMemory.db self with
            | Some tbl => tbl | None => LongTermMemory.mkTable [] 0 end)
           "alice"
           (nth 0 (LongTermMemory.all_rows self)
                (LongTermMemory.mkRow 0 "" (LongTermMemory.Raw "") [] None 0 0 0))
           10).
  - reflexivity.
  - left. reflexivity.
  - reflexivity.
  - reflexivity.
  - right. vm_compute. discriminate.
Defined.

(* ===================================================================== *)
(** * Semantic Index: the other operations *)
(* ===================================================================== *)

Section IndexOperations.
Import RAGMemory.
Context {P : Platform}.

Lemma Map_set_keys m k v :
  List.map fst (Map_set m k v)
  = if existsb (String.eqb k) (List.map fst m) then List.map fst m
    else List.map fst m ++ [k].
Proof.
  induction m as [| [k' v'] m IH]; cbn [Map_set List.map fst existsb app]; [reflexivity |].
  rewrite (String.eqb_sym k k'). destruct (String.eqb k' k) eqn:E; cbn [orb List.map fst].
  - apply String.eqb_eq in E. subst k'. reflexivity.
  - rewrite IH. destruct (existsb _ _); reflexivity.
Qed.

Lemma Map_set_In m k v : In (k, v) (Map_set m k v).
Proof.
  induction m as [| [k' v'] m IH]; cbn [Map_set]; [left; reflexivity |].
  destruct (String.eqb k' k); [left; reflexivity | right; exact IH].
Qed.

Lemma keys_length (m : list (string * Document)) :
  length m = length (List.map fst m).
Proof. rewrite length_map. reflexivity. Qed.

Lemma Map_set_length_le m k v : (length (Map_set m k v) <= S (length m))%nat.
Proof.
  rewrite (keys_length (Map_set m k v)), (keys_length m), Map_set_keys.
  destruct (existsb _ _); [lia |]. rewrite length_app. cbn [length]. lia.
Qed.

(** The state after an [addDocument] that returns. *)
Lemma addDocument_stored self docs content metadata addedAt :
  documents self = Some docs ->
  whitespace_only content = false ->
  let id := generateDocumentId content (default [] metadata) in
  snd (addDocument self {| in_content := Some content; in_metadata := metadata |} addedAt)
  = {| documents :=
         Some (Map_set docs id
                 {| doc_id := id; doc_content := content;
                    doc_metadata :=
                      obj_set (obj_set (default [] metadata) "addedAt" (VString addedAt))
                              "contentLength" (VInt (JS.strlen content)) |}) |}.
Proof.
  intros Hdocs Hws id. rewrite addDocument_cases. cbn [in_content in_metadata].
  rewrite Hws, Hdocs. reflexivity.
Qed.

(** X16.  On an initialized index, [addDocument] of content that is not
    blank follows [Map.set]: an id that is new is appended after the
    stored ones and the count grows by one; an id that is stored keeps
    its place and the count stays. *)
Theorem addDocument_follows_Map_set self (docs : list (string * Document))
    (content : string) (metadata : option Metadata) (addedAt : string) :
  documents self = Some docs ->
  whitespace_only content = false ->
  let id := generateDocumentId content (default [] metadata) in
  let known := existsb (String.eqb id) (stored_ids self) in
  let after := snd (addDocument self {| in_content := Some content;
                                        in_metadata := metadata |} addedAt) in
  stored_ids after = (if known then stored_ids self else stored_ids self ++ [id])
  /\ totalDocuments after = totalDocuments self + (if known then 0 else 1).
Proof.
  intros Hdocs Hws id known after. subst known after.
  rewrite (addDocument_stored self docs) by assumption. fold id.
  unfold stored_ids, totalDocuments. rewrite Hdocs. cbn [documents].
  change (default [] (Some ?l)) with l.
  rewrite (keys_length (Map_set _ _ _)), (keys_length docs), Map_set_keys.
  destruct (existsb _ _); [split; [reflexivity | lia] |].
  split; [reflexivity |]. rewrite length_app. cbn [length]. lia.
Qed.

(** The fallback search, when the limit is at least the number of
    documents. *)
Lemma search_whole self (query : string) (limit : Z) :
  whitespace_only query = false ->
  totalDocuments self <= limit ->
  search self query limit = List.map scored (List.filter (matches query) (stored self)).
Proof.
  intros Hq Hlimit. unfold search, search_body. rewrite query_missing_whitespace, Hq.
  unfold stored, totalDocuments in *.
  destruct (documents self) as [docs |]; cbn [JS.try_catch]; [| reflexivity].
  change (default [] (Some docs)) with docs.
  rewrite search_loop, slice_first by lia. cbn [app].
  apply firstn_all2. rewrite length_map.
  etransitivity; [apply filter_length_le |]. rewrite length_map. lia.
Qed.

(** X17.  A document that [addDocument] accepted is found: a query with
    a character other than white space that occurs in the content,
    letter case apart, returns it with its content and similarity 0.8,
    when the limit is above the number of documents stored before. *)
Theorem added_document_is_found self (docs : list (string * Document))
    (content : string) (metadata : option Metadata) (addedAt query : string) (limit : Z) :
  documents self = Some docs ->
  whitespace_only content = false ->
  whitespace_only query = false ->
  JS.includes (JS.toLowerCase content) (JS.toLowerCase query) = true ->
  totalDocuments self < limit ->
  let after := snd (addDocument self {| in_content := Some content;
                                        in_metadata := metadata |} addedAt) in
  exists found,
    In found (search after query limit)
    /\ s_content found = content
    /\ similarity found = 0.8%float
    /\ distance found = 0.2%float.
Proof.
  intros Hdocs Hws Hq Hin Hlimit after.
  assert (Hafter : totalDocuments after <= limit).
  { subst after. rewrite (addDocument_stored self docs) by assumption.
    unfold totalDocuments in *. rewrite Hdocs in Hlimit. cbn [documents].
    pose proof (Map_set_length_le docs
                  (generateDocumentId content (default [] metadata))
                  {| doc_id := generateDocumentId content (default [] metadata);
                     doc_content := content;
                     doc_metadata :=
                       obj_set (obj_set (default [] metadata) "addedAt" (VString addedAt))
                               "contentLength" (VInt (JS.strlen content)) |}).
    cbv zeta. lia. }
  rewrite (search_whole after query limit Hq Hafter).
  subst after. rewrite (addDocument_stored self docs) by assumption. cbv zeta.
  set (id := generateDocumentId content (default [] metadata)).
  set (doc := {| doc_id := id |}).
  exists (scored doc). split; [| repeat split].
  apply in_map, filter_In. split.
  - unfold stored. cbn [documents]. change (default [] (Some ?l)) with l.
    change doc with (snd (id, doc)). apply in_map, Map_set_In.
  - exact Hin.
Qed.

Lemma updateDocument_state self api id updates :
  snd (updateDocument self api id updates) = self.
Proof. unfold updateDocument. destruct (updateDocument_body _ _); reflexivity. Qed.

Lemma addBulkDocuments_state self api documents :
  snd (addBulkDocuments self api documents) = self.
Proof. destruct documents; reflexivity. Qed.

Lemma index_step_grows self op :
  incl (stored_ids self) (stored_ids (index_step self op))
  /\ totalDocuments self <= totalDocuments (index_step self op)
  /\ (documents self = None -> index_step self op = self).
Proof.
  destruct op as [document addedAt | api documents | api id updates | id |];
    cbn [index_step].
  - rewrite addDocument_cases.
    destruct (in_content document) as [content |]; cbn [snd];
      [| split; [apply incl_refl | split; [lia | reflexivity]]].
    destruct (whitespace_only content); cbn [snd];
      [split; [apply incl_refl | split; [lia | reflexivity]] |].
    destruct (documents self) as [docs |] eqn:Hdocs; cbn [snd];
      [| split; [apply incl_refl | split; [lia | reflexivity]]].
    cbv zeta. unfold stored_ids, totalDocuments. rewrite Hdocs. cbn [documents].
    change (default [] (Some ?l)) with l.
    rewrite (keys_length (Map_set _ _ _)), (keys_length docs), Map_set_keys.
    destruct (existsb _ _).
    + split; [apply incl_refl | split; [lia | discriminate]].
    + split; [apply incl_appl, incl_refl | split; [| discriminate]].
      rewrite length_app. lia.
  - rewrite addBulkDocuments_state. split; [apply incl_refl | split; [lia | reflexivity]].
  - rewrite updateDocument_state. split; [apply incl_refl | split; [lia | reflexivity]].
  - split; [apply incl_refl | split; [cbn; lia | reflexivity]].
  - split; [apply incl_refl | split; [cbn; lia | reflexivity]].
Qed.

(** X18.  The index only grows: over any sequence of [addDocument],
    [addBulkDocuments], [updateDocument], [deleteDocument] and
    [cleanup], every id that was stored is still stored and the number
    of documents has not gone down; an index that was not initialized
    is left as it was. *)
Theorem index_only_grows self (ops : list IndexOp) :
  incl (stored_ids self) (stored_ids (index_run self ops))
  /\ totalDocuments self <= totalDocuments (index_run self ops)
  /\ (documents self = None -> index_run self ops = self).
Proof.
  unfold index_run. revert self.
  induction ops as [| op ops IH]; intros self; cbn [fold_left].
  - split; [apply incl_refl | split; [lia | reflexivity]].
  - destruct (index_step_grows self op) as (Hids & Hcount & Hnone).
    destruct (IH (index_step self op)) as (Hids' & Hcount' & Hnone').
    split; [eapply incl_tran; eassumption | split; [lia |]].
    intros Hno. rewrite (Hnone Hno) in *. auto.
Qed.

Lemma bulk_ids_outcome api documents : forall ids,
  match bulk_ids api documents ids with
  | JS.Normal ids' =>
      if forallb (fun d => blank (in_content d)) documents then ids' = ids
      else (length ids < length ids')%nat
  | JS.Throw _ => forallb (fun d => blank (in_content d)) documents = false
  end.
Proof.
  induction documents as [| doc rest IH]; intros ids; cbn [bulk_ids forallb];
    [reflexivity |].
  rewrite content_missing_blank.
  destruct (blank (in_content doc)); cbn [andb]; [apply IH |].
  destruct (generateEmbedding api _); cbn [JS.bind]; [| reflexivity].
  specialize (IH (ids ++ [generateDocumentId (default ""%string (in_content doc))
                            (default [] (in_metadata doc))])).
  destruct (bulk_ids api rest _); [| reflexivity].
  destruct (forallb _ rest).
  - subst. rewrite length_app. cbn [length]. lia.
  - rewrite length_app in IH. cbn [length] in IH. lia.
Qed.

(** X19.  [addBulkDocuments] never returns an id: whatever the
    embeddings call answers, it returns (the empty list) exactly when
    the array is not empty and every document in it is blank, and throws
    otherwise; the index is what it was. *)
Theorem addBulkDocuments_never_adds self (api : EmbeddingApi)
    (documents : list DocumentInput) :
  let all_blank := forallb (fun d => blank (in_content d)) documents in
  let accepted := negb (Nat.eqb (length documents) 0) && all_blank in
  snd (addBulkDocuments self api documents) = self
  /\ (if accepted
      then fst (addBulkDocuments self api documents) = JS.Normal []
      else exists e, fst (addBulkDocuments self api documents) = JS.Throw e).
Proof.
  cbv zeta. split; [apply addBulkDocuments_state |].
  destruct documents as [| doc rest]; [cbn; eauto |].
  change (negb (Nat.eqb (length (doc :: rest)) 0)) with true. cbn [andb].
  unfold addBulkDocuments. cbn [fst].
  pose proof (bulk_ids_outcome api (doc :: rest) []) as H.
  destruct (bulk_ids api (doc :: rest) []) as [ids | e]; cbn [JS.bind].
  - destruct (forallb _ (doc :: rest)).
    + subst ids. reflexivity.
    + destruct ids as [| i ids]; [cbn in H; lia |]. cbn. eauto.
  - rewrite H. eauto.
Qed.

(** X20.  What the index cannot do for a stored document: for every id,
    [getDocument] returns [null], [deleteDocument] returns [false],
    [searchSimilar] returns nothing and [cleanup] reports 0;
    [updateDocument] returns [true] exactly for an update that names
    neither content nor metadata; none of them changes the index. *)
Theorem collection_methods_fail self (api : EmbeddingApi) (id : string)
    (updates : DocumentUpdates) (limit : Z) :
  getDocument self id = None
  /\ deleteDocument self id = (false, self)
  /\ searchSimilar self id limit = []
  /\ cleanup self = (0, self)
  /\ updateDocument self api id updates
     = (JS.falsy_string (up_content updates)
        && match up_metadata updates with Some _ => false | None => true end,
        self).
Proof.
  repeat split; try reflexivity.
  unfold updateDocument, updateDocument_body.
  destruct (JS.falsy_string (up_content updates)); cbn [negb andb].
  - destruct (up_metadata updates); reflexivity.
  - destruct (generateEmbedding api _); reflexivity.
Qed.

End IndexOperations.

Lemma addDocument_follows_Map_set_witness :
  let self := index_of ["foobar"; "baz"] in
  let id := @RAGMemory.generateDocumentId sample_platform "qux" [] in
  let after := snd (@RAGMemory.addDocument sample_platform self
                      {| RAGMemory.in_content := Some "qux"%string;
                         RAGMemory.in_metadata := None |} "2024-01-02T00:00:00.000Z") in
  stored_ids after
  = (if existsb (String.eqb id) (stored_ids self) then stored_ids self
     else stored_ids self ++ [id])
  /\ RAGMemory.totalDocuments after
     = RAGMemory.totalDocuments self
       + (if existsb (String.eqb id) (stored_ids self) then 0 else 1).
Proof.
  apply (@addDocument_follows_Map_set sample_platform (index_of ["foobar"; "baz"])
           (default [] (RAGMemory.documents (index_of ["foobar"; "baz"])))
           "qux" None "2024-01-02T00:00:00.000Z").
  - reflexivity.
  - reflexivity.
Defined.

Lemma added_document_is_found_witness :
  let self := index_of ["foobar"; "baz"] in
  let after := snd (@RAGMemory.addDocument sample_platform self
                      {| RAGMemory.in_content := Some "Hello World"%string;
                         RAGMemory.in_metadata := None |} "2024-01-02T00:00:00.000Z") in
  exists found,
    In found (RAGMemory.search after "WORLD" 3)
    /\ RAGMemory.s_content found = "Hello World"%string
    /\ RAGMemory.similarity found = 0.8%float
    /\ RAGMemory.distance found = 0.2%float.
Proof.
  apply (@added_document_is_found sample_platform (index_of ["foobar"; "baz"])
           (default [] (RAGMemory.documents (index_of ["foobar"; "baz"])))
           "Hello World" None "2024-01-02T00:00:00.000Z" "WORLD" 3).
  - reflexivity.
  - reflexivity.
  - reflexivity.
  - reflexivity.
  - vm_compute. reflexivity.
Defined.

(* ===================================================================== *)
(** * Orchestrator: promotion, update and search *)
(* ===================================================================== *)

Section Promotion.
Import MemoryManager.

Lemma toLowerCase_app (a b : string) :
  JS.toLowerCase (a ++ b) = (JS.toLowerCase a ++ JS.toLowerCase b)%string.
Proof.
  induction a as [| c a IH]; [rewrite !app_empty; reflexivity |].
  rewrite app_String. cbn [JS.toLowerCase]. rewrite app_String, IH. reflexivity.
Qed.

Lemma string_app_assoc (a b c : string) : ((a ++ b) ++ c = a ++ (b ++ c))%string.
Proof.
  induction a as [| x a IH]; [rewrite !app_empty; reflexivity |].
  rewrite !app_String, IH. reflexivity.
Qed.

Lemma includes_app_l (a b sub : string) :
  JS.includes a sub = true -> JS.includes (a ++ b) sub = true.
Proof.
  rewrite !includes_iff. intros (pre & post & ->).
  exists pre, (post ++ b)%string. rewrite !string_app_assoc. reflexivity.
Qed.

Lemma includes_app_r (a b sub : string) :
  JS.includes b sub = true -> JS.includes (a ++ b) sub = true.
Proof.
  rewrite !includes_iff. intros (pre & post & ->).
  exists (a ++ pre)%string, post. rewrite !string_app_assoc. reflexivity.
Qed.

(** A keyword of one of the two texts is a keyword of the text that the
    heuristics look at. *)
Lemma keyword_in_messageText userMessage botResponse keyword :
  JS.includes (JS.toLowerCase userMessage) keyword = true
  \/ JS.includes (JS.toLowerCase botResponse) keyword = true ->
  JS.includes (JS.toLowerCase (userMessage ++ " " ++ botResponse)) keyword = true.
Proof.
  rewrite !toLowerCase_app. intros [H | H].
  - apply includes_app_l, H.
  - apply includes_app_r, includes_app_r, H.
Qed.

(** X21.  A turn is promoted whenever one of the ten keywords occurs in
    the user's message or in the reply, in any letter case; so is a
    message of more than 100 characters, a reply of more than 200, and a
    message with a question mark whose reply has more than 50. *)
Theorem keyword_turn_is_promoted (userMessage botResponse keyword : string) :
  (In keyword importantKeywords
   /\ (JS.includes (JS.toLowerCase userMessage) keyword = true
       \/ JS.includes (JS.toLowerCase botResponse) keyword = true))
  \/ 100 < JS.strlen userMessage
  \/ 200 < JS.strlen botResponse
  \/ (JS.includes userMessage "?" = true /\ 50 < JS.strlen botResponse) ->
  shouldStoreInLongTerm userMessage botResponse = true.
Proof.
  unfold shouldStoreInLongTerm. cbv zeta.
  intros [[Hkw Hin] | [Hlong | [Hlong | [Hq Hlen]]]].
  - apply orb_true_iff. left. apply orb_true_iff. left.
    apply existsb_exists. exists keyword. split; [exact Hkw |].
    apply keyword_in_messageText, Hin.
  - apply Z.ltb_lt in Hlong. rewrite Hlong, orb_true_r. reflexivity.
  - apply Z.ltb_lt in Hlong. rewrite Hlong, !orb_true_r. reflexivity.
  - apply Z.ltb_lt in Hlen. rewrite Hq, Hlen. apply orb_true_r.
Qed.

Lemma keyword_turn_is_promoted_witness :
  shouldStoreInLongTerm "My PASSWORD is hunter2" "Noted." = true.
Proof.
  apply (keyword_turn_is_promoted "My PASSWORD is hunter2" "Noted." "password").
  left. split; [cbn; tauto | left; reflexivity].
Defined.

Lemma score_with_high_keyword i u c r p t d m lr lm :
  i || u || c || r = true ->
  PrimFloat.leb 0.7 (score_of_flags i u c r p t d m lr lm) = true.
Proof.
  destruct i, u, c, r; cbn [orb]; try discriminate; intros _;
    destruct p, t, d, m, lr, lm; reflexivity.
Qed.

(** X22.  A turn in which "important", "urgent", "critical" or
    "remember" occurs, in any letter case, in the message or in the
    reply, scores at least 0.7. *)
Theorem high_keyword_scores_at_least_07 (userMessage botResponse keyword : string) :
  In keyword highImportanceKeywords ->
  JS.includes (JS.toLowerCase userMessage) keyword = true
  \/ JS.includes (JS.toLowerCase botResponse) keyword = true ->
  PrimFloat.leb 0.7 (calculateImportance userMessage botResponse) = true.
Proof.
  intros Hkw Hin. apply keyword_in_messageText in Hin.
  rewrite calculateImportance_flags. cbv zeta.
  apply score_with_high_keyword.
  cbn [highImportanceKeywords In] in Hkw.
  destruct Hkw as [<- | [<- | [<- | [<- | []]]]]; rewrite Hin;
    rewrite ?orb_true_r; reflexivity.
Qed.

Lemma high_keyword_scores_at_least_07_witness :
  PrimFloat.leb 0.7 (calculateImportance "ok" "This is URGENT") = true.
Proof.
  apply (high_keyword_scores_at_least_07 "ok" "This is URGENT" "urgent").
  - cbn. tauto.
  - right. reflexivity.
Defined.

End Promotion.

Section ConsolidationEdges.
Import MemoryManager.

(** With no database, the loop stops at the first important memory. *)
Lemma store_important_closed ltm userId clock l : forall k,
  LongTermMemory.db ltm = None ->
  store_important ltm userId clock k l
  = (if existsb is_important l then JS.Throw LongTermMemory.null_db else JS.Normal tt, ltm).
Proof.
  intros k Hdb. revert k.
  induction l as [| m l IH]; intros k; cbn [store_important existsb]; [reflexivity |].
  destruct (is_important m); cbn [orb]; [| apply IH].
  rewrite store_without_db by exact Hdb. reflexivity.
Qed.

(** SQLite keeps the importance of an important memory as it is. *)
Lemma important_is_kept m :
  is_important m = true ->
  LongTermMemory.bind_double (default 0.5%float (item_importance m))
  = Some (default 0.5%float (item_importance m)).
Proof.
  unfold is_important. destruct (item_importance m) as [f |]; [| discriminate].
  intros H. apply andb_true_iff in H. apply bind_double_truthy, H.
Qed.

(** With a database, the loop appends one row for each important memory,
    in order, with the next ids. *)
Lemma store_important_open userId clock l : forall tbl k,
  exists new,
    store_important {| LongTermMemory.db := Some tbl |} userId clock k l
    = (JS.Normal tt,
       {| LongTermMemory.db :=
            Some {| LongTermMemory.rows := LongTermMemory.rows tbl ++ new;
                    LongTermMemory.seq := LongTermMemory.seq tbl + Z.of_nat (length new) |} |})
    /\ List.map LongTermMemory.content new
       = List.map stored_content (List.filter is_important l)
    /\ List.map LongTermMemory.importance new
       = List.map (fun m => Some (default 0.5%float (item_importance m)))
           (List.filter is_important l)
    /\ List.map LongTermMemory.id new
       = List.map (fun i => LongTermMemory.seq tbl + 1 + Z.of_nat i)
           (List.seq 0 (length new))
    /\ Forall (fun r => LongTermMemory.user_id r = userId) new.
Proof.
  induction l as [| m l IH]; intros tbl k.
  - exists []. cbn [store_important length List.filter List.map List.seq].
    rewrite app_nil_r, Z.add_0_r. destruct tbl; repeat split; constructor.
  - cbn [store_important List.filter]. destruct (is_important m) eqn:E.
    + unfold LongTermMemory.store. cbn [LongTermMemory.db].
      match goal with
      | |- context [store_important {| LongTermMemory.db := Some ?t |} _ _ _ _] =>
          destruct (IH t (S k)) as (new & Heq & Hcontent & Himp & Hids & Hall)
      end.
      cbn [LongTermMemory.rows LongTermMemory.seq] in Heq, Hids.
      eexists (_ :: new). rewrite Heq. split; [| split; [| split; [| split]]].
      * rewrite <- app_assoc. cbn [app length]. do 4 f_equal. lia.
      * cbn [List.map LongTermMemory.content]. rewrite Hcontent. reflexivity.
      * cbn [List.map LongTermMemory.importance]. rewrite Himp, (important_is_kept m E).
        reflexivity.
      * cbn [List.map LongTermMemory.id length List.seq]. f_equal; [lia |].
        rewrite Hids, <- seq_shift, List.map_map. apply List.map_ext. intros i. lia.
      * constructor; [reflexivity | exact Hall].
    + exact (IH tbl (S k)).
Qed.

Lemma filter_none_important l :
  Forall (fun m => item_importance m = None) l -> List.filter is_important l = [].
Proof.
  induction 1 as [| m l Hm _ IH]; [reflexivity |].
  cbn [List.filter]. unfold is_important at 1. rewrite Hm. exact IH.
Qed.

Lemma existsb_filter_nil {A} (p : A -> bool) l :
  List.filter p l = [] -> existsb p l = false.
Proof.
  induction l as [| a l IH]; [reflexivity |]. cbn [List.filter existsb].
  destruct (p a); [discriminate | exact IH].
Qed.

(** The loop over memories none of which is important writes nothing and
    does not throw, database or not. *)
Lemma store_important_nothing ltm userId clock l k :
  List.filter is_important l = [] ->
  store_important ltm userId clock k l = (JS.Normal tt, ltm).
Proof.
  revert k. induction l as [| m l IH]; intros k; cbn [store_important List.filter];
    [reflexivity |].
  destruct (is_important m); [discriminate | apply IH].
Qed.

(** The trim of the default threshold. *)
Lemma trim_to_80 stm userId items :
  ShortTermMemory.memory stm !! userId = Some items ->
  100 < Z.of_nat (length items) ->
  ShortTermMemory.getAll (ShortTermMemory.cleanup stm userId 80) userId
  = keep_last 80 items.
Proof.
  intros Hmem Hlen. unfold ShortTermMemory.cleanup. rewrite Hmem.
  change (JS.Z_gt_float (Z.of_nat (length items)) 80) with (80 <? Z.of_nat (length items)).
  replace (80 <? Z.of_nat (length items)) with true by (symmetry; apply Z.ltb_lt; lia).
  change (JS.ToIntegerOrInfinity (- 80)%float) with (JS.Finite (- 80)).
  unfold ShortTermMemory.getAll. cbn [ShortTermMemory.memory].
  rewrite lookup_insert_eq. apply (slice_from_last items 80). lia.
Qed.

(** The consolidation of a buffer above the default threshold, in terms
    of the loop. *)
Lemma consolidation_above_threshold self userId clock items :
  ShortTermMemory.memory (shortTermMemory self) !! userId = Some items ->
  100 < Z.of_nat (length items) ->
  consolidateMemoryIfNeeded self userId None clock
  = match store_important (longTermMemory self) userId clock 0 (firstn 20 items) with
    | (JS.Throw e, ltm') =>
        (JS.Throw e, with_tiers self ltm' (ragMemory self))
    | (JS.Normal _, ltm') =>
        (JS.Normal tt,
         {| shortTermMemory := ShortTermMemory.cleanup (shortTermMemory self) userId 80;
            longTermMemory := ltm';
            ragMemory := ragMemory self;
            isInitialized := isInitialized self |})
    end.
Proof.
  intros Hmem Hlen. unfold consolidateMemoryIfNeeded.
  rewrite keepCount_default.
  unfold ShortTermMemory.getCount at 1. rewrite Hmem.
  change (JS.parseInt_or None 100) with 100.
  replace (100 <? Z.of_nat (length items)) with true by (symmetry; apply Z.ltb_lt; lia).
  unfold ShortTermMemory.getOldest. rewrite Hmem.
  rewrite slice_first by lia. change (Z.to_nat 20) with 20%nat.
  destruct (store_important _ _ _ _ _) as [[u | e] ltm']; reflexivity.
Qed.

Lemma existsb_same {A} (p q : A -> bool) l :
  (forall a, p a = q a) -> existsb p l = existsb q l.
Proof.
  intros H. induction l as [| a l IH]; [reflexivity |].
  cbn [existsb]. rewrite H, IH. reflexivity.
Qed.

Lemma with_own_tiers self : with_tiers self (longTermMemory self) (ragMemory self) = self.
Proof. destruct self. reflexivity. Qed.

(** X23.  With the database closed and the default threshold, a buffer
    of more than 100 events is trimmed only if none of its 20 oldest
    events is important: one important event among them makes the
    consolidation throw and leaves the whole engine as it was. *)
Theorem closed_database_blocks_the_trim
    (self : MemoryManager.t) (userId : string) (clock : nat -> Z) (items : list MemoryItem) :
  LongTermMemory.db (longTermMemory self) = None ->
  ShortTermMemory.memory (shortTermMemory self) !! userId = Some items ->
  100 < Z.of_nat (length items) ->
  let '(result, after) := consolidateMemoryIfNeeded self userId None clock in
  if existsb importance_above_07 (firstn 20 items)
  then result = JS.Throw LongTermMemory.null_db /\ after = self
  else result = JS.Normal tt
       /\ longTermMemory after = longTermMemory self
       /\ ShortTermMemory.getAll (shortTermMemory after) userId = keep_last 80 items.
Proof.
  intros Hdb Hmem Hlen.
  rewrite (consolidation_above_threshold self userId clock items Hmem Hlen).
  rewrite store_important_closed by exact Hdb.
  replace (existsb importance_above_07 (firstn 20 items))
    with (existsb is_important (firstn 20 items))
    by (apply existsb_same; intros m; apply is_important_above).
  destruct (existsb is_important (firstn 20 items)).
  - split; [reflexivity | apply with_own_tiers].
  - split; [reflexivity |]. split; [reflexivity |].
    cbn [shortTermMemory]. apply trim_to_80; assumption.
Qed.

(** X24.  Events that carry no importance, as [processMessage] records
    them, are never promoted: with the default threshold, a buffer of
    more than 100 events whose 20 oldest carry none is cut to its 80
    newest, and the Durable Store is what it was, database or not. *)
Theorem unscored_events_are_dropped
    (self : MemoryManager.t) (userId : string) (clock : nat -> Z) (items : list MemoryItem) :
  ShortTermMemory.memory (shortTermMemory self) !! userId = Some items ->
  100 < Z.of_nat (length items) ->
  Forall (fun m => item_importance m = None) (firstn 20 items) ->
  let '(result, after) := consolidateMemoryIfNeeded self userId None clock in
  result = JS.Normal tt
  /\ longTermMemory after = longTermMemory self
  /\ ragMemory after = ragMemory self
  /\ ShortTermMemory.getAll (shortTermMemory after) userId = keep_last 80 items.
Proof.
  intros Hmem Hlen Hnone.
  rewrite (consolidation_above_threshold self userId clock items Hmem Hlen).
  rewrite store_important_nothing by (apply filter_none_important, Hnone).
  repeat split. cbn [shortTermMemory]. apply trim_to_80; assumption.
Qed.

(** X25.  What a promoted event becomes: with the default threshold and
    the database open, the consolidation appends, for each important
    event among the 20 oldest and in their order, a row with the next
    id, the event's importance, and a content made of the event's
    [userMessage], [botResponse] and [timestamp]; the event's [content]
    text, [type] and [platform] are not part of the row. *)
Theorem promoted_rows_carry_three_fields
    (self : MemoryManager.t) (userId : string) (clock : nat -> Z)
    (tbl : LongTermMemory.Table) (items : list MemoryItem) :
  LongTermMemory.db (longTermMemory self) = Some tbl ->
  ShortTermMemory.memory (shortTermMemory self) !! userId = Some items ->
  100 < Z.of_nat (length items) ->
  let promoted := List.filter importance_above_07 (firstn 20 items) in
  let after := snd (consolidateMemoryIfNeeded self userId None clock) in
  exists new,
    LongTermMemory.all_rows (longTermMemory after) = LongTermMemory.rows tbl ++ new
    /\ List.map LongTermMemory.content new = List.map stored_content promoted
    /\ List.map LongTermMemory.importance new
       = List.map (fun m => Some (default 0.5%float (item_importance m))) promoted
    /\ List.map LongTermMemory.id new
       = List.map (fun i => LongTermMemory.seq tbl + 1 + Z.of_nat i)
           (List.seq 0 (length promoted)).
Proof.
  intros Hdb Hmem Hlen promoted after. subst after.
  rewrite (consolidation_above_threshold self userId clock items Hmem Hlen).
  destruct (longTermMemory self) as [d] eqn:El. cbn [LongTermMemory.db] in Hdb. subst d.
  destruct (store_important_open userId clock (firstn 20 items) tbl 0)
    as (new & Heq & Hcontent & Himp & Hids & _).
  rewrite Heq. cbn [snd longTermMemory LongTermMemory.all_rows LongTermMemory.db
                    LongTermMemory.rows].
  assert (Hp : List.filter is_important (firstn 20 items) = promoted)
    by (apply filter_ext; intros m; apply is_important_above).
  rewrite Hp in *.
  exists new. split; [reflexivity |]. split; [exact Hcontent |]. split; [exact Himp |].
  rewrite Hids. f_equal. f_equal.
  rewrite <- (length_map LongTermMemory.content new), Hcontent, length_map. reflexivity.
Qed.

End ConsolidationEdges.

Lemma closed_database_blocks_the_trim_witness :
  let '(result, after) :=
    MemoryManager.consolidateMemoryIfNeeded (engine_without_database 101) "alice" None
      sample_clock in
  if existsb importance_above_07
       (firstn 20 (ShortTermMemory.getAll
                     (MemoryManager.shortTermMemory (engine_without_database 101)) "alice"))
  then result = JS.Throw LongTermMemory.null_db /\ after = engine_without_database 101
  else result = JS.Normal tt
       /\ MemoryManager.longTermMemory after
          = MemoryManager.longTermMemory (engine_without_database 101)
       /\ ShortTermMemory.getAll (MemoryManager.shortTermMemory after) "alice"
          = keep_last 80
              (ShortTermMemory.getAll
                 (MemoryManager.shortTermMemory (engine_without_database 101)) "alice").
Proof.
  apply (closed_database_blocks_the_trim (engine_without_database 101) "alice" sample_clock
           (ShortTermMemory.getAll
              (MemoryManager.shortTermMemory (engine_without_database 101)) "alice")).
  - reflexivity.
  - vm_compute. reflexivity.
  - vm_compute. reflexivity.
Defined.

Lemma unscored_events_are_dropped_witness :
  let '(result, after) :=
    MemoryManager.consolidateMemoryIfNeeded (unscored_engine 101) "alice" None sample_clock in
  result = JS.Normal tt
  /\ MemoryManager.longTermMemory after = MemoryManager.longTermMemory (unscored_engine 101)
  /\ MemoryManager.ragMemory after = MemoryManager.ragMemory (unscored_engine 101)
  /\ ShortTermMemory.getAll (MemoryManager.shortTermMemory after) "alice"
     = keep_last 80
         (ShortTermMemory.getAll (MemoryManager.shortTermMemory (unscored_engine 101)) "alice").
Proof.
  apply (unscored_events_are_dropped (unscored_engine 101) "alice" sample_clock
           (ShortTermMemory.getAll (MemoryManager.shortTermMemory (unscored_engine 101))
              "alice")).
  - vm_compute. reflexivity.
  - vm_compute. reflexivity.
  - vm_compute. repeat constructor.
Defined.

Lemma promoted_rows_carry_three_fields_witness :
  exists new,
    LongTermMemory.all_rows
      (MemoryManager.longTermMemory
         (snd (MemoryManager.consolidateMemoryIfNeeded (engine_after 101) "alice" None
                 sample_clock)))
    = LongTermMemory.rows {| LongTermMemory.rows := []; LongTermMemory.seq := 0 |} ++ new
    /\ List.map LongTermMemory.content new
       = List.map stored_content
           (List.filter importance_above_07
              (firstn 20 (ShortTermMemory.getAll
                            (MemoryManager.shortTermMemory (engine_after 101)) "alice")))
    /\ List.map LongTermMemory.importance new
       = List.map (fun m => Some (default 0.5%float (item_importance m)))
           (List.filter importance_above_07
              (firstn 20 (ShortTermMemory.getAll
                            (MemoryManager.shortTermMemory (engine_after 101)) "alice")))
    /\ List.map LongTermMemory.id new
       = List.map (fun i => LongTermMemory.seq {| LongTermMemory.rows := [];
                                                  LongTermMemory.seq := 0 |} + 1 + Z.of_nat i)
           (List.seq 0 (length
              (List.filter importance_above_07
                 (firstn 20 (ShortTermMemory.getAll
                               (MemoryManager.shortTermMemory (engine_after 101)) "alice"))))).
Proof.
  apply (promoted_rows_carry_three_fields (engine_after 101) "alice" sample_clock
           {| LongTermMemory.rows := []; LongTermMemory.seq := 0 |}
           (ShortTermMemory.getAll (MemoryManager.shortTermMemory (engine_after 101)) "alice")).
  - reflexivity.
  - vm_compute. reflexivity.
  - vm_compute. reflexivity.
Defined.

(** The rows that the consolidation of the sample conversation writes:
    the three notes, without their text. *)
Example promoted_notes_lose_their_text :
  let after :=
    snd (MemoryManager.consolidateMemoryIfNeeded (engine_after 101) "alice" None sample_clock) in
  List.map LongTermMemory.content (LongTermMemory.all_rows (MemoryManager.longTermMemory after))
  = List.map (fun k => LongTermMemory.Serialized
                         {| c_userMessage := None; c_botResponse := None;
                            c_timestamp := Some k |}) [0; 1; 2].
Proof. vm_compute. reflexivity. Qed.

Section UpdateAndSearch.
Import MemoryManager.
Context {P : Platform}.

(** X26.  When the turn is to be promoted and the database is closed,
    [updateLongTermMemory] changes nothing: the turn is not indexed
    either, and the buffer is not consolidated, however full it is. *)
Theorem closed_database_stops_the_update
    (self : MemoryManager.t) (userId userMessage botResponse : string)
    (storedAt indexedAt : Z) (addedAt : string)
    (LONG_MEMORY_THRESHOLD : option Z) (clock : nat -> Z) :
  LongTermMemory.db (longTermMemory self) = None ->
  shouldStoreInLongTerm userMessage botResponse = true ->
  updateLongTermMemory self userId userMessage botResponse storedAt indexedAt addedAt
    LONG_MEMORY_THRESHOLD clock
  = self.
Proof.
  intros Hdb Hshould. unfold updateLongTermMemory. rewrite Hshould.
  rewrite store_without_db by exact Hdb. apply with_own_tiers.
Qed.

(** SQLite keeps a score of [calculateImportance] as it is. *)
Lemma score_is_kept userMessage botResponse :
  LongTermMemory.bind_double (calculateImportance userMessage botResponse)
  = Some (calculateImportance userMessage botResponse).
Proof.
  rewrite calculateImportance_flags. cbv zeta.
  generalize (JS.includes (JS.toLowerCase (userMessage ++ " " ++ botResponse)) "important"),
    (JS.includes (JS.toLowerCase (userMessage ++ " " ++ botResponse)) "urgent"),
    (JS.includes (JS.toLowerCase (userMessage ++ " " ++ botResponse)) "critical"),
    (JS.includes (JS.toLowerCase (userMessage ++ " " ++ botResponse)) "remember"),
    (JS.includes (JS.toLowerCase (userMessage ++ " " ++ botResponse)) "project"),
    (JS.includes (JS.toLowerCase (userMessage ++ " " ++ botResponse)) "task"),
    (JS.includes (JS.toLowerCase (userMessage ++ " " ++ botResponse)) "deadline"),
    (JS.includes (JS.toLowerCase (userMessage ++ " " ++ botResponse)) "meeting"),
    (500 <? JS.strlen botResponse), (200 <? JS.strlen userMessage).
  intros i u c r p t d m lr lm.
  apply bind_double_truthy.
  destruct i, u, c, r, p, t, d, m, lr, lm; reflexivity.
Qed.

Lemma conversation_not_blank userId userMessage botResponse timestamp :
  blank (RAGMemory.in_content
           (conversation_document userId userMessage botResponse timestamp)) = false.
Proof.
  cbn [conversation_document RAGMemory.in_content blank].
  rewrite app_String. reflexivity.
Qed.

Lemma consolidation_below_threshold self userId LONG_MEMORY_THRESHOLD clock :
  ShortTermMemory.getCount (shortTermMemory self) userId
    <= JS.parseInt_or LONG_MEMORY_THRESHOLD 100 ->
  consolidateMemoryIfNeeded self userId LONG_MEMORY_THRESHOLD clock = (JS.Normal tt, self).
Proof.
  intros Hcount. unfold consolidateMemoryIfNeeded.
  replace (_ <? _) with false by (symmetry; apply Z.ltb_ge; exact Hcount).
  reflexivity.
Qed.

(** X27.  A promoted turn, with the database open, the index initialized
    and the buffer within the threshold: the Durable Store gains exactly
    one row, of that user, with the next id, the turn's two texts, the
    time of the call and the score of [calculateImportance]; the index
    holds a document "User: ...\nBot: ..." under the id of its content
    and metadata; the buffer is what it was. *)
Theorem promoted_turn_is_stored_and_indexed
    (self : MemoryManager.t) (userId userMessage botResponse : string)
    (storedAt indexedAt : Z) (addedAt : string)
    (LONG_MEMORY_THRESHOLD : option Z) (clock : nat -> Z)
    (tbl : LongTermMemory.Table) (docs : list (string * RAGMemory.Document)) :
  LongTermMemory.db (longTermMemory self) = Some tbl ->
  RAGMemory.documents (ragMemory self) = Some docs ->
  shouldStoreInLongTerm userMessage botResponse = true ->
  ShortTermMemory.getCount (shortTermMemory self) userId
    <= JS.parseInt_or LONG_MEMORY_THRESHOLD 100 ->
  let after :=
    updateLongTermMemory self userId userMessage botResponse storedAt indexedAt addedAt
      LONG_MEMORY_THRESHOLD clock in
  let document := conversation_document userId userMessage botResponse indexedAt in
  let text := ("User: " ++ userMessage ++ newline ++ "Bot: " ++ botResponse)%string in
  shortTermMemory after = shortTermMemory self
  /\ (exists row,
        LongTermMemory.all_rows (longTermMemory after) = LongTermMemory.rows tbl ++ [row]
        /\ LongTermMemory.id row = LongTermMemory.seq tbl + 1
        /\ LongTermMemory.user_id row = userId
        /\ LongTermMemory.content row
           = LongTermMemory.Serialized
               {| c_userMessage := Some userMessage; c_botResponse := Some botResponse;
                  c_timestamp := Some storedAt |}
        /\ LongTermMemory.timestamp row = storedAt
        /\ LongTermMemory.importance row
           = Some (calculateImportance userMessage botResponse))
  /\ (exists doc,
        In (RAGMemory.generateDocumentId text
              (default [] (RAGMemory.in_metadata document)), doc)
           (default [] (RAGMemory.documents (ragMemory after)))
        /\ RAGMemory.doc_content doc = text).
Proof.
  intros Hdb Hdocs Hshould Hcount after document text. subst after document text.
  unfold updateLongTermMemory. rewrite Hshould.
  unfold LongTermMemory.store. rewrite Hdb.
  rewrite addDocument_cases.
  pose proof (conversation_not_blank userId userMessage botResponse indexedAt) as Hnb.
  cbn [conversation_document RAGMemory.in_content RAGMemory.in_metadata blank] in Hnb |- *.
  rewrite Hnb, Hdocs. cbv zeta.
  rewrite consolidation_below_threshold by exact Hcount.
  cbn [snd with_tiers shortTermMemory longTermMemory ragMemory
       LongTermMemory.all_rows LongTermMemory.db LongTermMemory.rows RAGMemory.documents].
  split; [reflexivity |]. split.
  - eexists. split; [reflexivity |].
    repeat split. exact (score_is_kept userMessage botResponse).
  - eexists. split; [apply Map_set_In | reflexivity].
Qed.

Lemma store_appends ltm userId memoryData now :
  exists new,
    LongTermMemory.all_rows (snd (LongTermMemory.store ltm userId memoryData now))
    = LongTermMemory.all_rows ltm ++ new.
Proof.
  unfold LongTermMemory.store, LongTermMemory.all_rows.
  destruct (LongTermMemory.db ltm) as [tbl |] eqn:E; cbn [snd LongTermMemory.db LongTermMemory.rows].
  - eexists. reflexivity.
  - rewrite E. exists []. reflexivity.
Qed.

Lemma store_important_appends ltm userId clock k l :
  exists new,
    LongTermMemory.all_rows (snd (store_important ltm userId clock k l))
    = LongTermMemory.all_rows ltm ++ new.
Proof.
  destruct ltm as [[tbl |]].
  - destruct (store_important_open userId clock l tbl k) as (new & Heq & _).
    rewrite Heq. exists new. reflexivity.
  - rewrite store_important_closed by reflexivity. exists []. reflexivity.
Qed.

Lemma consolidation_appends self userId LONG_MEMORY_THRESHOLD clock :
  let after := snd (consolidateMemoryIfNeeded self userId LONG_MEMORY_THRESHOLD clock) in
  (exists new,
     LongTermMemory.all_rows (longTermMemory after)
     = LongTermMemory.all_rows (longTermMemory self) ++ new)
  /\ ragMemory after = ragMemory self
  /\ isInitialized after = isInitialized self.
Proof.
  cbv zeta. unfold consolidateMemoryIfNeeded.
  destruct (_ <? _); [| split; [exists []; rewrite app_nil_r; reflexivity | split; reflexivity]].
  pose proof (store_important_appends (longTermMemory self) userId clock 0
                (ShortTermMemory.getOldest (shortTermMemory self) userId 20)) as [new Hnew].
  destruct (store_important _ _ _ _ _) as [[u | e] ltm']; cbn [snd] in *;
    (split; [exists new; exact Hnew | split; reflexivity]).
Qed.

(** X28.  [updateLongTermMemory] only adds to the two lasting tiers:
    whatever the turn, the threshold and the state of the engine, the
    rows that were stored are still there, in place, before any new one,
    and every document id that was stored is still stored. *)
Theorem update_only_appends
    (self : MemoryManager.t) (userId userMessage botResponse : string)
    (storedAt indexedAt : Z) (addedAt : string)
    (LONG_MEMORY_THRESHOLD : option Z) (clock : nat -> Z) :
  let after :=
    updateLongTermMemory self userId userMessage botResponse storedAt indexedAt addedAt
      LONG_MEMORY_THRESHOLD clock in
  (exists new,
     LongTermMemory.all_rows (longTermMemory after)
     = LongTermMemory.all_rows (longTermMemory self) ++ new)
  /\ incl (stored_ids (ragMemory self)) (stored_ids (ragMemory after))
  /\ isInitialized after = isInitialized self.
Proof.
  cbv zeta. unfold updateLongTermMemory.
  destruct (shouldStoreInLongTerm userMessage botResponse).
  2:{ destruct (consolidation_appends self userId LONG_MEMORY_THRESHOLD clock)
        as (Hrows & Hrag & Hinit).
      split; [exact Hrows |]. split; [rewrite Hrag; apply incl_refl | exact Hinit]. }
  match goal with
  | |- context [LongTermMemory.store ?l ?u ?m ?n] =>
      pose proof (store_appends l u m n) as [new1 Hnew1];
      destruct (LongTermMemory.store l u m n) as [[i | e] ltm]
  end; cbn [snd] in Hnew1.
  2:{ cbn [with_tiers longTermMemory ragMemory isInitialized].
      split; [exists new1; exact Hnew1 | split; [apply incl_refl | reflexivity]]. }
  pose proof (index_step_grows (ragMemory self)
                (IdxAdd (conversation_document userId userMessage botResponse indexedAt)
                        addedAt)) as (Hids & _).
  cbn [index_step] in Hids.
  destruct (RAGMemory.addDocument _ _ _) as [[d | e] rag_]; cbn [snd] in Hids.
  - destruct (consolidation_appends (with_tiers self ltm rag_) userId
                LONG_MEMORY_THRESHOLD clock) as ([new2 Hnew2] & Hrag & Hinit).
    cbn [with_tiers longTermMemory ragMemory isInitialized] in Hnew2, Hrag, Hinit.
    split; [| split; [rewrite Hrag; exact Hids | exact Hinit]].
    exists (new1 ++ new2). rewrite Hnew2, Hnew1, app_assoc. reflexivity.
  - cbn [with_tiers longTermMemory ragMemory isInitialized].
    split; [exists new1; exact Hnew1 | split; [exact Hids | reflexivity]].
Qed.

(** X29.  [searchMemory] keeps what it found before a tier failed: a
    tier's result is in the bundle when the tier is included, its call
    returned, and every included tier before it returned; otherwise that
    part is empty.  Over the engine's own tiers, none of which throws,
    each included part is that tier's search result. *)
Theorem search_keeps_earlier_results (options : SearchMemoryOptions)
    (short : JS.completion (list MemoryItem))
    (long : JS.completion (list LongTermMemory.LongTermRecord))
    (found : JS.completion (list RAGMemory.ScoredDocument))
    (stringify : MemoryItem -> string) (self : MemoryManager.t) (userId query : string) :
  gather options short long found
  = {| shortTerm := if included (includeShortTerm options) then returned short else [];
       longTerm :=
         if included (includeLongTerm options) && passes (includeShortTerm options) short
         then returned long else [];
       rag :=
         if included (includeRAG options) && passes (includeShortTerm options) short
            && passes (includeLongTerm options) long
         then returned found else [] |}
  /\ searchMemory stringify self userId query options
     = {| shortTerm :=
            if included (includeShortTerm options)
            then ShortTermMemory.search stringify (shortTermMemory self) userId query
            else [];
          longTerm :=
            if included (includeLongTerm options)
            then LongTermMemory.search (longTermMemory self) userId query no_search_options
            else [];
          rag :=
            if included (includeRAG options)
            then RAGMemory.search (ragMemory self) query (JS.parseInt_or (ragLimit options) 5)
            else [] |}.
Proof.
  split.
  - unfold gather, passes.
    destruct (included (includeShortTerm options)), (included (includeLongTerm options)),
      (included (includeRAG options)), short, long, found; reflexivity.
  - unfold searchMemory, gather.
    destruct (included (includeShortTerm options)), (included (includeLongTerm options)),
      (included (includeRAG options)); reflexivity.
Qed.

End UpdateAndSearch.

Lemma closed_database_stops_the_update_witness :
  @MemoryManager.updateLongTermMemory sample_platform (engine_without_database 101) "alice"
    "Please remember this" "ok" 500 501 "2024-01-01T00:00:00.000Z" None sample_clock
  = engine_without_database 101.
Proof.
  apply (@closed_database_stops_the_update sample_platform (engine_without_database 101)
           "alice" "Please remember this" "ok" 500 501 "2024-01-01T00:00:00.000Z" None
           sample_clock).
  - reflexivity.
  - reflexivity.
Defined.

Lemma promoted_turn_is_stored_and_indexed_witness :
  let after :=
    @MemoryManager.updateLongTermMemory sample_platform (engine_after 3) "alice"
      "Please remember this" "ok" 500 501 "2024-01-01T00:00:00.000Z" None sample_clock in
  let document := MemoryManager.conversation_document "alice" "Please remember this" "ok" 501 in
  let text := ("User: " ++ "Please remember this" ++ MemoryManager.newline
               ++ "Bot: " ++ "ok")%string in
  MemoryManager.shortTermMemory after = MemoryManager.shortTermMemory (engine_after 3)
  /\ (exists row,
        LongTermMemory.all_rows (MemoryManager.longTermMemory after)
        = LongTermMemory.rows {| LongTermMemory.rows := []; LongTermMemory.seq := 0 |} ++ [row]
        /\ LongTermMemory.id row
           = LongTermMemory.seq {| LongTermMemory.rows := []; LongTermMemory.seq := 0 |} + 1
        /\ LongTermMemory.user_id row = "alice"%string
        /\ LongTermMemory.content row
           = LongTermMemory.Serialized
               {| c_userMessage := Some "Please remember this"%string;
                  c_botResponse := Some "ok"%string;
                  c_timestamp := Some 500 |}
        /\ LongTermMemory.timestamp row = 500
        /\ LongTermMemory.importance row
           = Some (MemoryManager.calculateImportance "Please remember this" "ok"))
  /\ (exists doc,
        In (@RAGMemory.generateDocumentId sample_platform text
              (default [] (RAGMemory.in_metadata document)), doc)
           (default [] (RAGMemory.documents (MemoryManager.ragMemory after)))
        /\ RAGMemory.doc_content doc = text).
Proof.
  apply (@promoted_turn_is_stored_and_indexed sample_platform (engine_after 3) "alice"
           "Please remember this" "ok" 500 501 "2024-01-01T00:00:00.000Z" None sample_clock
           {| LongTermMemory.rows := []; LongTermMemory.seq := 0 |} []).
  - reflexivity.
  - reflexivity.
  - reflexivity.
  - vm_compute. discriminate.
Defined.

(* ===================================================================== *)
(** * Orchestrator: from an added event to the context *)
(* ===================================================================== *)

Section AddThenContext.
Import MemoryManager.
Context {P : Platform}.

Lemma keep_last_snoc {A} (n : nat) (l : list A) (x : A) :
  (0 < n)%nat -> exists front, keep_last n (l ++ [x]) = front ++ [x].
Proof.
  intros Hn. unfold keep_last. rewrite length_app. cbn [length].
  exists (skipn (length l + 1 - n) l).
  rewrite skipn_app.
  replace (length l + 1 - n - length l)%nat with 0%nat by lia.
  reflexivity.
Qed.

(** X30.  On an initialized engine whose buffer has room for at least
    one event, [addToShortMemory] returns the event's id (its own, or
    the fresh one), and the context assembled next for that user has
    the added event first in its short-term part. *)
Theorem added_event_heads_the_context
    (self : MemoryManager.t) (userId freshId : string) (now : Z) (memoryItem : MemoryItem)
    (query : string) :
  isInitialized self = true ->
  0 < ShortTermMemory.maxItems (shortTermMemory self) ->
  let '(result, after) := addToShortMemory self userId freshId now memoryItem in
  result = JS.Normal (default freshId (item_id memoryItem))
  /\ exists bundle,
       getRelevantContext after userId query = JS.Normal bundle
       /\ hd_error (shortTerm bundle) = Some (ShortTermMemory.stamp freshId now memoryItem).
Proof.
  intros Hinit Hroom. unfold addToShortMemory. rewrite Hinit. cbn [negb].
  pose proof (add_getAll (shortTermMemory self) userId freshId now memoryItem) as Hall.
  destruct (ShortTermMemory.add (shortTermMemory self) userId freshId now memoryItem)
    as [id stm] eqn:Hadd.
  assert (Hid : id = default freshId (item_id memoryItem)).
  { unfold ShortTermMemory.add in Hadd. injection Hadd as <- _. reflexivity. }
  cbn [snd] in Hall. split; [rewrite Hid; reflexivity |].
  unfold getRelevantContext, assemble.
  cbn [isInitialized shortTermMemory longTermMemory ragMemory].
  cbn [negb JS.bind JS.try_catch].
  eexists. split; [reflexivity |]. cbn [shortTerm].
  rewrite getRecent_getAll, slice_from_last by lia. rewrite Hall.
  destruct (keep_last_snoc (Z.to_nat (ShortTermMemory.maxItems (shortTermMemory self)))
              (ShortTermMemory.getAll (shortTermMemory self) userId)
              (ShortTermMemory.stamp freshId now memoryItem)) as [front Hfront]; [lia |].
  rewrite Hfront.
  destruct (keep_last_snoc (Z.to_nat 10) front
              (ShortTermMemory.stamp freshId now memoryItem)) as [front' Hfront']; [lia |].
  rewrite Hfront', rev_app_distr. reflexivity.
Qed.

End AddThenContext.

Lemma added_event_heads_the_context_witness :
  let '(result, after) :=
    MemoryManager.addToShortMemory (engine_after 3) "alice" "fresh" 7
      (user_message "hello" 7) in
  result = JS.Normal (default "fresh"%string (item_id (user_message "hello" 7)))
  /\ exists bundle,
       @MemoryManager.getRelevantContext sample_platform after "alice" "hello"
       = JS.Normal bundle
       /\ hd_error (MemoryManager.shortTerm bundle)
          = Some (ShortTermMemory.stamp "fresh" 7 (user_message "hello" 7)).
Proof.
  apply (@added_event_heads_the_context sample_platform (engine_after 3) "alice" "fresh" 7
           (user_message "hello" 7) "hello").
  - reflexivity.
  - reflexivity.
Defined.
